(** * machine.js: the DFA and DPDA execution engines

    A shallow embedding of [Machine.DFA] (both variants present in the
    sources: [src/src/DFA.js], and [src/unnamed/part_000] which adds epsilon
    transitions) and of [Machine.DPDA] ([src/src/DFA.js]), followed by the
    properties of their step / halt / acceptance state machines.

    JavaScript methods mutate [this] and may throw: a method is modelled as
    a function from the receiver's state to a completion (normal value or
    thrown error) paired with the receiver's state afterwards, so that what
    a method did before throwing stays visible.  Callback slots ([onStep],
    [onHalt], ...) are observers: every invocation is appended to the
    machine's [trace]. Counters are JavaScript numbers used as naturals. *)

From Stdlib Require Import String List Bool Arith Lia.
Import ListNotations.

Set Implicit Arguments.

(** ** Methods: receiver state plus exceptions *)

Inductive Completion (A : Type) : Type :=
| Normal (value : A)
| Throw (message : string).

Arguments Normal {A} value.
Arguments Throw {A} message.

Definition Method (S A : Type) : Type := S -> Completion A * S.

Definition ret {S A : Type} (a : A) : Method S A :=
  fun s => (Normal a, s).

Definition bind {S A B : Type} (c : Method S A) (k : A -> Method S B) : Method S B :=
  fun s =>
    match c s with
    | (Normal a, s') => k a s'
    | (Throw e, s') => (Throw e, s')
    end.

Definition throw {S A : Type} (message : string) : Method S A :=
  fun s => (Throw message, s).

Definition gets {S A : Type} (f : S -> A) : Method S A :=
  fun s => (Normal (f s), s).

Definition modify {S : Type} (f : S -> S) : Method S unit :=
  fun s => (Normal tt, f s).

Definition when {S : Type} (b : bool) (c : Method S unit) : Method S unit :=
  if b then c else ret tt.

Declare Scope method_scope.
Delimit Scope method_scope with method.
Notation "x <- c1 ;; c2" := (bind c1 (fun x => c2))
  (at level 61, c1 at next level, right associativity) : method_scope.
Notation "c1 ;; c2" := (bind c1 (fun _ => c2))
  (at level 61, right associativity) : method_scope.

(** ** Collaborators of the engines

    [Machine.Alphabet], [Machine.State], [Machine.Condition],
    [Machine.Command], [Machine.TransitionFunction], [Machine.Tape],
    [Machine.Stack] and [Machine.BaseMachine] are used by the engines but
    their sources are not part of [src/]. *)

(** The reserved epsilon symbol [Machine.Alphabet.EPSILON_STRING]: the
    constant is declared with the alphabet, so its value is a parameter of
    the whole development. *)
Class AlphabetConstants : Type := { EPSILON_STRING : string }.

(** [x == Machine.Alphabet.EPSILON_STRING] where [x] may be [undefined]
    (a condition built without a stack element). *)
Definition isEpsilon {K : AlphabetConstants} (x : option string) : bool :=
  match x with
  | Some s => String.eqb s EPSILON_STRING
  | None => false
  end.

Module State.
(** Modelled from the spec: [Machine.State], a labelled node with an
    accepting flag, read through [getLabel] and [getIsAccepting]. *)
Record t : Type := { getLabel : string; getIsAccepting : bool }.

Definition eqb (a b : t) : bool :=
  String.eqb (getLabel a) (getLabel b)
  && Bool.eqb (getIsAccepting a) (getIsAccepting b).
End State.

Module Condition.
(** Modelled from the spec: [Machine.Condition], the key
    (state, input symbol, required stack-top symbol); the DFA builds it
    without the stack element. *)
Record t : Type :=
  { getState : State.t;
    getCharacter : string;
    getStackElement : option string }.

Definition eqb (a b : t) : bool :=
  State.eqb (getState a) (getState b)
  && String.eqb (getCharacter a) (getCharacter b)
  && match getStackElement a, getStackElement b with
     | Some x, Some y => String.eqb x y
     | None, None => true
     | _, _ => false
     end.
End Condition.

Module Command.
(** Modelled from the spec: [Machine.Command], a destination state with
    an optional stack action; [Machine.Command.STACK_CHANGE] carries the
    string to push as its argument. *)
Inductive Action : Type :=
| NoAction
| STACK_CHANGE (argument : string).

Record t : Type := { getState : State.t; getAction : Action }.
End Command.

Module TransitionFunction.
(** The interface the engines consume: [getCommand] answers [null]
    ([None]) for a condition without a registered command. *)
Record t : Type :=
  { getCommand : Condition.t -> option Command.t;
    hasEpsilonTransition : State.t -> bool;
    getEpsilonTransitionCondition : State.t -> Condition.t }.

Section OfList.
Context {K : AlphabetConstants}.

Definition isEpsilonFor (s : State.t) (entry : Condition.t * Command.t) : bool :=
  State.eqb (Condition.getState (fst entry)) s
  && String.eqb (Condition.getCharacter (fst entry)) EPSILON_STRING.

(** Modelled from the spec: a [Machine.TransitionFunction] holding the
    registered (condition, command) pairs; a state has an epsilon
    transition iff one of its registered conditions uses the epsilon
    symbol, and that condition is the stored epsilon condition. *)
Definition ofList (entries : list (Condition.t * Command.t)) : t :=
  {| getCommand := fun c =>
       option_map snd (find (fun e => Condition.eqb (fst e) c) entries);
     hasEpsilonTransition := fun s => existsb (isEpsilonFor s) entries;
     getEpsilonTransitionCondition := fun s =>
       match find (isEpsilonFor s) entries with
       | Some e => fst e
       | None => {| Condition.getState := s;
                    Condition.getCharacter := EPSILON_STRING;
                    Condition.getStackElement := None |}
       end |}.
End OfList.

(** A transition function is coherent when every registered condition
    on the epsilon symbol is reported by [hasEpsilonTransition]. *)
Definition coherent {K : AlphabetConstants} (tf : t) : Prop :=
  forall c cmd,
    getCommand tf c = Some cmd ->
    Condition.getCharacter c = EPSILON_STRING ->
    hasEpsilonTransition tf (Condition.getState c) = true.
End TransitionFunction.

Module Alphabet.
(** The interface the engines consume: membership of a symbol,
    compatibility of a string, the blank symbol. *)
Record t : Type :=
  { contains : string -> bool;
    isCompatibleWith : string -> bool;
    getBlank : string }.

(** Modelled from the spec: [Machine.Alphabet.UNRESTRICTED], the default
    alphabet, which admits every symbol. *)
Definition UNRESTRICTED : t :=
  {| contains := fun _ => true;
     isCompatibleWith := fun _ => true;
     getBlank := " " |}.

(** Modelled from the spec: an alphabet given by its blank and its
    symbols; a string is compatible when each of its characters is a
    symbol of the alphabet. *)
Definition ofChars (blank : string) (chars : list string) : t :=
  {| contains := fun c => existsb (String.eqb c) chars;
     isCompatibleWith := fun s =>
       forallb (fun a => existsb (String.eqb (String a EmptyString)) chars)
               (list_ascii_of_string s);
     getBlank := blank |}.
End Alphabet.

Module Tape.
(** Modelled from the spec: [Machine.Tape], the input symbols in order;
    [charAt] answers the symbol at a position, and the epsilon sentinel at
    or past the length. *)
Definition t : Type := string.
Definition length (tape : t) : nat := String.length tape.
Definition charAt {K : AlphabetConstants} (tape : t) (i : nat) : string :=
  if i <? length tape then String.substring i 1 tape else EPSILON_STRING.
Definition setChars (input : string) (_ : t) : t := input.
End Tape.

Module Stack.
(** Modelled from the spec: [Machine.Stack], a LIFO of strings, each
    pushed and popped as one unit; the head of the list is the top.
    [peek] on the empty stack answers the epsilon sentinel, [pop] on the
    empty stack answers [undefined] and leaves it empty. *)
Definition t : Type := list string.
Definition push (str : string) (s : t) : t := str :: s.
Definition pop (s : t) : option string * t :=
  match s with
  | [] => (None, [])
  | c :: rest => (Some c, rest)
  end.
Definition peek {K : AlphabetConstants} (s : t) : string :=
  match s with
  | [] => EPSILON_STRING
  | c :: _ => c
  end.
Definition isEmpty (s : t) : bool :=
  match s with [] => true | _ => false end.
Definition clear (_ : t) : t := [].
End Stack.

(** Every invocation of a callback slot, with the arguments the engine
    reads for it. *)
Inductive Event : Type :=
| onAccept (state : State.t) (stepCount pointer : nat)
| onReject (state : State.t) (stepCount pointer : nat)
| onHalt (state : State.t) (stepCount pointer : nat)
| onStep (condition : Condition.t) (command : Command.t) (stepCount pointer : nat)
| onPointerChange (position : nat)
| onStackPop (character : option string)
| onStackPush (str : string).

(** ** [Machine.DFA] of [src/src/DFA.js]

    The variant without epsilon handling: the halting test is inlined in
    [step] and looks at the tape cursor only. *)
Module DFA.

(** The fields of a [Machine.DFA] instance; the first six are the
    [Machine.BaseMachine] part. *)
Record t : Type := mk
  { alphabet : Alphabet.t;
    transitionFunction : TransitionFunction.t;
    initialState : State.t;
    currentState : State.t;
    stepCount : nat;
    isHalted : bool;
    isAccepted : bool;
    tape : Tape.t;
    pointerPosition : nat;
    trace : list Event }.

(** The configuration object of the constructor. *)
Record Attribs : Type := { attribs_alphabet : option Alphabet.t }.

Section Engine.
Context {K : AlphabetConstants}.
Local Open Scope method_scope.

Definition emit (e : Event) : Method t unit :=
  modify (fun m => mk (alphabet m) (transitionFunction m) (initialState m)
    (currentState m) (stepCount m) (isHalted m) (isAccepted m) (tape m)
    (pointerPosition m) (trace m ++ [e])).

(** Modelled from the spec: the accessors of [Machine.BaseMachine]
    (current state, step counter, halted flag, transition function), plain
    reads and writes of the fields. *)
Definition getCurrentState : Method t State.t := gets currentState.
Definition setCurrentState (s : State.t) : Method t unit :=
  modify (fun m => mk (alphabet m) (transitionFunction m) (initialState m)
    s (stepCount m) (isHalted m) (isAccepted m) (tape m)
    (pointerPosition m) (trace m)).
Definition getStepCount : Method t nat := gets stepCount.
Definition setStepCount (n : nat) : Method t unit :=
  modify (fun m => mk (alphabet m) (transitionFunction m) (initialState m)
    (currentState m) n (isHalted m) (isAccepted m) (tape m)
    (pointerPosition m) (trace m)).
Definition getIsHalted : Method t bool := gets isHalted.
Definition setIsHalted (b : bool) : Method t unit :=
  modify (fun m => mk (alphabet m) (transitionFunction m) (initialState m)
    (currentState m) (stepCount m) b (isAccepted m) (tape m)
    (pointerPosition m) (trace m)).
Definition getTransitionFunction : Method t TransitionFunction.t :=
  gets transitionFunction.

Definition getIsAccepted : Method t bool := gets isAccepted.
Definition setIsAccepted (b : bool) : Method t unit :=
  modify (fun m => mk (alphabet m) (transitionFunction m) (initialState m)
    (currentState m) (stepCount m) (isHalted m) b (tape m)
    (pointerPosition m) (trace m)).
Definition getPointerPosition : Method t nat := gets pointerPosition.
Definition setPointerPosition (p : nat) : Method t unit :=
  modify (fun m => mk (alphabet m) (transitionFunction m) (initialState m)
    (currentState m) (stepCount m) (isHalted m) (isAccepted m) (tape m)
    p (trace m)) ;;
  emit (onPointerChange p).
Definition getTape : Method t Tape.t := gets tape.
Definition setTape (tp : Tape.t) : Method t unit :=
  modify (fun m => mk (alphabet m) (transitionFunction m) (initialState m)
    (currentState m) (stepCount m) (isHalted m) (isAccepted m) tp
    (pointerPosition m) (trace m)).

(** [this.onAccept.call(state, this.getStepCount(), this.getPointerPosition())]
    and its siblings. *)
Definition callOnAccept (s : State.t) : Method t unit :=
  n <- getStepCount ;; p <- getPointerPosition ;; emit (onAccept s n p).
Definition callOnReject (s : State.t) : Method t unit :=
  n <- getStepCount ;; p <- getPointerPosition ;; emit (onReject s n p).
Definition callOnHalt (s : State.t) : Method t unit :=
  n <- getStepCount ;; p <- getPointerPosition ;; emit (onHalt s n p).
Definition callOnStep (c : Condition.t) (cmd : Command.t) : Method t unit :=
  n <- getStepCount ;; p <- getPointerPosition ;; emit (onStep c cmd n p).

(** Modelled from the spec: [Machine.BaseMachine.prototype._init] and the
    configuration calls that follow it, which leave a running machine in
    the designated initial state with the given transition function. *)
Definition _init (attribs : option Attribs) (tf : TransitionFunction.t)
    (q0 : State.t) : t :=
  let a := match attribs with
           | Some {| attribs_alphabet := Some a |} => a
           | _ => Alphabet.UNRESTRICTED
           end in
  mk a tf q0 q0 0 false false EmptyString 0 [].

Definition setInputString (input : string) : Method t unit :=
  tp <- getTape ;;
  setTape (Tape.setChars input tp) ;;
  setPointerPosition 0.

(** Modelled from the spec: [Machine.BaseMachine.prototype.reset] returns
    the current state, the step counter and the halted flag to their
    initial values. *)
Definition BaseMachine_reset : Method t unit :=
  q0 <- gets initialState ;;
  setCurrentState q0 ;;
  setStepCount 0 ;;
  setIsHalted false.

Definition reset : Method t unit :=
  BaseMachine_reset ;;
  setPointerPosition 0 ;;
  setIsAccepted false.

Definition step : Method t bool :=
  halted <- getIsHalted ;;
  if halted then ret true else
  n <- getStepCount ;;
  setStepCount (n + 1) ;;
  currentState <- getCurrentState ;;
  p <- getPointerPosition ;;
  tp <- getTape ;;
  if Tape.length tp <=? p then
    setIsHalted true ;;
    (if State.getIsAccepting currentState
     then setIsAccepted true ;; callOnAccept currentState
     else setIsAccepted false ;; callOnReject currentState) ;;
    callOnHalt currentState ;;
    ret true
  else
  let currentCharacter := Tape.charAt tp p in
  let condition :=
    {| Condition.getState := currentState;
       Condition.getCharacter := currentCharacter;
       Condition.getStackElement := None |} in
  tf <- getTransitionFunction ;;
  match TransitionFunction.getCommand tf condition with
  | None =>
      setIsHalted true ;;
      setIsAccepted false ;;
      callOnReject currentState ;;
      callOnHalt currentState ;;
      ret true
  | Some command =>
      p <- getPointerPosition ;;
      setPointerPosition (p + 1) ;;
      setCurrentState (Command.getState command) ;;
      callOnStep condition command ;;
      ret false
  end.

Fixpoint run (maxSteps : nat) : Method t bool :=
  match maxSteps with
  | 0 => ret false
  | S i =>
      returned <- step ;;
      if returned then ret true else run i
  end.

End Engine.
End DFA.

(** ** [Machine.DFA] of [src/unnamed/part_000]

    The variant with epsilon transitions: the halting test is the method
    [halt], called before the transition and again after it. *)
Module EpsilonDFA.

Record t : Type := mk
  { alphabet : Alphabet.t;
    transitionFunction : TransitionFunction.t;
    initialState : State.t;
    currentState : State.t;
    stepCount : nat;
    isHalted : bool;
    allowEpsilonTransitions : bool;
    isAccepted : bool;
    tape : Tape.t;
    pointerPosition : nat;
    trace : list Event }.

Record Attribs : Type :=
  { attribs_alphabet : option Alphabet.t;
    attribs_allowEpsilonTransitions : option bool }.

Section Engine.
Context {K : AlphabetConstants}.
Local Open Scope method_scope.

Definition emit (e : Event) : Method t unit :=
  modify (fun m => mk (alphabet m) (transitionFunction m) (initialState m)
    (currentState m) (stepCount m) (isHalted m) (allowEpsilonTransitions m)
    (isAccepted m) (tape m) (pointerPosition m) (trace m ++ [e])).

(** Modelled from the spec: the accessors of [Machine.BaseMachine], plain
    reads and writes of the fields. *)
Definition getCurrentState : Method t State.t := gets currentState.
Definition setCurrentState (s : State.t) : Method t unit :=
  modify (fun m => mk (alphabet m) (transitionFunction m) (initialState m)
    s (stepCount m) (isHalted m) (allowEpsilonTransitions m)
    (isAccepted m) (tape m) (pointerPosition m) (trace m)).
Definition getStepCount : Method t nat := gets stepCount.
Definition setStepCount (n : nat) : Method t unit :=
  modify (fun m => mk (alphabet m) (transitionFunction m) (initialState m)
    (currentState m) n (isHalted m) (allowEpsilonTransitions m)
    (isAccepted m) (tape m) (pointerPosition m) (trace m)).
Definition getIsHalted : Method t bool := gets isHalted.
Definition setIsHalted (b : bool) : Method t unit :=
  modify (fun m => mk (alphabet m) (transitionFunction m) (initialState m)
    (currentState m) (stepCount m) b (allowEpsilonTransitions m)
    (isAccepted m) (tape m) (pointerPosition m) (trace m)).
Definition getTransitionFunction : Method t TransitionFunction.t :=
  gets transitionFunction.

Definition getAllowEpsilonTransitions : Method t bool :=
  gets allowEpsilonTransitions.
Definition setAllowEpsilonTransitions (b : bool) : Method t unit :=
  modify (fun m => mk (alphabet m) (transitionFunction m) (initialState m)
    (currentState m) (stepCount m) (isHalted m) b
    (isAccepted m) (tape m) (pointerPosition m) (trace m)).
Definition getIsAccepted : Method t bool := gets isAccepted.
Definition setIsAccepted (b : bool) : Method t unit :=
  modify (fun m => mk (alphabet m) (transitionFunction m) (initialState m)
    (currentState m) (stepCount m) (isHalted m) (allowEpsilonTransitions m)
    b (tape m) (pointerPosition m) (trace m)).
Definition getPointerPosition : Method t nat := gets pointerPosition.
Definition setPointerPosition (p : nat) : Method t unit :=
  modify (fun m => mk (alphabet m) (transitionFunction m) (initialState m)
    (currentState m) (stepCount m) (isHalted m) (allowEpsilonTransitions m)
    (isAccepted m) (tape m) p (trace m)) ;;
  emit (onPointerChange p).
Definition getTape : Method t Tape.t := gets tape.
Definition setTape (tp : Tape.t) : Method t unit :=
  modify (fun m => mk (alphabet m) (transitionFunction m) (initialState m)
    (currentState m) (stepCount m) (isHalted m) (allowEpsilonTransitions m)
    (isAccepted m) tp (pointerPosition m) (trace m)).

Definition callOnAccept (s : State.t) : Method t unit :=
  n <- getStepCount ;; p <- getPointerPosition ;; emit (onAccept s n p).
Definition callOnReject (s : State.t) : Method t unit :=
  n <- getStepCount ;; p <- getPointerPosition ;; emit (onReject s n p).
Definition callOnHalt (s : State.t) : Method t unit :=
  n <- getStepCount ;; p <- getPointerPosition ;; emit (onHalt s n p).
Definition callOnStep (c : Condition.t) (cmd : Command.t) : Method t unit :=
  n <- getStepCount ;; p <- getPointerPosition ;; emit (onStep c cmd n p).

(** Modelled from the spec: [Machine.BaseMachine.prototype._init] and the
    configuration calls that follow it, which leave a running machine in
    the designated initial state with the given transition function. *)
Definition _init (attribs : option Attribs) (tf : TransitionFunction.t)
    (q0 : State.t) : t :=
  let a := match attribs with
           | Some {| attribs_alphabet := Some a |} => a
           | _ => Alphabet.UNRESTRICTED
           end in
  let allow := match attribs with
               | Some {| attribs_allowEpsilonTransitions := Some b |} => b
               | _ => true
               end in
  mk a tf q0 q0 0 false allow false EmptyString 0 [].

Definition setInputString (input : string) : Method t unit :=
  tp <- getTape ;;
  setTape (Tape.setChars input tp) ;;
  setPointerPosition 0.

(** Modelled from the spec: [Machine.BaseMachine.prototype.reset] returns
    the current state, the step counter and the halted flag to their
    initial values. *)
Definition BaseMachine_reset : Method t unit :=
  q0 <- gets initialState ;;
  setCurrentState q0 ;;
  setStepCount 0 ;;
  setIsHalted false.

Definition reset : Method t unit :=
  BaseMachine_reset ;;
  setPointerPosition 0 ;;
  setIsAccepted false.

Definition halt : Method t bool :=
  p <- getPointerPosition ;;
  tp <- getTape ;;
  tf <- getTransitionFunction ;;
  cur <- getCurrentState ;;
  if (Tape.length tp <=? p)
     && Bool.eqb (TransitionFunction.hasEpsilonTransition tf cur) false
  then
    setIsHalted true ;;
    cur <- getCurrentState ;;
    (if State.getIsAccepting cur
     then setIsAccepted true ;; callOnAccept cur
     else setIsAccepted false ;; callOnReject cur) ;;
    callOnHalt cur ;;
    ret true
  else ret false.

Definition step : Method t bool :=
  halted <- getIsHalted ;;
  if halted then ret true else
  n <- getStepCount ;;
  setStepCount (n + 1) ;;
  currentState <- getCurrentState ;;
  h <- halt ;;
  if h then ret true else
  tf <- getTransitionFunction ;;
  cc <- (if TransitionFunction.hasEpsilonTransition tf currentState
         then ret (EPSILON_STRING,
                   TransitionFunction.getEpsilonTransitionCondition tf currentState)
         else
           tp <- getTape ;;
           p <- getPointerPosition ;;
           let currentCharacter := Tape.charAt tp p in
           ret (currentCharacter,
                {| Condition.getState := currentState;
                   Condition.getCharacter := currentCharacter;
                   Condition.getStackElement := None |})) ;;
  let currentCharacter := fst cc in
  let condition := snd cc in
  match TransitionFunction.getCommand tf condition with
  | None =>
      setIsHalted true ;;
      setIsAccepted false ;;
      callOnReject currentState ;;
      callOnHalt currentState ;;
      ret true
  | Some command =>
      when (negb (String.eqb currentCharacter EPSILON_STRING))
           (p <- getPointerPosition ;; setPointerPosition (p + 1)) ;;
      setCurrentState (Command.getState command) ;;
      callOnStep condition command ;;
      h <- halt ;;
      if h then ret true else ret false
  end.

Fixpoint run (maxSteps : nat) : Method t bool :=
  match maxSteps with
  | 0 => ret false
  | S i =>
      returned <- step ;;
      if returned then ret true else run i
  end.

End Engine.
End EpsilonDFA.

(** ** [Machine.DPDA] of [src/src/DFA.js] *)
Module DPDA.

Definition ACCEPT_BY_STATE : string := "0".
Definition ACCEPT_BY_STACK : string := "1".

Record t : Type := mk
  { alphabet : Alphabet.t;
    transitionFunction : TransitionFunction.t;
    initialState : State.t;
    currentState : State.t;
    stepCount : nat;
    isHalted : bool;
    stackAlphabet : Alphabet.t;
    acceptanceMode : option string;
    isAccepted : bool;
    stack : Stack.t;
    initialStackSymbol : string;
    tape : Tape.t;
    pointerPosition : nat;
    trace : list Event }.

Record Attribs : Type :=
  { attribs_alphabet : option Alphabet.t;
    attribs_stackAlphabet : option Alphabet.t;
    attribs_initialStackSymbol : option string }.

Section Engine.
Context {K : AlphabetConstants}.
Local Open Scope method_scope.

Definition emit (e : Event) : Method t unit :=
  modify (fun m => mk (alphabet m) (transitionFunction m) (initialState m)
    (currentState m) (stepCount m) (isHalted m) (stackAlphabet m)
    (acceptanceMode m) (isAccepted m) (stack m) (initialStackSymbol m)
    (tape m) (pointerPosition m) (trace m ++ [e])).

(** Modelled from the spec: the accessors of [Machine.BaseMachine], plain
    reads and writes of the fields. *)
Definition getCurrentState : Method t State.t := gets currentState.
Definition setCurrentState (s : State.t) : Method t unit :=
  modify (fun m => mk (alphabet m) (transitionFunction m) (initialState m)
    s (stepCount m) (isHalted m) (stackAlphabet m)
    (acceptanceMode m) (isAccepted m) (stack m) (initialStackSymbol m)
    (tape m) (pointerPosition m) (trace m)).
Definition getStepCount : Method t nat := gets stepCount.
Definition setStepCount (n : nat) : Method t unit :=
  modify (fun m => mk (alphabet m) (transitionFunction m) (initialState m)
    (currentState m) n (isHalted m) (stackAlphabet m)
    (acceptanceMode m) (isAccepted m) (stack m) (initialStackSymbol m)
    (tape m) (pointerPosition m) (trace m)).
Definition getIsHalted : Method t bool := gets isHalted.
Definition setIsHalted (b : bool) : Method t unit :=
  modify (fun m => mk (alphabet m) (transitionFunction m) (initialState m)
    (currentState m) (stepCount m) b (stackAlphabet m)
    (acceptanceMode m) (isAccepted m) (stack m) (initialStackSymbol m)
    (tape m) (pointerPosition m) (trace m)).
Definition getTransitionFunction : Method t TransitionFunction.t :=
  gets transitionFunction.

Definition getAcceptanceMode : Method t (option string) := gets acceptanceMode.
Definition setAcceptanceMode (mode : string) : Method t unit :=
  modify (fun m => mk (alphabet m) (transitionFunction m) (initialState m)
    (currentState m) (stepCount m) (isHalted m) (stackAlphabet m)
    (Some mode) (isAccepted m) (stack m) (initialStackSymbol m)
    (tape m) (pointerPosition m) (trace m)).
Definition getStackAlphabet : Method t Alphabet.t := gets stackAlphabet.
Definition setStackAlphabet (a : Alphabet.t) : Method t unit :=
  modify (fun m => mk (alphabet m) (transitionFunction m) (initialState m)
    (currentState m) (stepCount m) (isHalted m) a
    (acceptanceMode m) (isAccepted m) (stack m) (initialStackSymbol m)
    (tape m) (pointerPosition m) (trace m)).
Definition getInitialStackSymbol : Method t string := gets initialStackSymbol.
Definition setInitialStackSymbol (initialStackSymbol' : string) : Method t unit :=
  a <- getStackAlphabet ;;
  if Bool.eqb (Alphabet.contains a initialStackSymbol') false
  then throw "Invalid initial stack character"
  else
    modify (fun m => mk (alphabet m) (transitionFunction m) (initialState m)
      (currentState m) (stepCount m) (isHalted m) (stackAlphabet m)
      (acceptanceMode m) (isAccepted m) (stack m) initialStackSymbol'
      (tape m) (pointerPosition m) (trace m)).
Definition getStack : Method t Stack.t := gets stack.
Definition setStack (s : Stack.t) : Method t unit :=
  modify (fun m => mk (alphabet m) (transitionFunction m) (initialState m)
    (currentState m) (stepCount m) (isHalted m) (stackAlphabet m)
    (acceptanceMode m) (isAccepted m) s (initialStackSymbol m)
    (tape m) (pointerPosition m) (trace m)).

(** [this.getStack().pop()], [.push(str)] and [.clear()] mutate the stack
    object the machine holds. *)
Definition stackPop : Method t (option string) :=
  s <- getStack ;;
  let c := fst (Stack.pop s) in
  setStack (snd (Stack.pop s)) ;;
  emit (onStackPop c) ;;
  ret c.
Definition stackPeek : Method t string :=
  s <- getStack ;;
  ret (Stack.peek s).
Definition stackPush (str : string) : Method t unit :=
  a <- getStackAlphabet ;;
  if Bool.eqb (Alphabet.isCompatibleWith a str) false
  then throw "Invalid stack string."
  else
    s <- getStack ;;
    setStack (Stack.push str s) ;;
    emit (onStackPush str).

Definition getIsAccepted : Method t bool := gets isAccepted.
Definition setIsAccepted (b : bool) : Method t unit :=
  modify (fun m => mk (alphabet m) (transitionFunction m) (initialState m)
    (currentState m) (stepCount m) (isHalted m) (stackAlphabet m)
    (acceptanceMode m) b (stack m) (initialStackSymbol m)
    (tape m) (pointerPosition m) (trace m)).
Definition getPointerPosition : Method t nat := gets pointerPosition.
Definition setPointerPosition (p : nat) : Method t unit :=
  modify (fun m => mk (alphabet m) (transitionFunction m) (initialState m)
    (currentState m) (stepCount m) (isHalted m) (stackAlphabet m)
    (acceptanceMode m) (isAccepted m) (stack m) (initialStackSymbol m)
    (tape m) p (trace m)) ;;
  emit (onPointerChange p).
Definition getTape : Method t Tape.t := gets tape.
Definition setTape (tp : Tape.t) : Method t unit :=
  modify (fun m => mk (alphabet m) (transitionFunction m) (initialState m)
    (currentState m) (stepCount m) (isHalted m) (stackAlphabet m)
    (acceptanceMode m) (isAccepted m) (stack m) (initialStackSymbol m)
    tp (pointerPosition m) (trace m)).

Definition callOnAccept (s : State.t) : Method t unit :=
  n <- getStepCount ;; p <- getPointerPosition ;; emit (onAccept s n p).
Definition callOnReject (s : State.t) : Method t unit :=
  n <- getStepCount ;; p <- getPointerPosition ;; emit (onReject s n p).
Definition callOnHalt (s : State.t) : Method t unit :=
  n <- getStepCount ;; p <- getPointerPosition ;; emit (onHalt s n p).
Definition callOnStep (c : Condition.t) (cmd : Command.t) : Method t unit :=
  n <- getStepCount ;; p <- getPointerPosition ;; emit (onStep c cmd n p).

(** Modelled from the spec: [Machine.BaseMachine.prototype._init] and the
    configuration calls that follow it leave the designated initial state
    and the given transition function in place; the rest is the DPDA's own
    [_init], which throws when the initial stack symbol is refused. The
    object is returned only when the constructor completes. *)
Definition _init (attribs : option Attribs) (tf : TransitionFunction.t)
    (q0 : State.t) : Completion t :=
  let a := match attribs with
           | Some {| attribs_alphabet := Some a |} => a
           | _ => Alphabet.UNRESTRICTED
           end in
  let sa := match attribs with
            | Some {| attribs_stackAlphabet := Some a |} => a
            | _ => Alphabet.UNRESTRICTED
            end in
  let this := mk a tf q0 q0 0 false sa None false [] EmptyString EmptyString 0 [] in
  let body :=
    (match attribs with
     | Some {| attribs_initialStackSymbol := Some c |} => setInitialStackSymbol c
     | _ => setInitialStackSymbol (Alphabet.getBlank sa)
     end) ;;
    c <- getInitialStackSymbol ;;
    stackPush c in
  match body this with
  | (Normal _, this') => Normal this'
  | (Throw e, _) => Throw e
  end.

Definition setInputString (input : string) : Method t unit :=
  tp <- getTape ;;
  setTape (Tape.setChars input tp) ;;
  setPointerPosition 0.

(** Modelled from the spec: [Machine.BaseMachine.prototype.reset] returns
    the current state, the step counter and the halted flag to their
    initial values. *)
Definition BaseMachine_reset : Method t unit :=
  q0 <- gets initialState ;;
  setCurrentState q0 ;;
  setStepCount 0 ;;
  setIsHalted false.

Definition reset : Method t unit :=
  BaseMachine_reset ;;
  setPointerPosition 0 ;;
  s <- getStack ;;
  setStack (Stack.clear s) ;;
  c <- getInitialStackSymbol ;;
  stackPush c ;;
  setIsAccepted false.

(** [halt] answers [true] when it halts the machine and falls off its end
    otherwise; the callers compare the answer with [true]. *)
Definition halt : Method t bool :=
  currentState <- getCurrentState ;;
  topmostStackCharacter <- stackPeek ;;
  p <- getPointerPosition ;;
  tp <- getTape ;;
  tf <- getTransitionFunction ;;
  if (Tape.length tp <=? p)
     && (Bool.eqb (TransitionFunction.hasEpsilonTransition tf currentState) false
         || String.eqb topmostStackCharacter EPSILON_STRING)
  then
    setIsHalted true ;;
    (if State.getIsAccepting currentState then
       setIsAccepted true ;;
       callOnAccept currentState ;;
       setAcceptanceMode ACCEPT_BY_STATE
     else
       s <- getStack ;;
       if Stack.isEmpty s then
         setIsAccepted true ;;
         callOnAccept currentState ;;
         setAcceptanceMode ACCEPT_BY_STACK
       else
         setIsAccepted false ;;
         callOnReject currentState) ;;
    callOnHalt currentState ;;
    ret true
  else ret false.

Definition step : Method t bool :=
  halted <- getIsHalted ;;
  if halted then ret true else
  n <- getStepCount ;;
  setStepCount (n + 1) ;;
  currentState <- getCurrentState ;;
  topmostStackCharacter <- stackPeek ;;
  h <- halt ;;
  if h then ret true else
  tf <- getTransitionFunction ;;
  cc <- (if TransitionFunction.hasEpsilonTransition tf currentState
         then ret (EPSILON_STRING,
                   TransitionFunction.getEpsilonTransitionCondition tf currentState)
         else
           tp <- getTape ;;
           p <- getPointerPosition ;;
           let currentCharacter := Tape.charAt tp p in
           ret (currentCharacter,
                {| Condition.getState := currentState;
                   Condition.getCharacter := currentCharacter;
                   Condition.getStackElement := Some topmostStackCharacter |})) ;;
  let condition := snd cc in
  match TransitionFunction.getCommand tf condition with
  | None =>
      setIsHalted true ;;
      setIsAccepted false ;;
      callOnReject currentState ;;
      callOnHalt currentState ;;
      ret true
  | Some command =>
      when (negb (isEpsilon (Condition.getStackElement condition)))
           (stackPop ;; ret tt) ;;
      match Command.getAction command with
      | Command.STACK_CHANGE argument =>
          when (negb (String.eqb argument EPSILON_STRING)) (stackPush argument)
      | Command.NoAction => ret tt
      end ;;
      when (Bool.eqb (TransitionFunction.hasEpsilonTransition tf currentState) false)
           (p <- getPointerPosition ;; setPointerPosition (p + 1)) ;;
      setCurrentState (Command.getState command) ;;
      h <- halt ;;
      if h then ret true else
      callOnStep condition command ;;
      ret false
  end.

Fixpoint run (maxSteps : nat) : Method t bool :=
  match maxSteps with
  | 0 => ret false
  | S i =>
      returned <- step ;;
      if returned then ret true else run i
  end.

End Engine.
End DPDA.

(** ** Vocabulary of the specification

    The halting predicate and the active condition, as sections 4.2 and 4.3
    of the specification word them, to be compared with what [step] does. *)
Section Vocabulary.
Context {K : AlphabetConstants}.

(** [src/src/DFA.js]: the DFA's inlined test, the cursor alone. *)
Definition DFA_haltDue (m : DFA.t) : bool :=
  Tape.length (DFA.tape m) <=? DFA.pointerPosition m.

Definition DFA_activeCondition (m : DFA.t) : Condition.t :=
  {| Condition.getState := DFA.currentState m;
     Condition.getCharacter := Tape.charAt (DFA.tape m) (DFA.pointerPosition m);
     Condition.getStackElement := None |}.

(** Section 4.2, step 3: the cursor has reached the end of the tape and
    the current state has no epsilon transition. *)
Definition EpsilonDFA_haltDue (m : EpsilonDFA.t) : bool :=
  (Tape.length (EpsilonDFA.tape m) <=? EpsilonDFA.pointerPosition m)
  && negb (TransitionFunction.hasEpsilonTransition
             (EpsilonDFA.transitionFunction m) (EpsilonDFA.currentState m)).

(** Section 4.2, step 4: the epsilon transition of the current state when
    it has one, else the condition built from the symbol at the cursor. *)
Definition EpsilonDFA_activeCondition (m : EpsilonDFA.t) : Condition.t :=
  let tf := EpsilonDFA.transitionFunction m in
  let q := EpsilonDFA.currentState m in
  if TransitionFunction.hasEpsilonTransition tf q
  then TransitionFunction.getEpsilonTransitionCondition tf q
  else {| Condition.getState := q;
          Condition.getCharacter :=
            Tape.charAt (EpsilonDFA.tape m) (EpsilonDFA.pointerPosition m);
          Condition.getStackElement := None |}.

(** Section 4.3: the cursor is at the end of the tape and either the
    current state has no epsilon transition or the stack top is epsilon. *)
Definition DPDA_haltDue (m : DPDA.t) : bool :=
  (Tape.length (DPDA.tape m) <=? DPDA.pointerPosition m)
  && (negb (TransitionFunction.hasEpsilonTransition
              (DPDA.transitionFunction m) (DPDA.currentState m))
      || String.eqb (Stack.peek (DPDA.stack m)) EPSILON_STRING).

(** Section 4.3: as for the DFA, the built condition carrying the current
    stack-top symbol. *)
Definition DPDA_activeCondition (m : DPDA.t) : Condition.t :=
  let tf := DPDA.transitionFunction m in
  let q := DPDA.currentState m in
  if TransitionFunction.hasEpsilonTransition tf q
  then TransitionFunction.getEpsilonTransitionCondition tf q
  else {| Condition.getState := q;
          Condition.getCharacter :=
            Tape.charAt (DPDA.tape m) (DPDA.pointerPosition m);
          Condition.getStackElement := Some (Stack.peek (DPDA.stack m)) |}.

(** The accept / reject callback fired when a machine is finalized. *)
Definition verdict (accepted : bool) (q : State.t) (stepCount pointer : nat) : Event :=
  if accepted then onAccept q stepCount pointer else onReject q stepCount pointer.

(** The stack a command leaves once the pop decision has been taken. *)
Definition pushArgument (cmd : Command.t) (s : Stack.t) : Stack.t :=
  match Command.getAction cmd with
  | Command.STACK_CHANGE argument =>
      if String.eqb argument EPSILON_STRING then s else Stack.push argument s
  | Command.NoAction => s
  end.

Definition isStackPop (e : Event) : bool :=
  match e with onStackPop _ => true | _ => false end.

(** [stackPush] does not refuse what the command pushes: the argument is
    epsilon (nothing is pushed) or compatible with the stack alphabet. *)
Definition pushAccepted (a : Alphabet.t) (cmd : Command.t) : bool :=
  match Command.getAction cmd with
  | Command.STACK_CHANGE argument =>
      String.eqb argument EPSILON_STRING || Alphabet.isCompatibleWith a argument
  | Command.NoAction => true
  end.

End Vocabulary.

(** ** Sequences of engine operations

    The operations a caller issues on a constructed machine; an operation
    that throws leaves the machine as it was at the throw, and the caller
    may go on using it. *)
Inductive Op : Type :=
| Reset
| SetInputString (input : string)
| Step
| Run (maxSteps : nat).

Section Operations.
Context {K : AlphabetConstants}.

Definition DFA_perform (m : DFA.t) (o : Op) : DFA.t :=
  match o with
  | Reset => snd (DFA.reset m)
  | SetInputString input => snd (DFA.setInputString input m)
  | Step => snd (DFA.step m)
  | Run maxSteps => snd (DFA.run maxSteps m)
  end.

Definition EpsilonDFA_perform (m : EpsilonDFA.t) (o : Op) : EpsilonDFA.t :=
  match o with
  | Reset => snd (EpsilonDFA.reset m)
  | SetInputString input => snd (EpsilonDFA.setInputString input m)
  | Step => snd (EpsilonDFA.step m)
  | Run maxSteps => snd (EpsilonDFA.run maxSteps m)
  end.

Definition DPDA_perform (m : DPDA.t) (o : Op) : DPDA.t :=
  match o with
  | Reset => snd (DPDA.reset m)
  | SetInputString input => snd (DPDA.setInputString input m)
  | Step => snd (DPDA.step m)
  | Run maxSteps => snd (DPDA.run maxSteps m)
  end.

(** The flags agree: an accepted machine is a halted one. The DPDA also
    keeps an initial stack symbol that [stackPush] takes, which is what
    lets [reset] run to its end. *)
Definition DFA_flagsAgree (m : DFA.t) : Prop :=
  DFA.isAccepted m = true -> DFA.isHalted m = true.

Definition EpsilonDFA_flagsAgree (m : EpsilonDFA.t) : Prop :=
  EpsilonDFA.isAccepted m = true -> EpsilonDFA.isHalted m = true.

Definition DPDA_flagsAgree (m : DPDA.t) : Prop :=
  (DPDA.isAccepted m = true -> DPDA.isHalted m = true)
  /\ Alphabet.isCompatibleWith (DPDA.stackAlphabet m) (DPDA.initialStackSymbol m)
     = true.

End Operations.

(** ** Sample machines *)
Module Samples.
Local Open Scope string_scope.

#[local] Instance tilde : AlphabetConstants := {| EPSILON_STRING := "~" |}.

Definition q0 : State.t := {| State.getLabel := "q0"; State.getIsAccepting := false |}.
Definition q1 : State.t := {| State.getLabel := "q1"; State.getIsAccepting := true |}.
Definition q2 : State.t := {| State.getLabel := "q2"; State.getIsAccepting := false |}.

Definition on (q : State.t) (c : string) : Condition.t :=
  {| Condition.getState := q;
     Condition.getCharacter := c;
     Condition.getStackElement := None |}.

Definition onTop (q : State.t) (c top : string) : Condition.t :=
  {| Condition.getState := q;
     Condition.getCharacter := c;
     Condition.getStackElement := Some top |}.

Definition goto (q : State.t) : Command.t :=
  {| Command.getState := q; Command.getAction := Command.NoAction |}.

Definition change (q : State.t) (argument : string) : Command.t :=
  {| Command.getState := q; Command.getAction := Command.STACK_CHANGE argument |}.

(** The DFA of the specification's scenario: [q0 --1--> q1],
    [q1 --1--> q1], [q0 --0--> q0], with [q1] accepting. *)
Definition binaryTF : TransitionFunction.t :=
  TransitionFunction.ofList
    [ (on q0 "1", goto q1); (on q1 "1", goto q1); (on q0 "0", goto q0) ].

(** A state with both an epsilon transition and a symbol-consuming one:
    [q0 --epsilon--> q1] and [q0 --a--> q2]. *)
Definition epsilonTF : TransitionFunction.t :=
  TransitionFunction.ofList
    [ (on q0 EPSILON_STRING, goto q1); (on q0 "a", goto q2) ].

Definition dfaOn (tf : TransitionFunction.t) (input : string) : DFA.t :=
  snd (DFA.setInputString input (DFA._init None tf q0)).

Definition edfaOn (tf : TransitionFunction.t) (input : string) : EpsilonDFA.t :=
  snd (EpsilonDFA.setInputString input (EpsilonDFA._init None tf q0)).

(** A DPDA over the input alphabet [{a,b}] with stack alphabet [{Z,a}] and
    initial stack symbol [Z]: reading [a] replaces the top by [a], reading
    [b] pops an [a]. *)
Definition stackAB : Alphabet.t := Alphabet.ofChars "Z" ["Z"; "a"].

Definition countingTF : TransitionFunction.t :=
  TransitionFunction.ofList
    [ (onTop q0 "a" "Z", change q0 "a");
      (onTop q0 "a" "a", change q0 "a");
      (onTop q0 "b" "a", change q0 EPSILON_STRING) ].

(** [q0 --epsilon, Z--> q2] declares the stack element [Z];
    [q2] has no transition. *)
Definition epsilonPopTF : TransitionFunction.t :=
  TransitionFunction.ofList
    [ (onTop q0 EPSILON_STRING "Z", change q2 EPSILON_STRING) ].

Definition dpdaAttribs : DPDA.Attribs :=
  {| DPDA.attribs_alphabet := Some (Alphabet.ofChars " " ["a"; "b"]);
     DPDA.attribs_stackAlphabet := Some stackAB;
     DPDA.attribs_initialStackSymbol := Some "Z" |}.

Definition blankDPDA (tf : TransitionFunction.t) : DPDA.t :=
  DPDA.mk Alphabet.UNRESTRICTED tf q0 q0 0 false stackAB None false []
          "Z" EmptyString 0 [].

Definition dpdaNew (tf : TransitionFunction.t) : DPDA.t :=
  match DPDA._init (Some dpdaAttribs) tf q0 with
  | Normal m => m
  | Throw _ => blankDPDA tf
  end.

Definition dpdaOn (tf : TransitionFunction.t) (input : string) : DPDA.t :=
  snd (DPDA.setInputString input (dpdaNew tf)).

(** The machines the examples start from. *)
Definition dfaBinary1 : DFA.t := dfaOn binaryTF "1".
Definition dfaBinary011 : DFA.t := dfaOn binaryTF "011".
Definition dfaEpsilonEmpty : DFA.t := dfaOn epsilonTF "".
Definition dfaEpsilonA : DFA.t := dfaOn epsilonTF "a".
Definition edfaBinary1 : EpsilonDFA.t := edfaOn binaryTF "1".
Definition edfaBinary011 : EpsilonDFA.t := edfaOn binaryTF "011".
Definition edfaEpsilonEmpty : EpsilonDFA.t := edfaOn epsilonTF "".
Definition edfaEpsilonA : EpsilonDFA.t := edfaOn epsilonTF "a".
Definition dpdaCountingAB : DPDA.t := dpdaOn countingTF "ab".
Definition dpdaEpsilonPopA : DPDA.t := dpdaOn epsilonPopTF "a".
Definition dpdaEpsilonPopEmpty : DPDA.t := dpdaOn epsilonPopTF "".

(** The DPDA about to take [q0 --epsilon, Z--> q2] with [a], not the
    declared [Z], on top of its stack. *)
Definition dpdaEpsilonPopOverA : DPDA.t := snd (DPDA.stackPush "a" dpdaEpsilonPopA).

Definition haltedDFA : DFA.t := snd (DFA.run 5 dfaBinary011).
Definition haltedEpsilonDFA : EpsilonDFA.t := snd (EpsilonDFA.run 5 edfaBinary011).
Definition haltedDPDA : DPDA.t := snd (DPDA.run 5 dpdaCountingAB).

End Samples.

(** ** Observations on runs

    What a caller can read off a run: the symbols still to be consumed,
    the textbook reading of a transition table as a DFA, and the
    callbacks of a given kind in a stretch of the trace. *)
Section Observations.
Context {K : AlphabetConstants}.

(** The symbols from the cursor position [p] to the end of the tape. *)
Definition symbolsFrom (tape : Tape.t) (p : nat) : list string :=
  map (Tape.charAt tape) (seq p (Tape.length tape - p)).

(** The extended transition function of a DFA: follow the command
    registered for (state, symbol) through the word, if there is one at
    every symbol. *)
Fixpoint deltaStar (tf : TransitionFunction.t) (q : State.t) (w : list string)
    : option State.t :=
  match w with
  | [] => Some q
  | a :: w' =>
      match TransitionFunction.getCommand tf
              {| Condition.getState := q;
                 Condition.getCharacter := a;
                 Condition.getStackElement := None |} with
      | Some cmd => deltaStar tf (Command.getState cmd) w'
      | None => None
      end
  end.

(** The word is accepted from [q] in the textbook sense: the run exists
    and ends in an accepting state. *)
Definition classicalAccepts (tf : TransitionFunction.t) (q : State.t)
    (w : list string) : bool :=
  match deltaStar tf q w with
  | Some q' => State.getIsAccepting q'
  | None => false
  end.

Definition isHaltEvent (e : Event) : bool :=
  match e with onHalt _ _ _ => true | _ => false end.

Definition isAcceptEvent (e : Event) : bool :=
  match e with onAccept _ _ _ => true | _ => false end.

Definition isRejectEvent (e : Event) : bool :=
  match e with onReject _ _ _ => true | _ => false end.

Definition isStepEvent (e : Event) : bool :=
  match e with onStep _ _ _ _ => true | _ => false end.

Definition countEvents (kind : Event -> bool) (events : list Event) : nat :=
  List.length (filter kind events).

Definition isNormalFalse (c : Completion bool) : bool :=
  match c with Normal false => true | _ => false end.

(** The acceptance mode tells why an accepted DPDA is accepted. *)
Definition DPDA_modeTruthful (m : DPDA.t) : Prop :=
  DPDA.isAccepted m = true ->
  (State.getIsAccepting (DPDA.currentState m) = true
   /\ DPDA.acceptanceMode m = Some DPDA.ACCEPT_BY_STATE)
  \/ (State.getIsAccepting (DPDA.currentState m) = false
      /\ Stack.isEmpty (DPDA.stack m) = true
      /\ DPDA.acceptanceMode m = Some DPDA.ACCEPT_BY_STACK).

(** The stack alphabet and the initial stack symbol the constructor
    settles on. *)
Definition DPDA_chosenStackAlphabet (attribs : option DPDA.Attribs) : Alphabet.t :=
  match attribs with
  | Some {| DPDA.attribs_stackAlphabet := Some a |} => a
  | _ => Alphabet.UNRESTRICTED
  end.

Definition DPDA_chosenInitialStackSymbol (attribs : option DPDA.Attribs) : string :=
  match attribs with
  | Some {| DPDA.attribs_initialStackSymbol := Some c |} => c
  | _ => Alphabet.getBlank (DPDA_chosenStackAlphabet attribs)
  end.

(** A machine seen through its getters only: the record of the callbacks
    fired so far is dropped, and for the DPDA also the acceptance mode,
    which no method reads. *)
Definition DFA_withoutTrace (m : DFA.t) : DFA.t :=
  DFA.mk (DFA.alphabet m) (DFA.transitionFunction m) (DFA.initialState m)
         (DFA.currentState m) (DFA.stepCount m) (DFA.isHalted m)
         (DFA.isAccepted m) (DFA.tape m) (DFA.pointerPosition m) [].

Definition EpsilonDFA_withoutTrace (m : EpsilonDFA.t) : EpsilonDFA.t :=
  EpsilonDFA.mk (EpsilonDFA.alphabet m) (EpsilonDFA.transitionFunction m)
                (EpsilonDFA.initialState m) (EpsilonDFA.currentState m)
                (EpsilonDFA.stepCount m) (EpsilonDFA.isHalted m)
                (EpsilonDFA.allowEpsilonTransitions m)
                (EpsilonDFA.isAccepted m) (EpsilonDFA.tape m)
                (EpsilonDFA.pointerPosition m) [].

Definition DPDA_withoutHistory (m : DPDA.t) : DPDA.t :=
  DPDA.mk (DPDA.alphabet m) (DPDA.transitionFunction m) (DPDA.initialState m)
          (DPDA.currentState m) (DPDA.stepCount m) (DPDA.isHalted m)
          (DPDA.stackAlphabet m) None (DPDA.isAccepted m) (DPDA.stack m)
          (DPDA.initialStackSymbol m) (DPDA.tape m) (DPDA.pointerPosition m) [].

End Observations.

(** ** Further sample machines *)
Module MoreSamples.
Import Samples.
#[local] Existing Instance tilde.
Local Open Scope string_scope.

(** [q0 --epsilon--> q0]: an epsilon transition from a state to itself,
    for the DFA and, asking nothing of the stack, for the DPDA. *)
Definition loopTF : TransitionFunction.t :=
  TransitionFunction.ofList [ (on q0 EPSILON_STRING, goto q0) ].

Definition stackLoopTF : TransitionFunction.t :=
  TransitionFunction.ofList
    [ (onTop q0 EPSILON_STRING EPSILON_STRING, goto q0) ].

(** Reading [a] over [Z] asks to push [b], which is not a symbol of the
    stack alphabet [{Z,a}]. *)
Definition refusedPushTF : TransitionFunction.t :=
  TransitionFunction.ofList [ (onTop q0 "a" "Z", change q0 "b") ].

Definition edfaLoop : EpsilonDFA.t := edfaOn loopTF "a".
Definition dpdaLoop : DPDA.t := dpdaOn stackLoopTF "a".
Definition dpdaRefusedPush : DPDA.t := dpdaOn refusedPushTF "a".

(** A DPDA whose initial stack symbol [b] its stack alphabet refuses. *)
Definition dpdaRefusedSymbol : DPDA.t :=
  DPDA.mk Alphabet.UNRESTRICTED countingTF q0 q0 1 false stackAB None true
          ["a"] "b" "ab" 1 [].

Definition refusedSymbolAttribs : DPDA.Attribs :=
  {| DPDA.attribs_alphabet := None;
     DPDA.attribs_stackAlphabet := Some stackAB;
     DPDA.attribs_initialStackSymbol := Some "b" |}.

(** A session on a DPDA: read [ab], run to the end. *)
Definition sessionAB : list Op := [SetInputString "ab"; Run 5].

End MoreSamples.

(** * Properties of the engines *)

Arguments Tape.length : simpl never.
Arguments Tape.charAt : simpl never.
Arguments Stack.peek : simpl never.

(** ** Proof steps shared by the engine lemmas *)

Ltac unfold_methods :=
  unfold
    DFA.step, DFA.reset, DFA.BaseMachine_reset, DFA.setInputString,
    DFA.callOnAccept, DFA.callOnReject, DFA.callOnHalt, DFA.callOnStep,
    DFA.setPointerPosition, DFA.getPointerPosition, DFA.getTape, DFA.setTape,
    DFA.getIsHalted, DFA.setIsHalted, DFA.getIsAccepted, DFA.setIsAccepted,
    DFA.getStepCount, DFA.setStepCount, DFA.getCurrentState, DFA.setCurrentState,
    DFA.getTransitionFunction, DFA.emit,
    EpsilonDFA.step, EpsilonDFA.halt, EpsilonDFA.reset, EpsilonDFA.BaseMachine_reset,
    EpsilonDFA.setInputString,
    EpsilonDFA.callOnAccept, EpsilonDFA.callOnReject, EpsilonDFA.callOnHalt,
    EpsilonDFA.callOnStep,
    EpsilonDFA.setPointerPosition, EpsilonDFA.getPointerPosition, EpsilonDFA.getTape,
    EpsilonDFA.setTape, EpsilonDFA.getIsHalted, EpsilonDFA.setIsHalted,
    EpsilonDFA.getIsAccepted, EpsilonDFA.setIsAccepted, EpsilonDFA.getStepCount,
    EpsilonDFA.setStepCount, EpsilonDFA.getCurrentState, EpsilonDFA.setCurrentState,
    EpsilonDFA.getTransitionFunction, EpsilonDFA.emit,
    DPDA.step, DPDA.halt, DPDA.reset, DPDA.BaseMachine_reset, DPDA.setInputString,
    DPDA.stackPop, DPDA.stackPeek, DPDA.stackPush, DPDA.setInitialStackSymbol,
    DPDA.getInitialStackSymbol, DPDA.getStack, DPDA.setStack, DPDA.getStackAlphabet,
    DPDA.setAcceptanceMode,
    DPDA.callOnAccept, DPDA.callOnReject, DPDA.callOnHalt, DPDA.callOnStep,
    DPDA.setPointerPosition, DPDA.getPointerPosition, DPDA.getTape, DPDA.setTape,
    DPDA.getIsHalted, DPDA.setIsHalted, DPDA.getIsAccepted, DPDA.setIsAccepted,
    DPDA.getStepCount, DPDA.setStepCount, DPDA.getCurrentState, DPDA.setCurrentState,
    DPDA.getTransitionFunction, DPDA.emit,
    when, throw, bind, ret, gets, modify in *.

Lemma eqb_false_negb (b : bool) : Bool.eqb b false = negb b.
Proof. destruct b; reflexivity. Qed.

Lemma app_two_last {A : Type} (l : list A) (a b : A) :
  (l ++ [a]) ++ [b] = l ++ [a; b].
Proof. rewrite <- app_assoc. reflexivity. Qed.

(** Evaluate the method body as far as the known tests allow. *)
Ltac simp_loop :=
  repeat (cbn;
    first
      [ match goal with
        | H : ?x = true |- context [?x] => progress rewrite H
        | H : ?x = false |- context [?x] => progress rewrite H
        | H : ?x = None |- context [?x] => progress rewrite H
        | H : ?x = Some _ |- context [?x] => progress rewrite H
        | H : ?x = Command.NoAction |- context [?x] => progress rewrite H
        | H : ?x = Command.STACK_CHANGE _ |- context [?x] => progress rewrite H
        end
      | progress rewrite ?Bool.andb_false_r, ?Bool.andb_true_r,
          ?Bool.orb_false_r, ?Bool.orb_true_r, ?String.eqb_refl,
          ?eqb_false_negb ]);
  cbn.

Ltac case_test :=
  match goal with
  | |- context [if ?b then _ else _] => destruct b eqn:?
  | |- context [match ?b with Some _ => _ | None => _ end] => destruct b eqn:?
  | |- context [match ?b with
                | Command.NoAction => _
                | Command.STACK_CHANGE _ => _
                end] => destruct b eqn:?
  end.

Ltac run_method := unfold_methods; simp_loop.

Lemma leb_iff_le (a b : nat) : (a <=? b) = true <-> a <= b.
Proof. apply Nat.leb_le. Qed.

(** ** The scenarios of the specification *)

Section Scenarios.
#[local] Existing Instance Samples.tilde.
Import Samples.

(** Input [011]: the DFA of [src/unnamed/part_000] halts accepted at step
    3 with the cursor at 3; the DFA of [src/src/DFA.js] needs a fourth
    call. *)
Example edfa_accepts_011 :
  let m := snd (EpsilonDFA.run 3 edfaBinary011) in
  EpsilonDFA.isHalted m = true /\ EpsilonDFA.isAccepted m = true
  /\ EpsilonDFA.stepCount m = 3 /\ EpsilonDFA.pointerPosition m = 3.
Proof. vm_compute. auto. Qed.

Example dfa_accepts_011 :
  fst (DFA.run 3 dfaBinary011) = Normal false
  /\ let m := snd (DFA.run 4 dfaBinary011) in
     DFA.isHalted m = true /\ DFA.isAccepted m = true
     /\ DFA.stepCount m = 4 /\ DFA.pointerPosition m = 3.
Proof. vm_compute. auto. Qed.

(** Input [00]: halted and rejected in [q0], cursor at 2. *)
Example edfa_rejects_00 :
  let m := snd (EpsilonDFA.run 5 (edfaOn binaryTF "00")) in
  EpsilonDFA.isHalted m = true /\ EpsilonDFA.isAccepted m = false
  /\ EpsilonDFA.currentState m = q0 /\ EpsilonDFA.pointerPosition m = 2.
Proof. vm_compute. auto. Qed.

(** Input [ab] on the DPDA: the stack empties as the tape is exhausted,
    accepted by stack. *)
Example dpda_accepts_ab_by_stack :
  let m := snd (DPDA.run 5 dpdaCountingAB) in
  DPDA.isHalted m = true /\ DPDA.isAccepted m = true
  /\ DPDA.stack m = [] /\ DPDA.pointerPosition m = 2
  /\ DPDA.acceptanceMode m = Some DPDA.ACCEPT_BY_STACK.
Proof. vm_compute. auto. Qed.

End Scenarios.

(** ** Halted machines *)

(** C6. Once the halted flag is set, [step] answers [true] and hands the
    machine back as it was: cursor, stack, step count, current state and
    accepted flag are unchanged and the trace gains no callback; this
    holds for every further call. *)
Theorem C6_step_on_halted_machine {K : AlphabetConstants} :
  (forall (m : DFA.t) (k : nat), DFA.isHalted m = true ->
     DFA.step m = (Normal true, m)
     /\ Nat.iter k (fun s => snd (DFA.step s)) m = m)
  /\ (forall (m : EpsilonDFA.t) (k : nat), EpsilonDFA.isHalted m = true ->
     EpsilonDFA.step m = (Normal true, m)
     /\ Nat.iter k (fun s => snd (EpsilonDFA.step s)) m = m)
  /\ (forall (m : DPDA.t) (k : nat), DPDA.isHalted m = true ->
     DPDA.step m = (Normal true, m)
     /\ Nat.iter k (fun s => snd (DPDA.step s)) m = m).
Proof.
  assert (D : forall m, DFA.isHalted m = true -> DFA.step m = (Normal true, m))
    by (intros m Hh; run_method; reflexivity).
  assert (E : forall m, EpsilonDFA.isHalted m = true ->
                        EpsilonDFA.step m = (Normal true, m))
    by (intros m Hh; run_method; reflexivity).
  assert (P : forall m, DPDA.isHalted m = true -> DPDA.step m = (Normal true, m))
    by (intros m Hh; run_method; reflexivity).
  repeat split; auto.
  - induction k as [|k IH]; [reflexivity|]. rewrite Nat.iter_succ, IH, D; auto.
  - induction k as [|k IH]; [reflexivity|]. rewrite Nat.iter_succ, IH, E; auto.
  - induction k as [|k IH]; [reflexivity|]. rewrite Nat.iter_succ, IH, P; auto.
Qed.

Section C6_example.
#[local] Existing Instance Samples.tilde.

Import Samples.

Lemma C6_witness :
  (DFA.step haltedDFA = (Normal true, haltedDFA)
   /\ Nat.iter 3 (fun s => snd (DFA.step s)) haltedDFA = haltedDFA)
  /\ (EpsilonDFA.step haltedEpsilonDFA = (Normal true, haltedEpsilonDFA)
   /\ Nat.iter 3 (fun s => snd (EpsilonDFA.step s)) haltedEpsilonDFA = haltedEpsilonDFA)
  /\ (DPDA.step haltedDPDA = (Normal true, haltedDPDA)
   /\ Nat.iter 3 (fun s => snd (DPDA.step s)) haltedDPDA = haltedDPDA).
Proof.
  destruct (C6_step_on_halted_machine (K := Samples.tilde)) as (D & E & P).
  split; [| split].
  - apply D. reflexivity.
  - apply E. reflexivity.
  - apply P. reflexivity.
Defined.
End C6_example.

(** ** A condition without a command *)

(** C7. When a step of a running machine gets to look up its active
    condition and the transition function holds no command for it, the
    step halts and rejects as a normal outcome: halted is set, accepted is
    cleared, the cursor, the current state and the stack are untouched and
    the step count is one more than before. *)
Theorem C7_missing_transition_rejects {K : AlphabetConstants} :
  (forall m : DFA.t,
     DFA.isHalted m = false ->
     DFA_haltDue m = false ->
     TransitionFunction.getCommand (DFA.transitionFunction m)
       (DFA_activeCondition m) = None ->
     exists m',
       DFA.step m = (Normal true, m')
       /\ DFA.isHalted m' = true /\ DFA.isAccepted m' = false
       /\ DFA.pointerPosition m' = DFA.pointerPosition m
       /\ DFA.currentState m' = DFA.currentState m
       /\ DFA.stepCount m' = DFA.stepCount m + 1)
  /\ (forall m : EpsilonDFA.t,
     EpsilonDFA.isHalted m = false ->
     EpsilonDFA_haltDue m = false ->
     TransitionFunction.getCommand (EpsilonDFA.transitionFunction m)
       (EpsilonDFA_activeCondition m) = None ->
     exists m',
       EpsilonDFA.step m = (Normal true, m')
       /\ EpsilonDFA.isHalted m' = true /\ EpsilonDFA.isAccepted m' = false
       /\ EpsilonDFA.pointerPosition m' = EpsilonDFA.pointerPosition m
       /\ EpsilonDFA.currentState m' = EpsilonDFA.currentState m
       /\ EpsilonDFA.stepCount m' = EpsilonDFA.stepCount m + 1)
  /\ (forall m : DPDA.t,
     DPDA.isHalted m = false ->
     DPDA_haltDue m = false ->
     TransitionFunction.getCommand (DPDA.transitionFunction m)
       (DPDA_activeCondition m) = None ->
     exists m',
       DPDA.step m = (Normal true, m')
       /\ DPDA.isHalted m' = true /\ DPDA.isAccepted m' = false
       /\ DPDA.pointerPosition m' = DPDA.pointerPosition m
       /\ DPDA.currentState m' = DPDA.currentState m
       /\ DPDA.stack m' = DPDA.stack m
       /\ DPDA.stepCount m' = DPDA.stepCount m + 1).
Proof.
  split; [| split].
  - unfold DFA_haltDue, DFA_activeCondition.
    intros [a tf q0 q n h acc tp p tr]; cbn; intros Hh Hd Hc.
    run_method. eexists; split; [reflexivity|]; cbn; auto.
  - unfold EpsilonDFA_haltDue, EpsilonDFA_activeCondition.
    intros [a tf q0 q n h al acc tp p tr]; cbn; intros Hh.
    destruct (Tape.length tp <=? p) eqn:Hl,
             (TransitionFunction.hasEpsilonTransition tf q) eqn:He;
      cbn; intros Hd Hc; try discriminate;
      run_method; eexists; (split; [reflexivity|]); cbn; auto.
  - unfold DPDA_haltDue, DPDA_activeCondition.
    intros [a tf q0 q n h sa md acc st sym tp p tr]; cbn; intros Hh.
    destruct (Tape.length tp <=? p) eqn:Hl,
             (TransitionFunction.hasEpsilonTransition tf q) eqn:He;
      cbn; intros Hd Hc; try discriminate;
      run_method; eexists; (split; [reflexivity|]); cbn; auto 10.
Qed.

Section C7_example.
#[local] Existing Instance Samples.tilde.
Import Samples.

(** [q0] has no transition on [b]; the DPDA has none on [b] over [Z]. *)
Lemma C7_witness :
  (exists m',
     DFA.step (dfaOn binaryTF "b") = (Normal true, m')
     /\ DFA.isHalted m' = true /\ DFA.isAccepted m' = false
     /\ DFA.pointerPosition m' = 0
     /\ DFA.currentState m' = q0
     /\ DFA.stepCount m' = 1)
  /\ (exists m',
     EpsilonDFA.step (edfaOn binaryTF "b") = (Normal true, m')
     /\ EpsilonDFA.isHalted m' = true /\ EpsilonDFA.isAccepted m' = false
     /\ EpsilonDFA.pointerPosition m' = 0
     /\ EpsilonDFA.currentState m' = q0
     /\ EpsilonDFA.stepCount m' = 1)
  /\ (exists m',
     DPDA.step (dpdaOn countingTF "b") = (Normal true, m')
     /\ DPDA.isHalted m' = true /\ DPDA.isAccepted m' = false
     /\ DPDA.pointerPosition m' = 0
     /\ DPDA.currentState m' = q0
     /\ DPDA.stack m' = ["Z"%string]
     /\ DPDA.stepCount m' = 1).
Proof.
  destruct (C7_missing_transition_rejects (K := tilde)) as (D & E & P).
  split; [| split].
  - apply (D (dfaOn binaryTF "b")); reflexivity.
  - apply (E (edfaOn binaryTF "b")); reflexivity.
  - apply (P (dpdaOn countingTF "b")); reflexivity.
Defined.
End C7_example.

(** ** The halting test before the transition *)

(** C5, as the code has it. On a running machine the DFA of
    [src/unnamed/part_000] halts before attempting a transition exactly
    when the cursor has reached the end of the tape and the current state
    has no epsilon transition: then it is finalized in place, accepted iff
    the current state is accepting; otherwise the step goes on to look up
    the active condition, and that lookup decides the outcome. The DFA of
    [src/src/DFA.js] behaves the same with the cursor test alone: epsilon
    transitions are not consulted. *)
Theorem C5_dfa_halting_test {K : AlphabetConstants} :
  (forall m : EpsilonDFA.t,
     EpsilonDFA.isHalted m = false ->
     let q := EpsilonDFA.currentState m in
     let p := EpsilonDFA.pointerPosition m in
     let n := EpsilonDFA.stepCount m + 1 in
     let tf := EpsilonDFA.transitionFunction m in
     let due := Tape.length (EpsilonDFA.tape m) <= p
                /\ TransitionFunction.hasEpsilonTransition tf q = false in
     (due ->
        exists m',
          EpsilonDFA.step m = (Normal true, m')
          /\ EpsilonDFA.isHalted m' = true
          /\ EpsilonDFA.isAccepted m' = State.getIsAccepting q
          /\ EpsilonDFA.currentState m' = q
          /\ EpsilonDFA.pointerPosition m' = p
          /\ EpsilonDFA.stepCount m' = n
          /\ EpsilonDFA.trace m' =
               EpsilonDFA.trace m
               ++ [verdict (State.getIsAccepting q) q n p; onHalt q n p])
     /\ (~ due ->
         match TransitionFunction.getCommand tf (EpsilonDFA_activeCondition m) with
         | None =>
             exists m',
               EpsilonDFA.step m = (Normal true, m')
               /\ EpsilonDFA.isAccepted m' = false
               /\ EpsilonDFA.trace m' =
                    EpsilonDFA.trace m ++ [onReject q n p; onHalt q n p]
         | Some cmd =>
             exists r m',
               EpsilonDFA.step m = (Normal r, m')
               /\ EpsilonDFA.currentState m' = Command.getState cmd
               /\ In (onStep (EpsilonDFA_activeCondition m) cmd n
                             (EpsilonDFA.pointerPosition m'))
                     (EpsilonDFA.trace m')
         end))
  /\ (forall m : DFA.t,
     DFA.isHalted m = false ->
     let q := DFA.currentState m in
     let p := DFA.pointerPosition m in
     let n := DFA.stepCount m + 1 in
     let tf := DFA.transitionFunction m in
     let due := Tape.length (DFA.tape m) <= p in
     (due ->
        exists m',
          DFA.step m = (Normal true, m')
          /\ DFA.isHalted m' = true
          /\ DFA.isAccepted m' = State.getIsAccepting q
          /\ DFA.currentState m' = q
          /\ DFA.pointerPosition m' = p
          /\ DFA.stepCount m' = n
          /\ DFA.trace m' =
               DFA.trace m
               ++ [verdict (State.getIsAccepting q) q n p; onHalt q n p])
     /\ (~ due ->
         match TransitionFunction.getCommand tf (DFA_activeCondition m) with
         | None =>
             exists m',
               DFA.step m = (Normal true, m')
               /\ DFA.isAccepted m' = false
               /\ DFA.trace m' = DFA.trace m ++ [onReject q n p; onHalt q n p]
         | Some cmd =>
             exists m',
               DFA.step m = (Normal false, m')
               /\ DFA.currentState m' = Command.getState cmd
               /\ In (onStep (DFA_activeCondition m) cmd n (DFA.pointerPosition m'))
                     (DFA.trace m')
         end)).
Proof.
  split.
  - unfold EpsilonDFA_activeCondition.
    intros [a tf q0 q n h al acc tp p tr]; cbn; intros Hh. split.
    + intros [Hl He]. apply leb_iff_le in Hl.
      destruct (State.getIsAccepting q) eqn:Ha;
        run_method; eexists; (split; [reflexivity|]); cbn;
        rewrite <- ?app_assoc; cbn; auto 10.
    + intros Hn.
      destruct (TransitionFunction.hasEpsilonTransition tf q) eqn:He; cbn.
      * destruct (TransitionFunction.getCommand tf
                    (TransitionFunction.getEpsilonTransitionCondition tf q))
          as [cmd|] eqn:Hc.
        -- run_method.
           repeat (case_test; simp_loop); do 2 eexists; (split; [reflexivity|]);
             cbn; (split; [reflexivity|]);
             rewrite ?in_app_iff; cbn; auto 10.
        -- run_method. eexists; (split; [reflexivity|]); cbn;
             rewrite <- ?app_assoc; auto.
      * assert (Hl : (Tape.length tp <=? p) = false).
        { destruct (Tape.length tp <=? p) eqn:Hl; [|reflexivity].
          exfalso. apply Hn. split; [apply leb_iff_le; exact Hl | reflexivity]. }
        destruct (TransitionFunction.getCommand tf _) as [cmd|] eqn:Hc.
        -- run_method.
           repeat (case_test; simp_loop); do 2 eexists; (split; [reflexivity|]);
             cbn; (split; [reflexivity|]);
             rewrite ?in_app_iff; cbn; auto 10.
        -- run_method. eexists; (split; [reflexivity|]); cbn;
             rewrite <- ?app_assoc; auto.
  - unfold DFA_activeCondition.
    intros [a tf q0 q n h acc tp p tr]; cbn; intros Hh. split.
    + intros Hl. apply leb_iff_le in Hl.
      destruct (State.getIsAccepting q) eqn:Ha;
        run_method; eexists; (split; [reflexivity|]); cbn;
        rewrite <- ?app_assoc; cbn; auto 10.
    + intros Hn.
      assert (Hl : (Tape.length tp <=? p) = false).
      { destruct (Tape.length tp <=? p) eqn:Hl; [|reflexivity].
        exfalso. apply Hn, leb_iff_le, Hl. }
      destruct (TransitionFunction.getCommand tf _) as [cmd|] eqn:Hc.
      * run_method. eexists; (split; [reflexivity|]); cbn;
          (split; [reflexivity|]); rewrite ?in_app_iff; cbn; auto 10.
      * run_method. eexists; (split; [reflexivity|]); cbn;
          rewrite <- ?app_assoc; auto.
Qed.

Section C5_example.
#[local] Existing Instance Samples.tilde.
Import Samples.

(** On the empty input the epsilon-aware DFA halts at once in [q0] and
    rejects; on input [1] the test is not due and [q0 --1--> q1] is
    taken. *)
Lemma C5_witness :
  (exists m',
     EpsilonDFA.step (edfaOn binaryTF "") = (Normal true, m')
     /\ EpsilonDFA.isHalted m' = true
     /\ EpsilonDFA.isAccepted m' = false
     /\ EpsilonDFA.currentState m' = q0
     /\ EpsilonDFA.pointerPosition m' = 0
     /\ EpsilonDFA.stepCount m' = 1
     /\ EpsilonDFA.trace m' =
          [onPointerChange 0; onReject q0 1 0; onHalt q0 1 0])
  /\ (exists r m',
     EpsilonDFA.step edfaBinary1 = (Normal r, m')
     /\ EpsilonDFA.currentState m' = q1
     /\ In (onStep (on q0 "1") (goto q1) 1 (EpsilonDFA.pointerPosition m'))
           (EpsilonDFA.trace m'))
  /\ (exists m',
     DFA.step dfaBinary1 = (Normal false, m')
     /\ DFA.currentState m' = q1
     /\ In (onStep (on q0 "1") (goto q1) 1 (DFA.pointerPosition m'))
           (DFA.trace m')).
Proof.
  destruct (C5_dfa_halting_test (K := tilde)) as (E & D).
  split; [| split].
  - apply (proj1 (E (edfaOn binaryTF "") eq_refl)).
    split; [vm_compute; lia | reflexivity].
  - apply (proj2 (E edfaBinary1 eq_refl)).
    intros [H _]. vm_compute in H. lia.
  - apply (proj2 (D dfaBinary1 eq_refl)).
    intros H. vm_compute in H. lia.
Defined.

(** The DFA of [src/src/DFA.js] on the empty input, in a state that has
    the epsilon transition [q0 --epsilon--> q1]: the step halts and
    rejects in [q0] before any transition is attempted. *)
Lemma C5_counterexample :
  DFA.isHalted dfaEpsilonEmpty = false
  /\ TransitionFunction.hasEpsilonTransition
       (DFA.transitionFunction dfaEpsilonEmpty)
       (DFA.currentState dfaEpsilonEmpty) = true
  /\ exists m',
       DFA.step dfaEpsilonEmpty = (Normal true, m')
       /\ DFA.isHalted m' = true
       /\ DFA.isAccepted m' = false
       /\ DFA.currentState m' = q0
       /\ DFA.trace m' =
            DFA.trace dfaEpsilonEmpty ++ [onReject q0 1 0; onHalt q0 1 0].
Proof.
  split; [reflexivity | split; [reflexivity |]].
  eexists. split; [reflexivity |]. repeat split.
Qed.
End C5_example.

(** C2. On a running DPDA the step halts before attempting a transition
    exactly when the cursor is at or past the end of the tape and either
    the current state has no epsilon transition or the topmost stack
    symbol is the epsilon sentinel: then the machine is finalized in
    place; otherwise the step goes on to look up the active condition. *)
Theorem C2_dpda_halting_test {K : AlphabetConstants} :
  forall m : DPDA.t,
    DPDA.isHalted m = false ->
    let q := DPDA.currentState m in
    let p := DPDA.pointerPosition m in
    let n := DPDA.stepCount m + 1 in
    let tf := DPDA.transitionFunction m in
    let due := Tape.length (DPDA.tape m) <= p
               /\ (TransitionFunction.hasEpsilonTransition tf q = false
                   \/ Stack.peek (DPDA.stack m) = EPSILON_STRING) in
    (due ->
       exists m',
         DPDA.step m = (Normal true, m')
         /\ DPDA.isHalted m' = true
         /\ DPDA.currentState m' = q
         /\ DPDA.pointerPosition m' = p
         /\ DPDA.stack m' = DPDA.stack m
         /\ DPDA.stepCount m' = n
         /\ DPDA.trace m' =
              DPDA.trace m
              ++ [verdict (DPDA.isAccepted m') q n p; onHalt q n p])
    /\ (~ due ->
        match TransitionFunction.getCommand tf (DPDA_activeCondition m) with
        | None =>
            exists m',
              DPDA.step m = (Normal true, m')
              /\ DPDA.isAccepted m' = false
              /\ DPDA.trace m' = DPDA.trace m ++ [onReject q n p; onHalt q n p]
        | Some cmd =>
            pushAccepted (DPDA.stackAlphabet m) cmd = true ->
            exists r m',
              DPDA.step m = (Normal r, m')
              /\ DPDA.currentState m' = Command.getState cmd
        end).
Proof.
  unfold DPDA_activeCondition, pushAccepted.
  intros [a tf q0 q n h sa md acc st sym tp p tr]; cbn; intros Hh. split.
  - intros [Hl Hd]. apply leb_iff_le in Hl.
    assert (Ht : Bool.eqb (TransitionFunction.hasEpsilonTransition tf q) false
                 || String.eqb (Stack.peek st) EPSILON_STRING = true).
    { destruct Hd as [He | Hp].
      - rewrite He. reflexivity.
      - rewrite Hp, String.eqb_refl. apply Bool.orb_true_r. }
    run_method.
    destruct (State.getIsAccepting q) eqn:Ha; simp_loop;
      [| destruct st as [|top st]; simp_loop ];
      eexists; (split; [reflexivity|]); cbn;
      rewrite <- ?app_assoc; cbn; auto 10.
  - intros Hn.
    assert (Ht : (Tape.length tp <=? p)
                 && (Bool.eqb (TransitionFunction.hasEpsilonTransition tf q) false
                     || String.eqb (Stack.peek st) EPSILON_STRING) = false).
    { destruct (Tape.length tp <=? p) eqn:Hl; [|reflexivity].
      apply leb_iff_le in Hl. cbn.
      destruct (TransitionFunction.hasEpsilonTransition tf q) eqn:He; cbn.
      - destruct (String.eqb_spec (Stack.peek st) EPSILON_STRING) as [Hp|Hp];
          [|reflexivity].
        exfalso. apply Hn. auto.
      - exfalso. apply Hn. auto. }
    destruct (TransitionFunction.hasEpsilonTransition tf q) eqn:He; cbn in *.
    + destruct (TransitionFunction.getCommand tf _) as [cmd|] eqn:Hc.
      * destruct (Command.getAction cmd) as [|arg] eqn:Hact;
          [| destruct (String.eqb arg EPSILON_STRING) eqn:Harg ];
          cbn; intros Hpush; run_method;
          repeat (case_test; simp_loop; try discriminate);
          do 2 eexists; (split; [reflexivity|]); reflexivity.
      * run_method. eexists; (split; [reflexivity|]); cbn;
          rewrite <- ?app_assoc; auto.
    + rewrite Bool.andb_true_r in Ht.
      destruct (TransitionFunction.getCommand tf _) as [cmd|] eqn:Hc.
      * destruct (Command.getAction cmd) as [|arg] eqn:Hact;
          [| destruct (String.eqb arg EPSILON_STRING) eqn:Harg ];
          cbn; intros Hpush; run_method;
          repeat (case_test; simp_loop; try discriminate);
          do 2 eexists; (split; [reflexivity|]); reflexivity.
      * run_method. eexists; (split; [reflexivity|]); cbn;
          rewrite <- ?app_assoc; auto.
Qed.

Section C2_example.
#[local] Existing Instance Samples.tilde.
Import Samples.

(** On the empty input the DPDA halts at once, with [Z] still on the
    stack; on input [ab] the test is not due and the transition on [a]
    over [Z] is taken. *)
Lemma C2_witness :
  (exists m',
     DPDA.step (dpdaOn countingTF "") = (Normal true, m')
     /\ DPDA.isHalted m' = true
     /\ DPDA.currentState m' = q0
     /\ DPDA.pointerPosition m' = 0
     /\ DPDA.stack m' = ["Z"%string]
     /\ DPDA.stepCount m' = 1
     /\ DPDA.trace m' =
          DPDA.trace (dpdaOn countingTF "")
          ++ [verdict (DPDA.isAccepted m') q0 1 0; onHalt q0 1 0])
  /\ (exists r m',
     DPDA.step dpdaCountingAB = (Normal r, m')
     /\ DPDA.currentState m' = q0).
Proof.
  split.
  - apply (proj1 (C2_dpda_halting_test (K := tilde)
                    (dpdaOn countingTF "") eq_refl)).
    split; [vm_compute; lia | left; reflexivity].
  - assert (Hn : ~ (Tape.length (DPDA.tape dpdaCountingAB)
                    <= DPDA.pointerPosition dpdaCountingAB
                    /\ (TransitionFunction.hasEpsilonTransition
                          (DPDA.transitionFunction dpdaCountingAB)
                          (DPDA.currentState dpdaCountingAB) = false
                        \/ Stack.peek (DPDA.stack dpdaCountingAB)
                           = EPSILON_STRING))).
    { intros [H _]. vm_compute in H. lia. }
    exact (proj2 (C2_dpda_halting_test (K := tilde) dpdaCountingAB eq_refl)
                 Hn eq_refl).
Defined.
End C2_example.

(** ** Acceptance at halt *)

(** C3. When the DPDA's halting test fires, [halt] marks the machine
    halted and decides: accepted by state when the current state is
    accepting, whatever the stack; otherwise accepted by stack when the
    stack is empty; otherwise rejected. The acceptance mode is written on
    acceptance only: on rejection the field keeps its value, so a mode
    that was unset stays unset. *)
Theorem C3_dpda_acceptance {K : AlphabetConstants} :
  forall m : DPDA.t,
    DPDA_haltDue m = true ->
    exists m',
      DPDA.halt m = (Normal true, m')
      /\ DPDA.isHalted m' = true
      /\ (State.getIsAccepting (DPDA.currentState m) = true ->
          DPDA.isAccepted m' = true
          /\ DPDA.acceptanceMode m' = Some DPDA.ACCEPT_BY_STATE)
      /\ (State.getIsAccepting (DPDA.currentState m) = false ->
          Stack.isEmpty (DPDA.stack m) = true ->
          DPDA.isAccepted m' = true
          /\ DPDA.acceptanceMode m' = Some DPDA.ACCEPT_BY_STACK)
      /\ (State.getIsAccepting (DPDA.currentState m) = false ->
          Stack.isEmpty (DPDA.stack m) = false ->
          DPDA.isAccepted m' = false
          /\ DPDA.acceptanceMode m' = DPDA.acceptanceMode m
          /\ (DPDA.acceptanceMode m = None -> DPDA.acceptanceMode m' = None)).
Proof.
  unfold DPDA_haltDue.
  intros [a tf q0 q n h sa md acc st sym tp p tr]; cbn; intros Hd.
  assert (Ht : (Tape.length tp <=? p)
               && (Bool.eqb (TransitionFunction.hasEpsilonTransition tf q) false
                   || String.eqb (Stack.peek st) EPSILON_STRING) = true).
  { destruct (TransitionFunction.hasEpsilonTransition tf q); exact Hd. }
  clear Hd. run_method.
  destruct (State.getIsAccepting q) eqn:Ha; simp_loop;
    [| destruct st as [|top st]; simp_loop ];
    eexists; (split; [reflexivity|]); cbn;
    repeat split; intros; try discriminate; auto.
Qed.

Section C3_example.
#[local] Existing Instance Samples.tilde.
Import Samples.

(** The DPDA on the empty input, in the non-accepting [q0] with [Z] on
    the stack: rejected, and the acceptance mode stays unset. *)
Lemma C3_witness :
  exists m',
    DPDA.halt (dpdaOn countingTF "") = (Normal true, m')
    /\ DPDA.isHalted m' = true
    /\ DPDA.isAccepted m' = false
    /\ DPDA.acceptanceMode m' = None.
Proof.
  destruct (C3_dpda_acceptance (K := tilde) (dpdaOn countingTF "") eq_refl)
    as (m' & Hhalt & Hh & _ & _ & Hrej).
  destruct (Hrej eq_refl eq_refl) as (Hacc & _ & Hmode).
  exists m'. repeat split; auto.
Defined.
End C3_example.

(** ** Refused stack symbols *)

(** C9. [stackPush] throws exactly when the stack alphabet is not
    compatible with its argument, and [setInitialStackSymbol] exactly
    when the stack alphabet does not contain its argument; a call that
    throws leaves every field of the machine as it was. *)
Theorem C9_refused_symbols_leave_machine {K : AlphabetConstants} :
  forall (m : DPDA.t) (str : string),
    ((exists e, fst (DPDA.stackPush str m) = Throw e)
     <-> Alphabet.isCompatibleWith (DPDA.stackAlphabet m) str = false)
    /\ (forall e, fst (DPDA.stackPush str m) = Throw e ->
                  snd (DPDA.stackPush str m) = m)
    /\ (Alphabet.isCompatibleWith (DPDA.stackAlphabet m) str = true ->
        fst (DPDA.stackPush str m) = Normal tt
        /\ DPDA.stack (snd (DPDA.stackPush str m))
           = Stack.push str (DPDA.stack m))
    /\ ((exists e, fst (DPDA.setInitialStackSymbol str m) = Throw e)
        <-> Alphabet.contains (DPDA.stackAlphabet m) str = false)
    /\ (forall e, fst (DPDA.setInitialStackSymbol str m) = Throw e ->
                  snd (DPDA.setInitialStackSymbol str m) = m)
    /\ (Alphabet.contains (DPDA.stackAlphabet m) str = true ->
        fst (DPDA.setInitialStackSymbol str m) = Normal tt
        /\ DPDA.initialStackSymbol (snd (DPDA.setInitialStackSymbol str m)) = str).
Proof.
  intros [a tf q0 q n h sa md acc st sym tp p tr] str.
  unfold_methods; cbn.
  destruct (Alphabet.isCompatibleWith sa str) eqn:Hc,
           (Alphabet.contains sa str) eqn:Hm; cbn;
    repeat split; intros; auto;
    try discriminate; try (eexists; reflexivity);
    repeat match goal with
           | H : exists _, _ |- _ => destruct H
           end; try discriminate.
Qed.

Section C9_example.
#[local] Existing Instance Samples.tilde.
Import Samples.

(** [b] is not a symbol of the stack alphabet [{Z,a}]. *)
Lemma C9_witness :
  snd (DPDA.stackPush "b" dpdaCountingAB) = dpdaCountingAB
  /\ snd (DPDA.setInitialStackSymbol "b" dpdaCountingAB) = dpdaCountingAB
  /\ DPDA.stack (snd (DPDA.stackPush "a" dpdaCountingAB)) = ["a"; "Z"]%string.
Proof.
  destruct (C9_refused_symbols_leave_machine (K := tilde) dpdaCountingAB "b")
    as (_ & Hpush & _ & _ & Hset & _).
  destruct (C9_refused_symbols_leave_machine (K := tilde) dpdaCountingAB "a")
    as (_ & _ & Hok & _).
  split; [| split].
  - apply (Hpush "Invalid stack string."%string). reflexivity.
  - apply (Hset "Invalid initial stack character"%string). reflexivity.
  - apply Hok. reflexivity.
Defined.
End C9_example.

(** ** The halting test after the transition *)

(** C1, as the code has it. In the DFA of [src/unnamed/part_000] and in
    the DPDA, a step of a running machine that gets past the first halting
    test and finds a command applies it and evaluates the halting
    predicate again on the new configuration: the step answers what the
    predicate says, and when it is due the machine is finalized in that
    same call (halted set, accept or reject decided, the accept / reject
    and halt callbacks fired last). The DFA of [src/src/DFA.js] has no
    second test: such a step answers [false] and leaves the machine
    running, and when the cursor has reached the end of the tape it is the
    next call of [step] that finalizes. *)
Theorem C1_halting_test_after_transition {K : AlphabetConstants} :
  (forall (m : EpsilonDFA.t) (cmd : Command.t),
     EpsilonDFA.isHalted m = false ->
     EpsilonDFA_haltDue m = false ->
     TransitionFunction.getCommand (EpsilonDFA.transitionFunction m)
       (EpsilonDFA_activeCondition m) = Some cmd ->
     exists r m',
       EpsilonDFA.step m = (Normal r, m')
       /\ r = EpsilonDFA_haltDue m'
       /\ EpsilonDFA.currentState m' = Command.getState cmd
       /\ EpsilonDFA.isHalted m' = EpsilonDFA_haltDue m'
       /\ (EpsilonDFA_haltDue m' = true ->
           let q := EpsilonDFA.currentState m' in
           let n := EpsilonDFA.stepCount m' in
           let p := EpsilonDFA.pointerPosition m' in
           EpsilonDFA.isAccepted m' = State.getIsAccepting q
           /\ exists pre,
                EpsilonDFA.trace m' =
                  pre ++ [verdict (EpsilonDFA.isAccepted m') q n p; onHalt q n p]))
  /\ (forall (m : DPDA.t) (cmd : Command.t),
     DPDA.isHalted m = false ->
     DPDA_haltDue m = false ->
     TransitionFunction.getCommand (DPDA.transitionFunction m)
       (DPDA_activeCondition m) = Some cmd ->
     pushAccepted (DPDA.stackAlphabet m) cmd = true ->
     exists r m',
       DPDA.step m = (Normal r, m')
       /\ r = DPDA_haltDue m'
       /\ DPDA.currentState m' = Command.getState cmd
       /\ DPDA.isHalted m' = DPDA_haltDue m'
       /\ (DPDA_haltDue m' = true ->
           let q := DPDA.currentState m' in
           let n := DPDA.stepCount m' in
           let p := DPDA.pointerPosition m' in
           DPDA.isAccepted m' =
             State.getIsAccepting q || Stack.isEmpty (DPDA.stack m')
           /\ exists pre,
                DPDA.trace m' =
                  pre ++ [verdict (DPDA.isAccepted m') q n p; onHalt q n p]))
  /\ (forall (m : DFA.t) (cmd : Command.t),
     DFA.isHalted m = false ->
     DFA_haltDue m = false ->
     TransitionFunction.getCommand (DFA.transitionFunction m)
       (DFA_activeCondition m) = Some cmd ->
     exists m',
       DFA.step m = (Normal false, m')
       /\ DFA.isHalted m' = false
       /\ DFA.currentState m' = Command.getState cmd
       /\ DFA.pointerPosition m' = DFA.pointerPosition m + 1
       /\ (DFA_haltDue m' = true ->
           exists m'',
             DFA.step m' = (Normal true, m'')
             /\ DFA.isHalted m'' = true
             /\ DFA.isAccepted m'' = State.getIsAccepting (DFA.currentState m')
             /\ DFA.stepCount m'' = DFA.stepCount m + 2)).
Proof.
  split; [| split].
  - unfold EpsilonDFA_haltDue, EpsilonDFA_activeCondition.
    intros [a tf q0 q n h al acc tp p tr] cmd; cbn; intros Hh.
    destruct (TransitionFunction.hasEpsilonTransition tf q) eqn:He; cbn;
      rewrite ?Bool.andb_false_r, ?Bool.andb_true_r; intros Hd Hc;
      run_method;
      repeat (case_test; simp_loop);
      do 2 eexists; (split; [reflexivity|]); simp_loop;
      repeat split; intros; try discriminate; auto;
      rewrite app_two_last; eexists; reflexivity.
  - unfold DPDA_haltDue, DPDA_activeCondition, pushAccepted.
    intros [a tf q0 q n h sa md acc st sym tp p tr] cmd; cbn; intros Hh.
    destruct (TransitionFunction.hasEpsilonTransition tf q) eqn:He; cbn;
      rewrite ?Bool.andb_true_r; intros Hd Hc;
      (destruct (Command.getAction cmd) as [|arg] eqn:Hact;
       [| destruct (String.eqb arg EPSILON_STRING) eqn:Harg ]);
      cbn; intros Hpush; run_method;
      repeat (case_test; simp_loop);
      do 2 eexists; (split; [reflexivity|]); simp_loop;
      repeat split; intros; try discriminate; auto;
      rewrite app_two_last; eexists; reflexivity.
  - unfold DFA_haltDue, DFA_activeCondition.
    intros [a tf q0 q n h acc tp p tr] cmd; cbn; intros Hh Hd Hc.
    run_method. eexists; (split; [reflexivity|]); cbn.
    repeat split. intros Hd'. run_method.
    destruct (State.getIsAccepting (Command.getState cmd)) eqn:Ha;
      eexists; (split; [reflexivity|]); cbn; repeat split; lia.
Qed.

Section C1_example.
#[local] Existing Instance Samples.tilde.
Import Samples.

(** On input [1] the epsilon-aware DFA takes [q0 --1--> q1] and halts in
    the same step; the DPDA on input [ab] takes its first transition and
    goes on; the DFA of [src/src/DFA.js] on input [1] answers [false] and
    halts at the second call. *)
Lemma C1_witness :
  (exists m',
     EpsilonDFA.step edfaBinary1 = (Normal true, m')
     /\ EpsilonDFA.currentState m' = q1
     /\ EpsilonDFA.isHalted m' = true
     /\ EpsilonDFA.isAccepted m' = true)
  /\ (exists r m',
     DPDA.step dpdaCountingAB = (Normal r, m')
     /\ r = DPDA_haltDue m'
     /\ DPDA.currentState m' = q0
     /\ DPDA.isHalted m' = DPDA_haltDue m')
  /\ (exists m' m'',
     DFA.step dfaBinary1 = (Normal false, m')
     /\ DFA.isHalted m' = false
     /\ DFA.step m' = (Normal true, m'')
     /\ DFA.isHalted m'' = true
     /\ DFA.isAccepted m'' = true
     /\ DFA.stepCount m'' = 2).
Proof.
  destruct (C1_halting_test_after_transition (K := tilde)) as (E & P & D).
  split; [| split].
  - destruct (E edfaBinary1 (goto q1) eq_refl eq_refl eq_refl)
      as (r & m' & Hs & Hr & Hq & Hh & Hf).
    assert (Hdue : EpsilonDFA_haltDue m' = true).
    { rewrite <- Hr. injection Hs as Hs _. symmetry. exact Hs. }
    destruct (Hf Hdue) as (Hacc & _).
    exists m'. rewrite Hr, Hdue in Hs. rewrite Hh, Hacc, Hq. auto.
  - destruct (P dpdaCountingAB (change q0 "a") eq_refl eq_refl eq_refl eq_refl)
      as (r & m' & Hs & Hr & Hq & Hh & _).
    exists r, m'. auto.
  - destruct (D dfaBinary1 (goto q1) eq_refl eq_refl eq_refl)
      as (m' & Hs & Hh & Hq & Hp & Hnext).
    assert (Hdue : DFA_haltDue m' = true).
    { injection Hs as Hs. rewrite <- Hs. reflexivity. }
    destruct (Hnext Hdue) as (m'' & Hs' & Hh' & Hacc & Hn).
    exists m', m''. rewrite Hq in Hacc. auto 10.
Defined.

(** The DFA of [src/src/DFA.js] on input [1]: the step applies
    [q0 --1--> q1], the cursor reaches the end of the tape in the
    accepting [q1], and the call returns [false] with the machine neither
    halted nor accepted. *)
Lemma C1_counterexample :
  DFA.isHalted dfaBinary1 = false
  /\ DFA_haltDue dfaBinary1 = false
  /\ TransitionFunction.getCommand (DFA.transitionFunction dfaBinary1)
       (DFA_activeCondition dfaBinary1) = Some (goto q1)
  /\ exists m',
       DFA.step dfaBinary1 = (Normal false, m')
       /\ DFA.currentState m' = q1
       /\ Tape.length (DFA.tape m') <= DFA.pointerPosition m'
       /\ TransitionFunction.hasEpsilonTransition (DFA.transitionFunction m')
            (DFA.currentState m') = false
       /\ DFA.isHalted m' = false
       /\ DFA.isAccepted m' = false.
Proof.
  repeat (split; [reflexivity |]).
  exists (snd (DFA.step dfaBinary1)).
  repeat split. vm_compute. lia.
Qed.
End C1_example.

(** ** Epsilon transitions and the cursor *)

(** C4, as the code has it. In the DFA of [src/unnamed/part_000] and in
    the DPDA, a step that does not halt, taken in a state that has an
    epsilon transition, takes that transition: the command applied is the
    one registered for the stored epsilon condition, the [onStep] callback
    receives that condition, and the cursor stays where it was, whatever
    other transitions the state has. The cursor moves, by one, only in a
    step taken in a state without epsilon transition that finds a command
    for the symbol under the cursor, a symbol other than epsilon. The DFA
    of [src/src/DFA.js] never consults epsilon transitions: every step
    that applies a transition consumes the symbol under the cursor and
    advances the cursor by one. *)
Theorem C4_epsilon_precedence {K : AlphabetConstants} :
  (forall (m m' : EpsilonDFA.t),
     let tf := EpsilonDFA.transitionFunction m in
     let q := EpsilonDFA.currentState m in
     let c := TransitionFunction.getEpsilonTransitionCondition tf q in
     TransitionFunction.hasEpsilonTransition tf q = true ->
     EpsilonDFA.step m = (Normal false, m') ->
     exists cmd,
       TransitionFunction.getCommand tf c = Some cmd
       /\ EpsilonDFA.currentState m' = Command.getState cmd
       /\ EpsilonDFA.pointerPosition m' = EpsilonDFA.pointerPosition m
       /\ In (onStep c cmd (EpsilonDFA.stepCount m + 1)
                     (EpsilonDFA.pointerPosition m))
             (EpsilonDFA.trace m'))
  /\ (forall m : EpsilonDFA.t,
     let tf := EpsilonDFA.transitionFunction m in
     let q := EpsilonDFA.currentState m in
     let p := EpsilonDFA.pointerPosition m in
     let a := Tape.charAt (EpsilonDFA.tape m) p in
     EpsilonDFA.pointerPosition (snd (EpsilonDFA.step m)) <> p ->
     EpsilonDFA.pointerPosition (snd (EpsilonDFA.step m)) = p + 1
     /\ TransitionFunction.hasEpsilonTransition tf q = false
     /\ a <> EPSILON_STRING
     /\ exists cmd,
          TransitionFunction.getCommand tf
            {| Condition.getState := q;
               Condition.getCharacter := a;
               Condition.getStackElement := None |} = Some cmd)
  /\ (forall (m m' : DPDA.t),
     let tf := DPDA.transitionFunction m in
     let q := DPDA.currentState m in
     let c := TransitionFunction.getEpsilonTransitionCondition tf q in
     TransitionFunction.hasEpsilonTransition tf q = true ->
     DPDA.step m = (Normal false, m') ->
     exists cmd,
       TransitionFunction.getCommand tf c = Some cmd
       /\ DPDA.currentState m' = Command.getState cmd
       /\ DPDA.pointerPosition m' = DPDA.pointerPosition m
       /\ In (onStep c cmd (DPDA.stepCount m + 1) (DPDA.pointerPosition m))
             (DPDA.trace m'))
  /\ (forall m : DPDA.t,
     let tf := DPDA.transitionFunction m in
     let q := DPDA.currentState m in
     let p := DPDA.pointerPosition m in
     let a := Tape.charAt (DPDA.tape m) p in
     DPDA.pointerPosition (snd (DPDA.step m)) <> p ->
     DPDA.pointerPosition (snd (DPDA.step m)) = p + 1
     /\ TransitionFunction.hasEpsilonTransition tf q = false
     /\ (exists cmd,
          TransitionFunction.getCommand tf
            {| Condition.getState := q;
               Condition.getCharacter := a;
               Condition.getStackElement := Some (Stack.peek (DPDA.stack m)) |}
          = Some cmd)
     /\ (TransitionFunction.coherent tf -> a <> EPSILON_STRING))
  /\ (forall (m : DFA.t) (cmd : Command.t),
     DFA.isHalted m = false ->
     DFA_haltDue m = false ->
     TransitionFunction.getCommand (DFA.transitionFunction m)
       (DFA_activeCondition m) = Some cmd ->
     exists m',
       DFA.step m = (Normal false, m')
       /\ DFA.currentState m' = Command.getState cmd
       /\ DFA.pointerPosition m' = DFA.pointerPosition m + 1
       /\ In (onStep (DFA_activeCondition m) cmd (DFA.stepCount m + 1)
                     (DFA.pointerPosition m + 1))
             (DFA.trace m')).
Proof.
  split; [| split; [| split; [| split]]].
  - intros [a tf q0 q n h al acc tp p tr] m'; cbn; intros He.
    run_method.
    repeat (case_test; simp_loop); intros Heq; try discriminate;
      injection Heq as <-; cbn;
      eexists; (split; [reflexivity|]);
      repeat split; rewrite ?in_app_iff; cbn; auto.
  - intros [a tf q0 q n h al acc tp p tr]; cbn.
    run_method.
    repeat (case_test; simp_loop); intros Hp;
      try (exfalso; apply Hp; reflexivity);
      repeat split; auto;
      try (apply String.eqb_neq, Bool.negb_true_iff; assumption);
      try (eexists; reflexivity);
      match goal with
      | H : TransitionFunction.hasEpsilonTransition _ _ = true |- _ =>
          rewrite String.eqb_refl in *; discriminate
      end.
  - intros [a tf q0 q n h sa md acc st sym tp p tr] m'; cbn; intros He.
    run_method.
    repeat (case_test; simp_loop); intros Heq; try discriminate;
      injection Heq as <-; cbn;
      eexists; (split; [reflexivity|]);
      repeat split; rewrite ?in_app_iff; cbn; auto.
  - intros [a tf q0 q n h sa md acc st sym tp p tr]; cbn.
    run_method.
    repeat (case_test; simp_loop); intros Hp;
      try (exfalso; apply Hp; reflexivity);
      repeat split; auto; try (eexists; reflexivity);
      intros Hco Ha;
      match goal with
      | Hc : TransitionFunction.getCommand _ ?c = Some _,
        He : TransitionFunction.hasEpsilonTransition _ _ = false |- _ =>
          specialize (Hco c _ Hc Ha); cbn in Hco; rewrite He in Hco;
          discriminate
      end.
  - unfold DFA_haltDue, DFA_activeCondition.
    intros [a tf q0 q n h acc tp p tr] cmd; cbn; intros Hh Hd Hc.
    run_method. eexists; (split; [reflexivity|]); cbn.
    repeat split. rewrite ?in_app_iff; cbn; auto.
Qed.

Section C4_example.
#[local] Existing Instance Samples.tilde.
Import Samples.

(** With [q0 --epsilon--> q1] and [q0 --a--> q2] registered and [a] under
    the cursor, the epsilon-aware DFA goes to [q1] and keeps the cursor;
    the DPDA takes its epsilon transition to [q2] likewise; without
    epsilon transition the cursor moves by one. *)
Lemma C4_witness :
  (exists m',
     EpsilonDFA.step edfaEpsilonA = (Normal false, m')
     /\ EpsilonDFA.currentState m' = q1
     /\ EpsilonDFA.pointerPosition m' = 0
     /\ In (onStep (on q0 EPSILON_STRING) (goto q1) 1 0) (EpsilonDFA.trace m'))
  /\ EpsilonDFA.pointerPosition (snd (EpsilonDFA.step edfaBinary011)) = 1
  /\ (exists m',
     DPDA.step dpdaEpsilonPopA = (Normal false, m')
     /\ DPDA.currentState m' = q2
     /\ DPDA.pointerPosition m' = 0)
  /\ DPDA.pointerPosition (snd (DPDA.step dpdaCountingAB)) = 1
  /\ (exists m',
     DFA.step dfaBinary011 = (Normal false, m')
     /\ DFA.currentState m' = q0
     /\ DFA.pointerPosition m' = 1).
Proof.
  destruct (C4_epsilon_precedence (K := tilde)) as (E1 & E2 & P1 & P2 & D).
  split; [| split; [| split; [| split]]].
  - assert (Hs : EpsilonDFA.step edfaEpsilonA
                 = (Normal false, snd (EpsilonDFA.step edfaEpsilonA)))
      by (vm_compute; reflexivity).
    destruct (E1 edfaEpsilonA _ eq_refl Hs) as (cmd & Hc & Hq & Hp & Hin).
    injection Hc as <-.
    exists (snd (EpsilonDFA.step edfaEpsilonA)). auto.
  - apply (E2 edfaBinary011). vm_compute. discriminate.
  - assert (Hs : DPDA.step dpdaEpsilonPopA
                 = (Normal false, snd (DPDA.step dpdaEpsilonPopA)))
      by (vm_compute; reflexivity).
    destruct (P1 dpdaEpsilonPopA _ eq_refl Hs) as (cmd & Hc & Hq & Hp & Hin).
    injection Hc as <-.
    exists (snd (DPDA.step dpdaEpsilonPopA)). auto.
  - apply (P2 dpdaCountingAB). vm_compute. discriminate.
  - destruct (D dfaBinary011 (goto q0) eq_refl eq_refl eq_refl)
      as (m' & Hs & Hq & Hp & _).
    exists m'. auto.
Defined.

(** The DFA of [src/src/DFA.js] in [q0], which has the epsilon transition
    [q0 --epsilon--> q1], with [a] under the cursor: the step takes
    [q0 --a--> q2] and advances the cursor. *)
Lemma C4_counterexample :
  TransitionFunction.hasEpsilonTransition
    (DFA.transitionFunction dfaEpsilonA) (DFA.currentState dfaEpsilonA) = true
  /\ TransitionFunction.getCommand (DFA.transitionFunction dfaEpsilonA)
       (TransitionFunction.getEpsilonTransitionCondition
          (DFA.transitionFunction dfaEpsilonA) (DFA.currentState dfaEpsilonA))
     = Some (goto q1)
  /\ exists m',
       DFA.step dfaEpsilonA = (Normal false, m')
       /\ DFA.currentState m' = q2
       /\ DFA.pointerPosition m' = DFA.pointerPosition dfaEpsilonA + 1
       /\ DFA.trace m' =
            DFA.trace dfaEpsilonA
            ++ [onPointerChange 1; onStep (on q0 "a") (goto q2) 1 1].
Proof.
  repeat (split; [reflexivity |]).
  exists (snd (DFA.step dfaEpsilonA)).
  repeat split.
Qed.
End C4_example.

(** ** The pop decision on an epsilon transition *)

(** C10. When the current state of a running DPDA has an epsilon
    transition and the first halting test is not due, the step looks up
    the stored epsilon condition as it is, without comparing its stack
    element with the top of the stack: whatever the stack holds, the
    command registered for that condition is applied. The stack is popped
    exactly when the stored condition's stack element is not epsilon: the
    [onStackPop] callback fires then and only then, and the stack left is
    the command's push over the popped (or untouched) stack. *)
Theorem C10_epsilon_pop_follows_declared_element {K : AlphabetConstants} :
  forall (m : DPDA.t) (cmd : Command.t),
    let tf := DPDA.transitionFunction m in
    let q := DPDA.currentState m in
    let c := TransitionFunction.getEpsilonTransitionCondition tf q in
    let declaredEpsilon := isEpsilon (Condition.getStackElement c) in
    DPDA.isHalted m = false ->
    DPDA_haltDue m = false ->
    TransitionFunction.hasEpsilonTransition tf q = true ->
    TransitionFunction.getCommand tf c = Some cmd ->
    pushAccepted (DPDA.stackAlphabet m) cmd = true ->
    exists r m' post,
      DPDA.step m = (Normal r, m')
      /\ DPDA.currentState m' = Command.getState cmd
      /\ DPDA.stack m' =
           pushArgument cmd
             (if declaredEpsilon then DPDA.stack m
              else snd (Stack.pop (DPDA.stack m)))
      /\ DPDA.trace m' =
           DPDA.trace m
           ++ (if declaredEpsilon then []
               else [onStackPop (fst (Stack.pop (DPDA.stack m)))])
           ++ post
      /\ existsb isStackPop post = false.
Proof.
  unfold DPDA_haltDue, pushAccepted, pushArgument.
  intros [a tf q0 q n h sa md acc st sym tp p tr] cmd; cbn.
  intros Hh Hd He Hc. rewrite He in Hd. cbn in Hd.
  destruct (isEpsilon
              (Condition.getStackElement
                 (TransitionFunction.getEpsilonTransitionCondition tf q)))
    eqn:Hse;
    (destruct (Command.getAction cmd) as [|arg] eqn:Hact;
     [| destruct (String.eqb arg EPSILON_STRING) eqn:Harg ]);
    cbn; intros Hpush; run_method;
    repeat (case_test; simp_loop);
    do 3 eexists; (split; [reflexivity|]); simp_loop;
    (split; [reflexivity|]); (split; [reflexivity|]);
    (split; [rewrite <- ?app_assoc; cbn; reflexivity | reflexivity]).
Qed.

Section C10_example.
#[local] Existing Instance Samples.tilde.
Import Samples.

(** The stored condition of [q0] declares [Z] while [a] is on top of the
    stack: the transition to [q2] is taken all the same and [a] is what
    gets popped. *)
Lemma C10_witness :
  Stack.peek (DPDA.stack dpdaEpsilonPopOverA) = "a"%string
  /\ Condition.getStackElement
       (TransitionFunction.getEpsilonTransitionCondition
          (DPDA.transitionFunction dpdaEpsilonPopOverA) q0) = Some "Z"%string
  /\ exists r m' post,
       DPDA.step dpdaEpsilonPopOverA = (Normal r, m')
       /\ DPDA.currentState m' = q2
       /\ DPDA.stack m' = ["Z"%string]
       /\ DPDA.trace m' =
            DPDA.trace dpdaEpsilonPopOverA
            ++ [onStackPop (Some "a"%string)] ++ post
       /\ existsb isStackPop post = false.
Proof.
  split; [reflexivity | split; [reflexivity |]].
  exact (@C10_epsilon_pop_follows_declared_element tilde
           dpdaEpsilonPopOverA (change q2 EPSILON_STRING)
           eq_refl eq_refl eq_refl eq_refl eq_refl).
Defined.
End C10_example.

(** ** Accepted machines are halted *)

Section FlagsAgree.
Context {K : AlphabetConstants}.

Lemma DFA_step_flagsAgree (m : DFA.t) :
  DFA_flagsAgree m -> DFA_flagsAgree (snd (DFA.step m)).
Proof.
  unfold DFA_flagsAgree. destruct m as [a tf q0 q n h acc tp p tr]; cbn.
  intros Hinv. run_method.
  repeat (case_test; simp_loop); intros Ha; auto;
    try discriminate; rewrite (Hinv Ha) in *; discriminate.
Qed.

Lemma DFA_run_flagsAgree (maxSteps : nat) :
  forall m, DFA_flagsAgree m -> DFA_flagsAgree (snd (DFA.run maxSteps m)).
Proof.
  induction maxSteps as [|i IH]; intros m Hinv; [exact Hinv|].
  cbn [DFA.run]. unfold bind.
  pose proof (DFA_step_flagsAgree Hinv) as Hstep.
  destruct (DFA.step m) as [[[|]|e] m1]; cbn in *; auto.
Qed.

Lemma DFA_perform_flagsAgree (m : DFA.t) (o : Op) :
  DFA_flagsAgree m -> DFA_flagsAgree (DFA_perform m o).
Proof.
  destruct o as [|input| |maxSteps]; cbn [DFA_perform].
  - intros _. unfold DFA_flagsAgree. run_method. discriminate.
  - unfold DFA_flagsAgree. run_method. auto.
  - apply DFA_step_flagsAgree.
  - apply DFA_run_flagsAgree.
Qed.

Lemma EpsilonDFA_step_flagsAgree (m : EpsilonDFA.t) :
  EpsilonDFA_flagsAgree m -> EpsilonDFA_flagsAgree (snd (EpsilonDFA.step m)).
Proof.
  unfold EpsilonDFA_flagsAgree.
  destruct m as [a tf q0 q n h al acc tp p tr]; cbn.
  intros Hinv. run_method.
  repeat (case_test; simp_loop); intros Ha; auto;
    try discriminate; rewrite (Hinv Ha) in *; discriminate.
Qed.

Lemma EpsilonDFA_run_flagsAgree (maxSteps : nat) :
  forall m, EpsilonDFA_flagsAgree m ->
            EpsilonDFA_flagsAgree (snd (EpsilonDFA.run maxSteps m)).
Proof.
  induction maxSteps as [|i IH]; intros m Hinv; [exact Hinv|].
  cbn [EpsilonDFA.run]. unfold bind.
  pose proof (EpsilonDFA_step_flagsAgree Hinv) as Hstep.
  destruct (EpsilonDFA.step m) as [[[|]|e] m1]; cbn in *; auto.
Qed.

Lemma EpsilonDFA_perform_flagsAgree (m : EpsilonDFA.t) (o : Op) :
  EpsilonDFA_flagsAgree m -> EpsilonDFA_flagsAgree (EpsilonDFA_perform m o).
Proof.
  destruct o as [|input| |maxSteps]; cbn [EpsilonDFA_perform].
  - intros _. unfold EpsilonDFA_flagsAgree. run_method. discriminate.
  - unfold EpsilonDFA_flagsAgree. run_method. auto.
  - apply EpsilonDFA_step_flagsAgree.
  - apply EpsilonDFA_run_flagsAgree.
Qed.

Lemma DPDA_step_flagsAgree (m : DPDA.t) :
  DPDA_flagsAgree m -> DPDA_flagsAgree (snd (DPDA.step m)).
Proof.
  unfold DPDA_flagsAgree.
  destruct m as [a tf q0 q n h sa md acc st sym tp p tr]; cbn.
  intros [Hinv Hsym]. run_method.
  repeat (case_test; simp_loop);
    (split; [| first [assumption | reflexivity]]); intros Ha; auto;
    try discriminate; rewrite (Hinv Ha) in *; discriminate.
Qed.

Lemma DPDA_run_flagsAgree (maxSteps : nat) :
  forall m, DPDA_flagsAgree m -> DPDA_flagsAgree (snd (DPDA.run maxSteps m)).
Proof.
  induction maxSteps as [|i IH]; intros m Hinv; [exact Hinv|].
  cbn [DPDA.run]. unfold bind.
  pose proof (DPDA_step_flagsAgree Hinv) as Hstep.
  destruct (DPDA.step m) as [[[|]|e] m1]; cbn in *; auto.
Qed.

Lemma DPDA_perform_flagsAgree (m : DPDA.t) (o : Op) :
  DPDA_flagsAgree m -> DPDA_flagsAgree (DPDA_perform m o).
Proof.
  destruct o as [|input| |maxSteps]; cbn [DPDA_perform].
  - unfold DPDA_flagsAgree.
    destruct m as [a tf q0 q n h sa md acc st sym tp p tr]; cbn.
    intros [_ Hsym]. run_method.
    split; [discriminate | first [assumption | reflexivity]].
  - unfold DPDA_flagsAgree. run_method. auto.
  - apply DPDA_step_flagsAgree.
  - apply DPDA_run_flagsAgree.
Qed.

Lemma DPDA_init_flagsAgree attribs tf q0 m0 :
  DPDA._init attribs tf q0 = Normal m0 -> DPDA_flagsAgree m0.
Proof.
  unfold DPDA._init, DPDA_flagsAgree.
  destruct attribs as [[al [sa|] [c|]]|]; run_method;
    repeat (case_test; simp_loop); intros Heq; try discriminate;
    injection Heq as <-; cbn; (split; [discriminate |]);
    first
      [ reflexivity
      | match goal with
        | H : negb ?b = false |- ?b = true =>
            destruct b; [reflexivity | discriminate]
        end ].
Qed.

End FlagsAgree.

(** C8. After construction and any sequence of [reset],
    [setInputString], [step] and [run] calls, a machine whose accepted
    flag is set has its halted flag set; a halted machine need not be
    accepted: each engine, built without any transition and stepped once
    on the empty input, is halted and rejected. *)
Theorem C8_accepted_implies_halted {K : AlphabetConstants} :
  (forall attribs tf q0 (ops : list Op),
     let m := fold_left DFA_perform ops (DFA._init attribs tf q0) in
     DFA.isAccepted m = true -> DFA.isHalted m = true)
  /\ (forall attribs tf q0 (ops : list Op),
     let m := fold_left EpsilonDFA_perform ops (EpsilonDFA._init attribs tf q0) in
     EpsilonDFA.isAccepted m = true -> EpsilonDFA.isHalted m = true)
  /\ (forall attribs tf q0 m0 (ops : list Op),
     DPDA._init attribs tf q0 = Normal m0 ->
     let m := fold_left DPDA_perform ops m0 in
     DPDA.isAccepted m = true -> DPDA.isHalted m = true)
  /\ (forall q0, State.getIsAccepting q0 = false ->
     let tf := TransitionFunction.ofList [] in
     (let m := fold_left DFA_perform [Step] (DFA._init None tf q0) in
      DFA.isHalted m = true /\ DFA.isAccepted m = false)
     /\ (let m := fold_left EpsilonDFA_perform [Step]
                    (EpsilonDFA._init None tf q0) in
         EpsilonDFA.isHalted m = true /\ EpsilonDFA.isAccepted m = false)
     /\ (exists m0,
           DPDA._init None tf q0 = Normal m0
           /\ let m := fold_left DPDA_perform [Step] m0 in
              DPDA.isHalted m = true /\ DPDA.isAccepted m = false)).
Proof.
  split; [| split; [| split]].
  - intros attribs tf q0 ops.
    assert (H : forall m, DFA_flagsAgree m ->
                          DFA_flagsAgree (fold_left DFA_perform ops m)).
    { induction ops as [|o ops IH]; intros m Hm; [exact Hm|].
      cbn. apply IH, DFA_perform_flagsAgree, Hm. }
    apply H. unfold DFA_flagsAgree. cbn. discriminate.
  - intros attribs tf q0 ops.
    assert (H : forall m, EpsilonDFA_flagsAgree m ->
                          EpsilonDFA_flagsAgree (fold_left EpsilonDFA_perform ops m)).
    { induction ops as [|o ops IH]; intros m Hm; [exact Hm|].
      cbn. apply IH, EpsilonDFA_perform_flagsAgree, Hm. }
    apply H. unfold EpsilonDFA_flagsAgree. cbn. discriminate.
  - intros attribs tf q0 m0 ops Hinit.
    assert (H : forall m, DPDA_flagsAgree m ->
                          DPDA_flagsAgree (fold_left DPDA_perform ops m)).
    { induction ops as [|o ops IH]; intros m Hm; [exact Hm|].
      cbn. apply IH, DPDA_perform_flagsAgree, Hm. }
    apply (H m0). apply (DPDA_init_flagsAgree _ _ _ Hinit).
  - intros q0 Hq0. cbn. unfold DPDA._init.
    unfold_methods. unfold Tape.length, Stack.peek. simp_loop.
    split; [| split].
    + split; reflexivity.
    + split; reflexivity.
    + eexists. split; [reflexivity|]. simp_loop. split; reflexivity.
Qed.

Section C8_example.
#[local] Existing Instance Samples.tilde.
Import Samples.

(** Each engine run to acceptance, by state for the DFAs on [011] and by
    stack for the DPDA on [ab], is halted; stepped once on the empty input
    without transitions, each is halted and rejected. *)
Lemma C8_witness :
  DFA.isHalted
    (fold_left DFA_perform [SetInputString "011"; Run 5]
       (DFA._init None binaryTF q0)) = true
  /\ EpsilonDFA.isHalted
       (fold_left EpsilonDFA_perform [SetInputString "011"; Step; Step; Step]
          (EpsilonDFA._init None binaryTF q0)) = true
  /\ DPDA.isHalted
       (fold_left DPDA_perform [SetInputString "ab"; Step; Step]
          (dpdaNew countingTF)) = true
  /\ DFA.isAccepted
       (fold_left DFA_perform [Step]
          (DFA._init None (TransitionFunction.ofList []) q0)) = false.
Proof.
  destruct (C8_accepted_implies_halted (K := tilde)) as (D & E & P & C).
  split; [| split; [| split]].
  - apply (D None binaryTF q0 [SetInputString "011"; Run 5]).
    vm_compute. reflexivity.
  - apply (E None binaryTF q0 [SetInputString "011"; Step; Step; Step]).
    vm_compute. reflexivity.
  - apply (P (Some dpdaAttribs) countingTF q0 (dpdaNew countingTF)
             [SetInputString "ab"; Step; Step]).
    + vm_compute. reflexivity.
    + vm_compute. reflexivity.
  - apply (C q0 eq_refl).
Defined.
End C8_example.

(** * Further properties of the engines *)
(** Split on a test of the method body, leaving alone the tests of the
    statement, which read the outcome of the whole call. *)
Ltac case_inner :=
  match goal with
  | |- context [if ?b then _ else _] =>
      lazymatch b with
      | context [@fst (Completion _) _ _] => fail
      | context [@snd (Completion _) _ _] => fail
      | _ => destruct b eqn:?
      end
  | |- context [match ?b with Some _ => _ | None => _ end] =>
      lazymatch b with
      | context [@fst (Completion _) _ _] => fail
      | context [@snd (Completion _) _ _] => fail
      | _ => destruct b eqn:?
      end
  | |- context [match ?b with
                | Command.NoAction => _
                | Command.STACK_CHANGE _ => _
                end] => destruct b eqn:?
  end.

Ltac read_events :=
  eexists;
  (split;
   [ first [ rewrite <- ?app_assoc; reflexivity
           | symmetry; apply app_nil_r ]
   | cbn; repeat split; reflexivity ]).

(** [simp_loop] with the known tests rewritten wherever they occur. *)
Ltac simp_fast :=
  repeat (cbn;
    first
      [ match goal with
        | H : _ = true |- _ => progress rewrite H
        | H : _ = false |- _ => progress rewrite H
        | H : _ = None |- _ => progress rewrite H
        | H : _ = Some _ |- _ => progress rewrite H
        | H : _ = Command.NoAction |- _ => progress rewrite H
        | H : _ = Command.STACK_CHANGE _ |- _ => progress rewrite H
        end
      | progress rewrite ?Bool.andb_false_r, ?Bool.andb_true_r,
          ?Bool.orb_false_r, ?Bool.orb_true_r, ?String.eqb_refl,
          ?eqb_false_negb ]);
  cbn.

Ltac eval_method := cbn; unfold_methods; simp_fast.

(** ** Facts about the sample machines *)

Section SampleFacts.
#[local] Existing Instance Samples.tilde.
Import Samples MoreSamples.

Lemma binaryTF_no_epsilon :
  forall s, TransitionFunction.hasEpsilonTransition binaryTF s = false.
Proof.
  intros s. cbn. unfold TransitionFunction.isEpsilonFor. cbn.
  rewrite !Bool.andb_false_r. reflexivity.
Qed.

Lemma countingTF_no_epsilon :
  forall s, TransitionFunction.hasEpsilonTransition countingTF s = false.
Proof.
  intros s. cbn. unfold TransitionFunction.isEpsilonFor. cbn.
  rewrite !Bool.andb_false_r. reflexivity.
Qed.

Lemma binary011_no_epsilon_symbol :
  forall i, i < Tape.length (EpsilonDFA.tape edfaBinary011) ->
            Tape.charAt (EpsilonDFA.tape edfaBinary011) i <> EPSILON_STRING.
Proof.
  intros i Hi.
  assert (Hl : Tape.length (EpsilonDFA.tape edfaBinary011) = 3) by reflexivity.
  rewrite Hl in Hi.
  destruct i as [|[|[|i]]]; [vm_compute; discriminate .. | lia].
Qed.

End SampleFacts.

(** ** One step: answer, counter, frame *)

Section StepFacts.
Context {K : AlphabetConstants}.

Lemma DFA_step_halted (m : DFA.t) :
  DFA.isHalted m = true -> DFA.step m = (Normal true, m).
Proof. intros Hh. eval_method. reflexivity. Qed.

Lemma EpsilonDFA_step_halted (m : EpsilonDFA.t) :
  EpsilonDFA.isHalted m = true -> EpsilonDFA.step m = (Normal true, m).
Proof. intros Hh. eval_method. reflexivity. Qed.

Lemma DPDA_step_halted (m : DPDA.t) :
  DPDA.isHalted m = true -> DPDA.step m = (Normal true, m).
Proof. intros Hh. eval_method. reflexivity. Qed.

(** [step] answers the halted flag it leaves. *)
Lemma DFA_step_answer (m : DFA.t) :
  fst (DFA.step m) = Normal (DFA.isHalted (snd (DFA.step m))).
Proof.
  destruct m as [a tf q0 q n h acc tp p tr]. eval_method.
  repeat (case_test; simp_fast); reflexivity.
Qed.

Lemma EpsilonDFA_step_answer (m : EpsilonDFA.t) :
  fst (EpsilonDFA.step m) = Normal (EpsilonDFA.isHalted (snd (EpsilonDFA.step m))).
Proof.
  destruct m as [a tf q0 q n h al acc tp p tr]. eval_method.
  repeat (case_test; simp_fast); reflexivity.
Qed.

Lemma DPDA_step_answer (m : DPDA.t) :
  match fst (DPDA.step m) with
  | Normal r => r = DPDA.isHalted (snd (DPDA.step m))
  | Throw _ => DPDA.isHalted (snd (DPDA.step m)) = false
  end.
Proof.
  destruct m as [a tf q0 q n h sa md acc st sym tp p tr]. eval_method.
  repeat (case_test; simp_fast); reflexivity.
Qed.

(** A step of a running machine counts once, whatever its outcome. *)
Lemma DFA_step_count (m : DFA.t) :
  DFA.stepCount (snd (DFA.step m)) =
    if DFA.isHalted m then DFA.stepCount m else DFA.stepCount m + 1.
Proof.
  destruct m as [a tf q0 q n h acc tp p tr]. eval_method.
  repeat (case_test; simp_fast); reflexivity.
Qed.

Lemma EpsilonDFA_step_count (m : EpsilonDFA.t) :
  EpsilonDFA.stepCount (snd (EpsilonDFA.step m)) =
    if EpsilonDFA.isHalted m then EpsilonDFA.stepCount m
    else EpsilonDFA.stepCount m + 1.
Proof.
  destruct m as [a tf q0 q n h al acc tp p tr]. eval_method.
  repeat (case_test; simp_fast); reflexivity.
Qed.

Lemma DPDA_step_count (m : DPDA.t) :
  DPDA.stepCount (snd (DPDA.step m)) =
    if DPDA.isHalted m then DPDA.stepCount m else DPDA.stepCount m + 1.
Proof.
  destruct m as [a tf q0 q n h sa md acc st sym tp p tr]. eval_method.
  repeat (case_test; simp_fast); reflexivity.
Qed.

End StepFacts.

(** ** Bounded runs *)

(** X1. [run maxSteps] performs at most [maxSteps] steps: the step count
    grows by at most [maxSteps] and never shrinks, and when [run] answers
    [false] it has performed exactly [maxSteps] steps. *)
Theorem X1_run_step_budget {K : AlphabetConstants} :
  (forall (n : nat) (m : DFA.t),
     let m' := snd (DFA.run n m) in
     DFA.stepCount m <= DFA.stepCount m' <= DFA.stepCount m + n
     /\ (fst (DFA.run n m) = Normal false ->
         DFA.stepCount m' = DFA.stepCount m + n))
  /\ (forall (n : nat) (m : EpsilonDFA.t),
     let m' := snd (EpsilonDFA.run n m) in
     EpsilonDFA.stepCount m <= EpsilonDFA.stepCount m'
       <= EpsilonDFA.stepCount m + n
     /\ (fst (EpsilonDFA.run n m) = Normal false ->
         EpsilonDFA.stepCount m' = EpsilonDFA.stepCount m + n))
  /\ (forall (n : nat) (m : DPDA.t),
     let m' := snd (DPDA.run n m) in
     DPDA.stepCount m <= DPDA.stepCount m' <= DPDA.stepCount m + n
     /\ (fst (DPDA.run n m) = Normal false ->
         DPDA.stepCount m' = DPDA.stepCount m + n)).
Proof.
  split; [| split].
  - induction n as [|i IH]; intros m; cbn zeta.
    + cbn. split; [lia | intros _; lia].
    + cbn [DFA.run]. unfold bind.
      pose proof (DFA_step_count m) as Hc.
      destruct (DFA.isHalted m) eqn:Hh.
      * rewrite (DFA_step_halted m Hh). cbn.
        split; [lia | discriminate].
      * pose proof (DFA_step_answer m) as Ha.
        destruct (DFA.step m) as [[[|]|e] m1]; cbn in *;
          try discriminate.
        -- split; [lia | discriminate].
        -- specialize (IH m1). cbn zeta in IH. destruct IH as [IH1 IH2].
           split; [lia | intros Hf; rewrite (IH2 Hf); lia].
  - induction n as [|i IH]; intros m; cbn zeta.
    + cbn. split; [lia | intros _; lia].
    + cbn [EpsilonDFA.run]. unfold bind.
      pose proof (EpsilonDFA_step_count m) as Hc.
      destruct (EpsilonDFA.isHalted m) eqn:Hh.
      * rewrite (EpsilonDFA_step_halted m Hh). cbn.
        split; [lia | discriminate].
      * pose proof (EpsilonDFA_step_answer m) as Ha.
        destruct (EpsilonDFA.step m) as [[[|]|e] m1]; cbn in *;
          try discriminate.
        -- split; [lia | discriminate].
        -- specialize (IH m1). cbn zeta in IH. destruct IH as [IH1 IH2].
           split; [lia | intros Hf; rewrite (IH2 Hf); lia].
  - induction n as [|i IH]; intros m; cbn zeta.
    + cbn. split; [lia | intros _; lia].
    + cbn [DPDA.run]. unfold bind.
      pose proof (DPDA_step_count m) as Hc.
      destruct (DPDA.isHalted m) eqn:Hh.
      * rewrite (DPDA_step_halted m Hh). cbn.
        split; [lia | discriminate].
      * destruct (DPDA.step m) as [[[|]|e] m1]; cbn in *.
        -- split; [lia | discriminate].
        -- specialize (IH m1). cbn zeta in IH. destruct IH as [IH1 IH2].
           split; [lia | intros Hf; rewrite (IH2 Hf); lia].
        -- split; [lia | discriminate].
Qed.

Section X1_example.
#[local] Existing Instance Samples.tilde.
Import Samples MoreSamples.

(** Two calls on input [011] do not halt the DFA of [src/src/DFA.js]:
    both count. *)
Lemma X1_witness :
  DFA.stepCount (snd (DFA.run 2 dfaBinary011))
  = DFA.stepCount dfaBinary011 + 2.
Proof.
  destruct (X1_run_step_budget (K := tilde)) as (D & _).
  destruct (D 2 dfaBinary011) as (_ & H).
  assert (E : fst (DFA.run 2 dfaBinary011) = Normal false)
    by (vm_compute; reflexivity).
  exact (H E).
Defined.
End X1_example.

(** X2. What [run] answers: [true] exactly when at least one step was
    allowed and the machine is halted afterwards. With [maxSteps = 0]
    the answer is [false] and the machine is untouched, even when it is
    already halted. A run of the DPDA that throws leaves the machine not
    halted. *)
Theorem X2_run_answer {K : AlphabetConstants} :
  (forall (n : nat) (m : DFA.t),
     fst (DFA.run n m)
     = Normal ((0 <? n) && DFA.isHalted (snd (DFA.run n m))))
  /\ (forall (n : nat) (m : EpsilonDFA.t),
     fst (EpsilonDFA.run n m)
     = Normal ((0 <? n) && EpsilonDFA.isHalted (snd (EpsilonDFA.run n m))))
  /\ (forall (n : nat) (m : DPDA.t),
     match fst (DPDA.run n m) with
     | Normal r => r = (0 <? n) && DPDA.isHalted (snd (DPDA.run n m))
     | Throw _ => DPDA.isHalted (snd (DPDA.run n m)) = false
     end)
  /\ (forall m : DFA.t, DFA.run 0 m = (Normal false, m))
  /\ (forall m : EpsilonDFA.t, EpsilonDFA.run 0 m = (Normal false, m))
  /\ (forall m : DPDA.t, DPDA.run 0 m = (Normal false, m)).
Proof.
  split; [| split; [| split; [| repeat split]]].
  - induction n as [|i IH]; intros m; [reflexivity|].
    cbn [DFA.run]. unfold bind.
    pose proof (DFA_step_answer m) as Ha.
    destruct (DFA.step m) as [[[|]|e] m1]; cbn in *; try discriminate.
    + injection Ha as <-. reflexivity.
    + injection Ha as Ha. rewrite IH.
      destruct i; cbn; [rewrite <- Ha|]; reflexivity.
  - induction n as [|i IH]; intros m; [reflexivity|].
    cbn [EpsilonDFA.run]. unfold bind.
    pose proof (EpsilonDFA_step_answer m) as Ha.
    destruct (EpsilonDFA.step m) as [[[|]|e] m1]; cbn in *; try discriminate.
    + injection Ha as <-. reflexivity.
    + injection Ha as Ha. rewrite IH.
      destruct i; cbn; [rewrite <- Ha|]; reflexivity.
  - induction n as [|i IH]; intros m; [reflexivity|].
    cbn [DPDA.run]. unfold bind.
    pose proof (DPDA_step_answer m) as Ha.
    destruct (DPDA.step m) as [[[|]|e] m1]; cbn in *; auto.
    specialize (IH m1).
    destruct (fst (DPDA.run i m1)) as [r|e]; auto.
    rewrite IH. destruct i; cbn; [rewrite <- Ha|]; reflexivity.
Qed.

(** X3. Runs compose: a run of [a + b] steps is a run of [a] steps
    followed, when that one answered [false], by a run of [b] steps on
    the machine it left; an answer [true] or a throw of the first part is
    the outcome of the whole. *)
Theorem X3_run_splits {K : AlphabetConstants} :
  (forall (a b : nat) (m : DFA.t),
     DFA.run (a + b) m =
       match DFA.run a m with
       | (Normal false, m') => DFA.run b m'
       | outcome => outcome
       end)
  /\ (forall (a b : nat) (m : EpsilonDFA.t),
     EpsilonDFA.run (a + b) m =
       match EpsilonDFA.run a m with
       | (Normal false, m') => EpsilonDFA.run b m'
       | outcome => outcome
       end)
  /\ (forall (a b : nat) (m : DPDA.t),
     DPDA.run (a + b) m =
       match DPDA.run a m with
       | (Normal false, m') => DPDA.run b m'
       | outcome => outcome
       end).
Proof.
  split; [| split].
  - induction a as [|a IH]; intros b m; [reflexivity|].
    cbn [Nat.add DFA.run]. unfold bind.
    destruct (DFA.step m) as [[[|]|e] m1]; cbn; auto.
  - induction a as [|a IH]; intros b m; [reflexivity|].
    cbn [Nat.add EpsilonDFA.run]. unfold bind.
    destruct (EpsilonDFA.step m) as [[[|]|e] m1]; cbn; auto.
  - induction a as [|a IH]; intros b m; [reflexivity|].
    cbn [Nat.add DPDA.run]. unfold bind.
    destruct (DPDA.step m) as [[[|]|e] m1]; cbn; auto.
Qed.

(** X4. A run leaves the machine that the same number of [step] calls
    leaves: for the two DFAs always, for the DPDA whenever the run does
    not throw. *)
Theorem X4_run_is_repeated_step {K : AlphabetConstants} :
  (forall (n : nat) (m : DFA.t),
     snd (DFA.run n m) = Nat.iter n (fun s => snd (DFA.step s)) m)
  /\ (forall (n : nat) (m : EpsilonDFA.t),
     snd (EpsilonDFA.run n m)
     = Nat.iter n (fun s => snd (EpsilonDFA.step s)) m)
  /\ (forall (n : nat) (m : DPDA.t) (r : bool),
     fst (DPDA.run n m) = Normal r ->
     snd (DPDA.run n m) = Nat.iter n (fun s => snd (DPDA.step s)) m).
Proof.
  split; [| split].
  - induction n as [|i IH]; intros m; [reflexivity|].
    rewrite Nat.iter_succ_r. cbn [DFA.run]. unfold bind.
    pose proof (DFA_step_answer m) as Ha.
    destruct (DFA.step m) as [[[|]|e] m1]; cbn [fst snd] in *; try discriminate.
    + injection Ha as Ha. symmetry in Ha. clear IH.
      induction i as [|i IHi]; [reflexivity|].
      rewrite Nat.iter_succ, <- IHi. cbv beta.
      rewrite (DFA_step_halted _ Ha). reflexivity.
    + apply IH.
  - induction n as [|i IH]; intros m; [reflexivity|].
    rewrite Nat.iter_succ_r. cbn [EpsilonDFA.run]. unfold bind.
    pose proof (EpsilonDFA_step_answer m) as Ha.
    destruct (EpsilonDFA.step m) as [[[|]|e] m1]; cbn [fst snd] in *; try discriminate.
    + injection Ha as Ha. symmetry in Ha. clear IH.
      induction i as [|i IHi]; [reflexivity|].
      rewrite Nat.iter_succ, <- IHi. cbv beta.
      rewrite (EpsilonDFA_step_halted _ Ha). reflexivity.
    + apply IH.
  - induction n as [|i IH]; intros m r; [reflexivity|].
    rewrite Nat.iter_succ_r. cbn [DPDA.run]. unfold bind.
    pose proof (DPDA_step_answer m) as Ha.
    destruct (DPDA.step m) as [[[|]|e] m1]; cbn [fst snd] in *; try discriminate.
    + intros _. symmetry in Ha. clear IH.
      induction i as [|i IHi]; [reflexivity|].
      rewrite Nat.iter_succ, <- IHi. cbv beta.
      rewrite (DPDA_step_halted _ Ha). reflexivity.
    + apply IH.
Qed.

Section X4_example.
#[local] Existing Instance Samples.tilde.
Import Samples MoreSamples.

(** The DPDA reads [ab] in two steps without throwing. *)
Lemma X4_witness :
  snd (DPDA.run 2 dpdaCountingAB)
  = Nat.iter 2 (fun s => snd (DPDA.step s)) dpdaCountingAB.
Proof.
  destruct (X4_run_is_repeated_step (K := tilde)) as (_ & _ & P).
  assert (E : fst (DPDA.run 2 dpdaCountingAB) = Normal true)
    by (vm_compute; reflexivity).
  exact (P 2 dpdaCountingAB true E).
Defined.
End X4_example.

(** ** What a step leaves alone *)

Section Frames.
Context {K : AlphabetConstants}.

Lemma DFA_step_frame (m : DFA.t) :
  let m' := snd (DFA.step m) in
  DFA.transitionFunction m' = DFA.transitionFunction m
  /\ DFA.initialState m' = DFA.initialState m
  /\ DFA.alphabet m' = DFA.alphabet m
  /\ DFA.tape m' = DFA.tape m
  /\ DFA.pointerPosition m <= DFA.pointerPosition m'
  /\ (DFA.pointerPosition m <= Tape.length (DFA.tape m) ->
      DFA.pointerPosition m' <= Tape.length (DFA.tape m)).
Proof.
  destruct m as [a tf q0 q n h acc tp p tr]; cbn.
  destruct (Tape.length tp <=? p) eqn:Hl;
    [apply Nat.leb_le in Hl as Hl' | apply Nat.leb_gt in Hl as Hl'];
    eval_method; repeat (case_test; simp_fast); repeat split; lia.
Qed.

Lemma EpsilonDFA_step_frame (m : EpsilonDFA.t) :
  let m' := snd (EpsilonDFA.step m) in
  EpsilonDFA.transitionFunction m' = EpsilonDFA.transitionFunction m
  /\ EpsilonDFA.initialState m' = EpsilonDFA.initialState m
  /\ EpsilonDFA.alphabet m' = EpsilonDFA.alphabet m
  /\ EpsilonDFA.allowEpsilonTransitions m' = EpsilonDFA.allowEpsilonTransitions m
  /\ EpsilonDFA.tape m' = EpsilonDFA.tape m
  /\ EpsilonDFA.pointerPosition m <= EpsilonDFA.pointerPosition m'
  /\ (EpsilonDFA.pointerPosition m <= Tape.length (EpsilonDFA.tape m) ->
      EpsilonDFA.pointerPosition m' <= Tape.length (EpsilonDFA.tape m)).
Proof.
  destruct m as [a tf q0 q n h al acc tp p tr]; cbn.
  destruct (Tape.length tp <=? p) eqn:Hl;
    [apply Nat.leb_le in Hl as Hl' | apply Nat.leb_gt in Hl as Hl'];
    destruct (TransitionFunction.hasEpsilonTransition tf q) eqn:He;
    eval_method; repeat (case_test; simp_fast); repeat split; lia.
Qed.

Lemma DPDA_step_frame (m : DPDA.t) :
  let m' := snd (DPDA.step m) in
  DPDA.transitionFunction m' = DPDA.transitionFunction m
  /\ DPDA.initialState m' = DPDA.initialState m
  /\ DPDA.alphabet m' = DPDA.alphabet m
  /\ DPDA.stackAlphabet m' = DPDA.stackAlphabet m
  /\ DPDA.initialStackSymbol m' = DPDA.initialStackSymbol m
  /\ DPDA.tape m' = DPDA.tape m
  /\ DPDA.pointerPosition m <= DPDA.pointerPosition m'
  /\ (DPDA.pointerPosition m <= Tape.length (DPDA.tape m) ->
      DPDA.pointerPosition m' <= Tape.length (DPDA.tape m)).
Proof.
  destruct m as [a tf q0 q n h sa md acc st sym tp p tr]; cbn.
  destruct (Tape.length tp <=? p) eqn:Hl;
    [apply Nat.leb_le in Hl as Hl' | apply Nat.leb_gt in Hl as Hl'];
    destruct (TransitionFunction.hasEpsilonTransition tf q) eqn:He;
    eval_method; repeat (case_test; simp_fast); repeat split; lia.
Qed.

Lemma DFA_run_frame (n : nat) :
  forall m : DFA.t,
    let m' := snd (DFA.run n m) in
    DFA.transitionFunction m' = DFA.transitionFunction m
    /\ DFA.initialState m' = DFA.initialState m
    /\ DFA.alphabet m' = DFA.alphabet m
    /\ DFA.tape m' = DFA.tape m
    /\ DFA.pointerPosition m <= DFA.pointerPosition m'
    /\ (DFA.pointerPosition m <= Tape.length (DFA.tape m) ->
        DFA.pointerPosition m' <= Tape.length (DFA.tape m)).
Proof.
  induction n as [|i IH]; intros m; cbn zeta.
  - cbn. repeat split; auto.
  - cbn [DFA.run]. unfold bind.
    pose proof (DFA_step_frame m) as Hs. cbn zeta in Hs.
    destruct (DFA.step m) as [[[|]|e] m1]; cbn [fst snd] in *; auto.
    specialize (IH m1). cbn zeta in IH.
    destruct Hs as (H1 & H2 & H3 & H4 & H5 & H6).
    destruct IH as (I1 & I2 & I3 & I4 & I5 & I6).
    rewrite I1, I2, I3, I4, H1, H2, H3, H4 in *.
    repeat split; auto; lia.
Qed.

Lemma EpsilonDFA_run_frame (n : nat) :
  forall m : EpsilonDFA.t,
    let m' := snd (EpsilonDFA.run n m) in
    EpsilonDFA.transitionFunction m' = EpsilonDFA.transitionFunction m
    /\ EpsilonDFA.initialState m' = EpsilonDFA.initialState m
    /\ EpsilonDFA.alphabet m' = EpsilonDFA.alphabet m
    /\ EpsilonDFA.allowEpsilonTransitions m'
       = EpsilonDFA.allowEpsilonTransitions m
    /\ EpsilonDFA.tape m' = EpsilonDFA.tape m
    /\ EpsilonDFA.pointerPosition m <= EpsilonDFA.pointerPosition m'
    /\ (EpsilonDFA.pointerPosition m <= Tape.length (EpsilonDFA.tape m) ->
        EpsilonDFA.pointerPosition m' <= Tape.length (EpsilonDFA.tape m)).
Proof.
  induction n as [|i IH]; intros m; cbn zeta.
  - cbn. repeat split; auto.
  - cbn [EpsilonDFA.run]. unfold bind.
    pose proof (EpsilonDFA_step_frame m) as Hs. cbn zeta in Hs.
    destruct (EpsilonDFA.step m) as [[[|]|e] m1]; cbn [fst snd] in *; auto.
    specialize (IH m1). cbn zeta in IH.
    destruct Hs as (H1 & H2 & H3 & H3' & H4 & H5 & H6).
    destruct IH as (I1 & I2 & I3 & I3' & I4 & I5 & I6).
    rewrite I1, I2, I3, I3', I4, H1, H2, H3, H3', H4 in *.
    repeat split; auto; lia.
Qed.

Lemma DPDA_run_frame (n : nat) :
  forall m : DPDA.t,
    let m' := snd (DPDA.run n m) in
    DPDA.transitionFunction m' = DPDA.transitionFunction m
    /\ DPDA.initialState m' = DPDA.initialState m
    /\ DPDA.alphabet m' = DPDA.alphabet m
    /\ DPDA.stackAlphabet m' = DPDA.stackAlphabet m
    /\ DPDA.initialStackSymbol m' = DPDA.initialStackSymbol m
    /\ DPDA.tape m' = DPDA.tape m
    /\ DPDA.pointerPosition m <= DPDA.pointerPosition m'
    /\ (DPDA.pointerPosition m <= Tape.length (DPDA.tape m) ->
        DPDA.pointerPosition m' <= Tape.length (DPDA.tape m)).
Proof.
  induction n as [|i IH]; intros m; cbn zeta.
  - cbn. repeat split; auto.
  - cbn [DPDA.run]. unfold bind.
    pose proof (DPDA_step_frame m) as Hs. cbn zeta in Hs.
    destruct (DPDA.step m) as [[[|]|e] m1]; cbn [fst snd] in *; auto.
    specialize (IH m1). cbn zeta in IH.
    destruct Hs as (H1 & H2 & H3 & H3' & H3'' & H4 & H5 & H6).
    destruct IH as (I1 & I2 & I3 & I3' & I3'' & I4 & I5 & I6).
    rewrite I1, I2, I3, I3', I3'', I4, H1, H2, H3, H3', H3'', H4 in *.
    repeat split; auto; lia.
Qed.

End Frames.
Section OperationFrames.
Context {K : AlphabetConstants}.

Lemma DFA_ops_frame (ops : list Op) :
  forall m,
    DFA.transitionFunction (fold_left DFA_perform ops m)
    = DFA.transitionFunction m
    /\ DFA.initialState (fold_left DFA_perform ops m) = DFA.initialState m
    /\ DFA.alphabet (fold_left DFA_perform ops m) = DFA.alphabet m.
Proof.
  induction ops as [|o ops IH]; intros m; [auto|].
  cbn [fold_left]. destruct (IH (DFA_perform m o)) as (I1 & I2 & I3).
  rewrite I1, I2, I3. clear.
  destruct o as [|input| |n]; cbn [DFA_perform].
  - cbn. repeat split; reflexivity.
  - cbn. repeat split; reflexivity.
  - destruct (DFA_step_frame m) as (H1 & H2 & H3 & _).
    exact (conj H1 (conj H2 H3)).
  - destruct (DFA_run_frame n m) as (H1 & H2 & H3 & _).
    exact (conj H1 (conj H2 H3)).
Qed.

Lemma EpsilonDFA_ops_frame (ops : list Op) :
  forall m,
    EpsilonDFA.transitionFunction (fold_left EpsilonDFA_perform ops m)
    = EpsilonDFA.transitionFunction m
    /\ EpsilonDFA.initialState (fold_left EpsilonDFA_perform ops m)
       = EpsilonDFA.initialState m
    /\ EpsilonDFA.alphabet (fold_left EpsilonDFA_perform ops m)
       = EpsilonDFA.alphabet m
    /\ EpsilonDFA.allowEpsilonTransitions (fold_left EpsilonDFA_perform ops m)
       = EpsilonDFA.allowEpsilonTransitions m.
Proof.
  induction ops as [|o ops IH]; intros m; [auto|].
  cbn [fold_left].
  destruct (IH (EpsilonDFA_perform m o)) as (I1 & I2 & I3 & I4).
  rewrite I1, I2, I3, I4. clear.
  destruct o as [|input| |n]; cbn [EpsilonDFA_perform].
  - cbn. repeat split; reflexivity.
  - cbn. repeat split; reflexivity.
  - destruct (EpsilonDFA_step_frame m) as (H1 & H2 & H3 & H4 & _).
    exact (conj H1 (conj H2 (conj H3 H4))).
  - destruct (EpsilonDFA_run_frame n m) as (H1 & H2 & H3 & H4 & _).
    exact (conj H1 (conj H2 (conj H3 H4))).
Qed.

Lemma DPDA_ops_frame (ops : list Op) :
  forall m,
    DPDA.transitionFunction (fold_left DPDA_perform ops m)
    = DPDA.transitionFunction m
    /\ DPDA.initialState (fold_left DPDA_perform ops m) = DPDA.initialState m
    /\ DPDA.alphabet (fold_left DPDA_perform ops m) = DPDA.alphabet m
    /\ DPDA.stackAlphabet (fold_left DPDA_perform ops m) = DPDA.stackAlphabet m
    /\ DPDA.initialStackSymbol (fold_left DPDA_perform ops m)
       = DPDA.initialStackSymbol m.
Proof.
  induction ops as [|o ops IH]; intros m; [cbn; auto 10|].
  cbn [fold_left]. destruct (IH (DPDA_perform m o)) as (I1 & I2 & I3 & I4 & I5).
  rewrite I1, I2, I3, I4, I5. clear.
  destruct o as [|input| |n]; cbn [DPDA_perform].
  - destruct m as [a tf' q0' q n h sa md acc st sym tp p tr].
    destruct (Alphabet.isCompatibleWith sa sym) eqn:Hc; cbn; eval_method;
      repeat split; reflexivity.
  - cbn. repeat split; reflexivity.
  - destruct (DPDA_step_frame m) as (H1 & H2 & H3 & H4 & H5 & _).
    exact (conj H1 (conj H2 (conj H3 (conj H4 H5)))).
  - destruct (DPDA_run_frame n m) as (H1 & H2 & H3 & H4 & H5 & _).
    exact (conj H1 (conj H2 (conj H3 (conj H4 H5)))).
Qed.

End OperationFrames.


(** X5. The cursor stays on the tape: after construction and any
    sequence of [reset], [setInputString], [step] and [run] calls the
    cursor is at most the length of the tape, and a run never moves it
    backwards nor changes the tape. *)
Theorem X5_cursor_stays_on_tape {K : AlphabetConstants} :
  (forall attribs tf q0 (ops : list Op),
     let m := fold_left DFA_perform ops (DFA._init attribs tf q0) in
     DFA.pointerPosition m <= Tape.length (DFA.tape m))
  /\ (forall attribs tf q0 (ops : list Op),
     let m := fold_left EpsilonDFA_perform ops (EpsilonDFA._init attribs tf q0) in
     EpsilonDFA.pointerPosition m <= Tape.length (EpsilonDFA.tape m))
  /\ (forall attribs tf q0 m0 (ops : list Op),
     DPDA._init attribs tf q0 = Normal m0 ->
     let m := fold_left DPDA_perform ops m0 in
     DPDA.pointerPosition m <= Tape.length (DPDA.tape m))
  /\ (forall (n : nat) (m : DFA.t),
     DFA.tape (snd (DFA.run n m)) = DFA.tape m
     /\ DFA.pointerPosition m <= DFA.pointerPosition (snd (DFA.run n m)))
  /\ (forall (n : nat) (m : EpsilonDFA.t),
     EpsilonDFA.tape (snd (EpsilonDFA.run n m)) = EpsilonDFA.tape m
     /\ EpsilonDFA.pointerPosition m
        <= EpsilonDFA.pointerPosition (snd (EpsilonDFA.run n m)))
  /\ (forall (n : nat) (m : DPDA.t),
     DPDA.tape (snd (DPDA.run n m)) = DPDA.tape m
     /\ DPDA.pointerPosition m <= DPDA.pointerPosition (snd (DPDA.run n m))).
Proof.
  split; [| split; [| split; [| split; [| split]]]].
  - intros attribs tf q0 ops.
    assert (H : forall m, DFA.pointerPosition m <= Tape.length (DFA.tape m) ->
              DFA.pointerPosition (fold_left DFA_perform ops m)
              <= Tape.length (DFA.tape (fold_left DFA_perform ops m))).
    { induction ops as [|o ops IH]; intros m Hm; [exact Hm|].
      cbn [fold_left]. apply IH.
      destruct o as [|input| |n]; cbn [DFA_perform].
      - cbn. lia.
      - cbn. lia.
      - destruct (DFA_step_frame m) as (_ & _ & _ & Ht & _ & Hb).
        rewrite Ht. exact (Hb Hm).
      - destruct (DFA_run_frame n m) as (_ & _ & _ & Ht & _ & Hb).
        rewrite Ht. exact (Hb Hm). }
    apply H. cbn. lia.
  - intros attribs tf q0 ops.
    assert (H : forall m,
              EpsilonDFA.pointerPosition m <= Tape.length (EpsilonDFA.tape m) ->
              EpsilonDFA.pointerPosition (fold_left EpsilonDFA_perform ops m)
              <= Tape.length
                   (EpsilonDFA.tape (fold_left EpsilonDFA_perform ops m))).
    { induction ops as [|o ops IH]; intros m Hm; [exact Hm|].
      cbn [fold_left]. apply IH.
      destruct o as [|input| |n]; cbn [EpsilonDFA_perform].
      - cbn. lia.
      - cbn. lia.
      - destruct (EpsilonDFA_step_frame m) as (_ & _ & _ & _ & Ht & _ & Hb).
        rewrite Ht. exact (Hb Hm).
      - destruct (EpsilonDFA_run_frame n m) as (_ & _ & _ & _ & Ht & _ & Hb).
        rewrite Ht. exact (Hb Hm). }
    apply H. cbn. lia.
  - intros attribs tf q0 m0 ops Hinit.
    assert (H : forall m, DPDA.pointerPosition m <= Tape.length (DPDA.tape m) ->
              DPDA.pointerPosition (fold_left DPDA_perform ops m)
              <= Tape.length (DPDA.tape (fold_left DPDA_perform ops m))).
    { induction ops as [|o ops IH]; intros m Hm; [exact Hm|].
      cbn [fold_left]. apply IH.
      destruct o as [|input| |n]; cbn [DPDA_perform].
      - clear. destruct m as [a tf' q0' q n h sa md acc st sym tp p tr].
        destruct (Alphabet.isCompatibleWith sa sym) eqn:Hc; cbn; eval_method;
          lia.
      - cbn. lia.
      - destruct (DPDA_step_frame m) as (_ & _ & _ & _ & _ & Ht & _ & Hb).
        rewrite Ht. exact (Hb Hm).
      - destruct (DPDA_run_frame n m) as (_ & _ & _ & _ & _ & Ht & _ & Hb).
        rewrite Ht. exact (Hb Hm). }
    apply H. revert Hinit. unfold DPDA._init.
    destruct attribs as [[al [sa|] [c|]]|]; eval_method;
      repeat (case_test; simp_fast); intros Heq; try discriminate;
      injection Heq as <-; cbn; lia.
  - intros n m. destruct (DFA_run_frame n m) as (_ & _ & _ & Ht & Hp & _).
    exact (conj Ht Hp).
  - intros n m.
    destruct (EpsilonDFA_run_frame n m) as (_ & _ & _ & _ & Ht & Hp & _).
    exact (conj Ht Hp).
  - intros n m.
    destruct (DPDA_run_frame n m) as (_ & _ & _ & _ & _ & Ht & Hp & _).
    exact (conj Ht Hp).
Qed.

Section X5_example.
#[local] Existing Instance Samples.tilde.
Import Samples MoreSamples.

(** The sample DPDA is constructed without a throw. *)
Lemma X5_witness :
  let m := fold_left DPDA_perform (sessionAB ++ [Reset]) (dpdaNew countingTF) in
  DPDA.pointerPosition m <= Tape.length (DPDA.tape m).
Proof.
  destruct (X5_cursor_stays_on_tape (K := tilde)) as (_ & _ & P & _).
  assert (E : DPDA._init (Some dpdaAttribs) countingTF q0
              = Normal (dpdaNew countingTF)) by (vm_compute; reflexivity).
  exact (P (Some dpdaAttribs) countingTF q0 (dpdaNew countingTF)
           (sessionAB ++ [Reset]) E).
Defined.
End X5_example.


(** X6. Running never reconfigures: after construction and any sequence
    of [reset], [setInputString], [step] and [run] calls the machine has
    the transition function, initial state and alphabet it was built
    with, and the DPDA its stack alphabet and initial stack symbol. *)
Theorem X6_operations_keep_configuration {K : AlphabetConstants} :
  (forall attribs tf q0 (ops : list Op),
     let m0 := DFA._init attribs tf q0 in
     let m := fold_left DFA_perform ops m0 in
     DFA.transitionFunction m = tf
     /\ DFA.initialState m = q0
     /\ DFA.alphabet m = DFA.alphabet m0)
  /\ (forall attribs tf q0 (ops : list Op),
     let m0 := EpsilonDFA._init attribs tf q0 in
     let m := fold_left EpsilonDFA_perform ops m0 in
     EpsilonDFA.transitionFunction m = tf
     /\ EpsilonDFA.initialState m = q0
     /\ EpsilonDFA.alphabet m = EpsilonDFA.alphabet m0
     /\ EpsilonDFA.allowEpsilonTransitions m
        = EpsilonDFA.allowEpsilonTransitions m0)
  /\ (forall (m0 : DPDA.t) (ops : list Op),
     let m := fold_left DPDA_perform ops m0 in
     DPDA.transitionFunction m = DPDA.transitionFunction m0
     /\ DPDA.initialState m = DPDA.initialState m0
     /\ DPDA.alphabet m = DPDA.alphabet m0
     /\ DPDA.stackAlphabet m = DPDA.stackAlphabet m0
     /\ DPDA.initialStackSymbol m = DPDA.initialStackSymbol m0).
Proof.
  split; [| split].
  - intros attribs tf q0 ops m0. exact (DFA_ops_frame ops m0).
  - intros attribs tf q0 ops m0. exact (EpsilonDFA_ops_frame ops m0).
  - intros m0 ops. exact (DPDA_ops_frame ops m0).
Qed.

(** ** The DFAs against the textbook reading of their table *)

Section Classical.
Context {K : AlphabetConstants}.

Lemma symbolsFrom_end (tape : Tape.t) (p : nat) :
  Tape.length tape <= p -> symbolsFrom tape p = [].
Proof.
  intros H. unfold symbolsFrom.
  replace (Tape.length tape - p) with 0 by lia. reflexivity.
Qed.

Lemma symbolsFrom_next (tape : Tape.t) (p : nat) :
  p < Tape.length tape ->
  symbolsFrom tape p = Tape.charAt tape p :: symbolsFrom tape (p + 1).
Proof.
  intros H. unfold symbolsFrom.
  replace (Tape.length tape - p) with (S (Tape.length tape - (p + 1))) by lia.
  cbn [seq map]. rewrite Nat.add_1_r. reflexivity.
Qed.

Lemma DFA_run_classical (n : nat) :
  forall m : DFA.t,
    DFA.isHalted m = false ->
    Tape.length (DFA.tape m) - DFA.pointerPosition m < n ->
    exists m',
      DFA.run n m = (Normal true, m')
      /\ DFA.isHalted m' = true
      /\ DFA.isAccepted m' =
           classicalAccepts (DFA.transitionFunction m) (DFA.currentState m)
             (symbolsFrom (DFA.tape m) (DFA.pointerPosition m)).
Proof.
  induction n as [|i IH]; intros m Hh Hn; [lia|].
  destruct m as [a tf q0 q c h acc tp p tr]; cbn in Hh, Hn |- *.
  cbn [DFA.run]. unfold bind, classicalAccepts.
  destruct (Tape.length tp <=? p) eqn:Hl.
  - apply Nat.leb_le in Hl as Hl'. rewrite symbolsFrom_end by exact Hl'. cbn.
    destruct (State.getIsAccepting q) eqn:Ha;
      eval_method; eexists; (split; [reflexivity|]); cbn; auto.
  - apply Nat.leb_gt in Hl as Hl'. rewrite symbolsFrom_next by exact Hl'.
    cbn [deltaStar].
    destruct (TransitionFunction.getCommand tf _) as [cmd|] eqn:Hc.
    + eval_method.
      destruct (IH (DFA.mk a tf q0 (Command.getState cmd) (c + 1) false acc tp
                      (p + 1)
                      ((tr ++ [onPointerChange (p + 1)])
                       ++ [onStep
                             {| Condition.getState := q;
                                Condition.getCharacter := Tape.charAt tp p;
                                Condition.getStackElement := None |}
                             cmd (c + 1) (p + 1)])))
        as (m' & Hr & Hh' & Ha'); [reflexivity | cbn; lia |].
      exists m'. cbn in Ha'. auto.
    + eval_method. eexists; (split; [reflexivity|]); cbn; auto.
Qed.

Lemma EpsilonDFA_run_classical (n : nat) :
  forall m : EpsilonDFA.t,
    (forall s, TransitionFunction.hasEpsilonTransition
                 (EpsilonDFA.transitionFunction m) s = false) ->
    (forall i, i < Tape.length (EpsilonDFA.tape m) ->
               Tape.charAt (EpsilonDFA.tape m) i <> EPSILON_STRING) ->
    EpsilonDFA.isHalted m = false ->
    Tape.length (EpsilonDFA.tape m) - EpsilonDFA.pointerPosition m < n ->
    exists m',
      EpsilonDFA.run n m = (Normal true, m')
      /\ EpsilonDFA.isHalted m' = true
      /\ EpsilonDFA.isAccepted m' =
           classicalAccepts (EpsilonDFA.transitionFunction m)
             (EpsilonDFA.currentState m)
             (symbolsFrom (EpsilonDFA.tape m) (EpsilonDFA.pointerPosition m)).
Proof.
  induction n as [|i IH]; intros m Hno Htape Hh Hn; [lia|].
  destruct m as [a tf q0 q c h al acc tp p tr]; cbn in Hno, Htape, Hh, Hn |- *.
  cbn [EpsilonDFA.run]. unfold bind, classicalAccepts.
  pose proof (Hno q) as He.
  destruct (Tape.length tp <=? p) eqn:Hl.
  - apply Nat.leb_le in Hl as Hl'. rewrite symbolsFrom_end by exact Hl'. cbn.
    destruct (State.getIsAccepting q) eqn:Ha;
      eval_method; eexists; (split; [reflexivity|]); cbn; auto.
  - apply Nat.leb_gt in Hl as Hl'. rewrite symbolsFrom_next by exact Hl'.
    cbn [deltaStar].
    assert (Hne : String.eqb (Tape.charAt tp p) EPSILON_STRING = false)
      by (apply String.eqb_neq, Htape, Hl').
    destruct (TransitionFunction.getCommand tf _) as [cmd|] eqn:Hc.
    + pose proof (Hno (Command.getState cmd)) as He'.
      destruct (Tape.length tp <=? p + 1) eqn:Hl1.
      * apply Nat.leb_le in Hl1 as Hl1'. rewrite symbolsFrom_end by exact Hl1'. cbn.
        destruct (State.getIsAccepting (Command.getState cmd)) eqn:Ha;
          eval_method; eexists; (split; [reflexivity|]); cbn; auto.
      * apply Nat.leb_gt in Hl1 as Hl1'. eval_method.
        destruct (IH (EpsilonDFA.mk a tf q0 (Command.getState cmd) (c + 1)
                        false al acc tp (p + 1)
                        ((tr ++ [onPointerChange (p + 1)])
                         ++ [onStep
                               {| Condition.getState := q;
                                  Condition.getCharacter := Tape.charAt tp p;
                                  Condition.getStackElement := None |}
                               cmd (c + 1) (p + 1)])))
          as (m' & Hr & Hh' & Ha'); [exact Hno | exact Htape | reflexivity
                                    | cbn; lia |].
        exists m'. cbn in Ha'. auto.
    + eval_method. eexists; (split; [reflexivity|]); cbn; auto.
Qed.

End Classical.

(** X7. The two DFAs decide the language of their transition table.
    Started at any cursor position with enough steps allowed (more than
    the symbols left), [run] halts, and the machine is accepted exactly
    when the textbook run of the table over the remaining symbols exists
    and ends in an accepting state; a missing transition rejects. For the
    DFA of [src/unnamed/part_000] this holds when no state has an epsilon
    transition and the tape holds no epsilon symbol. *)
Theorem X7_dfa_decides_classical_language {K : AlphabetConstants} :
  (forall (n : nat) (m : DFA.t),
     DFA.isHalted m = false ->
     Tape.length (DFA.tape m) - DFA.pointerPosition m < n ->
     exists m',
       DFA.run n m = (Normal true, m')
       /\ DFA.isHalted m' = true
       /\ DFA.isAccepted m' =
            classicalAccepts (DFA.transitionFunction m) (DFA.currentState m)
              (symbolsFrom (DFA.tape m) (DFA.pointerPosition m)))
  /\ (forall (n : nat) (m : EpsilonDFA.t),
     (forall s, TransitionFunction.hasEpsilonTransition
                  (EpsilonDFA.transitionFunction m) s = false) ->
     (forall i, i < Tape.length (EpsilonDFA.tape m) ->
                Tape.charAt (EpsilonDFA.tape m) i <> EPSILON_STRING) ->
     EpsilonDFA.isHalted m = false ->
     Tape.length (EpsilonDFA.tape m) - EpsilonDFA.pointerPosition m < n ->
     exists m',
       EpsilonDFA.run n m = (Normal true, m')
       /\ EpsilonDFA.isHalted m' = true
       /\ EpsilonDFA.isAccepted m' =
            classicalAccepts (EpsilonDFA.transitionFunction m)
              (EpsilonDFA.currentState m)
              (symbolsFrom (EpsilonDFA.tape m) (EpsilonDFA.pointerPosition m))).
Proof.
  split.
  - intros n m. apply DFA_run_classical.
  - intros n m. apply EpsilonDFA_run_classical.
Qed.

Section X7_example.
#[local] Existing Instance Samples.tilde.
Import Samples MoreSamples.

(** [011] is in the language of the sample table: both DFAs accept it
    within four calls. *)
Lemma X7_witness :
  (exists m', DFA.run 4 dfaBinary011 = (Normal true, m')
              /\ DFA.isAccepted m' = true)
  /\ (exists m', EpsilonDFA.run 4 edfaBinary011 = (Normal true, m')
                 /\ EpsilonDFA.isAccepted m' = true).
Proof.
  destruct (X7_dfa_decides_classical_language (K := tilde)) as (D & E).
  split.
  - assert (Hn : Tape.length (DFA.tape dfaBinary011)
                 - DFA.pointerPosition dfaBinary011 < 4) by (vm_compute; lia).
    destruct (D 4 dfaBinary011 eq_refl Hn) as (m' & Hr & _ & Ha).
    exists m'. split; [exact Hr|]. rewrite Ha. vm_compute. reflexivity.
  - assert (Hn : Tape.length (EpsilonDFA.tape edfaBinary011)
                 - EpsilonDFA.pointerPosition edfaBinary011 < 4)
      by (vm_compute; lia).
    destruct (E 4 edfaBinary011 binaryTF_no_epsilon
                binary011_no_epsilon_symbol eq_refl Hn)
      as (m' & Hr & _ & Ha).
    exists m'. split; [exact Hr|]. rewrite Ha. vm_compute. reflexivity.
Defined.
End X7_example.

(** ** Epsilon loops *)

(** X8. An epsilon transition from a state to itself is never left and
    never detected: whatever the budget, [run] answers [false], the
    machine stays running in the same state with the cursor where it was,
    and the step count grows by the whole budget. This holds for the DFA
    of [src/unnamed/part_000], and for the DPDA when the looping
    transition neither pops nor pushes and the halting test is not due
    at the start. *)
Theorem X8_epsilon_self_loop_runs_forever {K : AlphabetConstants} :
  (forall (n : nat) (m : EpsilonDFA.t) (cmd : Command.t),
     let tf := EpsilonDFA.transitionFunction m in
     let q := EpsilonDFA.currentState m in
     EpsilonDFA.isHalted m = false ->
     TransitionFunction.hasEpsilonTransition tf q = true ->
     TransitionFunction.getCommand tf
       (TransitionFunction.getEpsilonTransitionCondition tf q) = Some cmd ->
     Command.getState cmd = q ->
     exists m',
       EpsilonDFA.run n m = (Normal false, m')
       /\ EpsilonDFA.isHalted m' = false
       /\ EpsilonDFA.currentState m' = q
       /\ EpsilonDFA.pointerPosition m' = EpsilonDFA.pointerPosition m
       /\ EpsilonDFA.stepCount m' = EpsilonDFA.stepCount m + n)
  /\ (forall (n : nat) (m : DPDA.t) (cmd : Command.t),
     let tf := DPDA.transitionFunction m in
     let q := DPDA.currentState m in
     let c := TransitionFunction.getEpsilonTransitionCondition tf q in
     DPDA.isHalted m = false ->
     DPDA_haltDue m = false ->
     TransitionFunction.hasEpsilonTransition tf q = true ->
     TransitionFunction.getCommand tf c = Some cmd ->
     Command.getState cmd = q ->
     isEpsilon (Condition.getStackElement c) = true ->
     Command.getAction cmd = Command.NoAction
     \/ Command.getAction cmd = Command.STACK_CHANGE EPSILON_STRING ->
     exists m',
       DPDA.run n m = (Normal false, m')
       /\ DPDA.isHalted m' = false
       /\ DPDA.currentState m' = q
       /\ DPDA.pointerPosition m' = DPDA.pointerPosition m
       /\ DPDA.stack m' = DPDA.stack m
       /\ DPDA.stepCount m' = DPDA.stepCount m + n).
Proof.
  split.
  - induction n as [|i IH]; intros m cmd; cbn zeta; intros Hh He Hc Hq.
    + exists m. cbn. repeat split; auto.
    + destruct m as [a tf q0 q c h al acc tp p tr]; cbn in Hh, He, Hc, Hq |- *.
      subst q. cbn [EpsilonDFA.run]. unfold bind. eval_method.
      match goal with
      | |- context [EpsilonDFA.run i ?m1] =>
          destruct (IH m1 cmd) as (m' & Hr & Hh' & Hq' & Hp' & Hn'); auto
      end.
      exists m'. cbn in Hp', Hn', Hq'. repeat split; auto. lia.
  - induction n as [|i IH]; intros m cmd; cbn zeta;
      intros Hh Hd He Hc Hq Hse Hact.
    + exists m. cbn. repeat split; auto.
    + destruct m as [a tf q0 q c h sa md acc st sym tp p tr].
      unfold DPDA_haltDue in *.
      cbn in Hh, Hd, He, Hc, Hq, Hse, Hact |- *. subst q.
      rewrite He in Hd. cbn in Hd.
      cbn [DPDA.run]. unfold bind.
      destruct Hact as [Hact | Hact];
        eval_method;
        match goal with
        | |- context [DPDA.run i ?m1] =>
            destruct (IH m1 cmd) as (m' & Hr & Hh' & Hq' & Hp' & Hs' & Hn');
              unfold DPDA_haltDue; cbn; auto;
              try (rewrite He; cbn; exact Hd)
        end;
        exists m'; cbn in Hp', Hn', Hq', Hs'; repeat split; auto; lia.
Qed.

Section X8_example.
#[local] Existing Instance Samples.tilde.
Import Samples MoreSamples.

(** Seven calls on the looping machines: seven steps counted, nothing
    read. *)
Lemma X8_witness :
  (exists m', EpsilonDFA.run 7 edfaLoop = (Normal false, m')
              /\ EpsilonDFA.pointerPosition m' = 0
              /\ EpsilonDFA.stepCount m' = 7)
  /\ (exists m', DPDA.run 7 dpdaLoop = (Normal false, m')
                 /\ DPDA.pointerPosition m' = 0
                 /\ DPDA.stepCount m' = 7).
Proof.
  destruct (X8_epsilon_self_loop_runs_forever (K := tilde)) as (E & P).
  split.
  - destruct (E 7 edfaLoop (goto q0) eq_refl eq_refl eq_refl eq_refl)
      as (m' & Hr & _ & _ & Hp & Hc).
    exists m'. auto.
  - destruct (P 7 dpdaLoop (goto q0) eq_refl eq_refl eq_refl eq_refl eq_refl
                eq_refl (or_introl eq_refl))
      as (m' & Hr & _ & _ & Hp & _ & Hc).
    exists m'. auto.
Defined.
End X8_example.

(** ** Callbacks of a step *)

(** X9. The verdict callbacks of one step. A step of a running machine
    only appends to the record of callbacks; it fires [onHalt] once if it
    leaves the machine halted and not at all otherwise, and with it
    exactly one of [onAccept] and [onReject], the one the accepted flag
    it leaves calls for. *)
Theorem X9_halt_callbacks_fire_once {K : AlphabetConstants} :
  (forall m : DFA.t,
     DFA.isHalted m = false ->
     let m' := snd (DFA.step m) in
     exists evs,
       DFA.trace m' = DFA.trace m ++ evs
       /\ countEvents isHaltEvent evs = (if DFA.isHalted m' then 1 else 0)
       /\ countEvents isAcceptEvent evs
          = (if DFA.isHalted m' && DFA.isAccepted m' then 1 else 0)
       /\ countEvents isRejectEvent evs
          = (if DFA.isHalted m' && negb (DFA.isAccepted m') then 1 else 0))
  /\ (forall m : EpsilonDFA.t,
     EpsilonDFA.isHalted m = false ->
     let m' := snd (EpsilonDFA.step m) in
     exists evs,
       EpsilonDFA.trace m' = EpsilonDFA.trace m ++ evs
       /\ countEvents isHaltEvent evs
          = (if EpsilonDFA.isHalted m' then 1 else 0)
       /\ countEvents isAcceptEvent evs
          = (if EpsilonDFA.isHalted m' && EpsilonDFA.isAccepted m'
             then 1 else 0)
       /\ countEvents isRejectEvent evs
          = (if EpsilonDFA.isHalted m' && negb (EpsilonDFA.isAccepted m')
             then 1 else 0))
  /\ (forall m : DPDA.t,
     DPDA.isHalted m = false ->
     let m' := snd (DPDA.step m) in
     exists evs,
       DPDA.trace m' = DPDA.trace m ++ evs
       /\ countEvents isHaltEvent evs = (if DPDA.isHalted m' then 1 else 0)
       /\ countEvents isAcceptEvent evs
          = (if DPDA.isHalted m' && DPDA.isAccepted m' then 1 else 0)
       /\ countEvents isRejectEvent evs
          = (if DPDA.isHalted m' && negb (DPDA.isAccepted m') then 1 else 0)).
Proof.
  unfold countEvents. split; [| split].
  - intros [a tf q0 q n h acc tp p tr]; cbn; intros Hh. eval_method.
    repeat (case_inner; simp_fast); read_events.
  - intros [a tf q0 q n h al acc tp p tr]; cbn; intros Hh. eval_method.
    repeat (case_inner; simp_fast); read_events.
  - intros [a tf q0 q n h sa md acc st sym tp p tr]; cbn; intros Hh. eval_method.
    repeat (case_inner; simp_fast); read_events.
Qed.

Section X9_example.
#[local] Existing Instance Samples.tilde.
Import Samples MoreSamples.

(** The step of the DFA of [src/unnamed/part_000] on input [1] halts and
    accepts; the first step of the DPDA on [ab] does not halt. *)
Lemma X9_witness :
  (let m' := snd (EpsilonDFA.step edfaBinary1) in
   exists evs,
     EpsilonDFA.trace m' = EpsilonDFA.trace edfaBinary1 ++ evs
     /\ countEvents isHaltEvent evs
        = (if EpsilonDFA.isHalted m' then 1 else 0)
     /\ countEvents isAcceptEvent evs
        = (if EpsilonDFA.isHalted m' && EpsilonDFA.isAccepted m'
           then 1 else 0)
     /\ countEvents isRejectEvent evs
        = (if EpsilonDFA.isHalted m' && negb (EpsilonDFA.isAccepted m')
           then 1 else 0))
  /\ EpsilonDFA.isHalted (snd (EpsilonDFA.step edfaBinary1)) = true
  /\ EpsilonDFA.isAccepted (snd (EpsilonDFA.step edfaBinary1)) = true.
Proof.
  destruct (X9_halt_callbacks_fire_once (K := tilde)) as (_ & E & _).
  split; [exact (E edfaBinary1 eq_refl) | split; vm_compute; reflexivity].
Defined.
End X9_example.


(** X10. Which steps report a transition. The DFA of [src/src/DFA.js]
    and the DPDA fire [onStep] exactly in the steps that answer [false]:
    a transition of the DPDA after which the machine halts in the same
    step is applied without [onStep]. The DFA of [src/unnamed/part_000]
    fires [onStep] for every transition it applies, also when the step
    then halts and answers [true]. *)
Theorem X10_which_steps_fire_onStep {K : AlphabetConstants} :
  (forall m : DFA.t,
     DFA.isHalted m = false ->
     exists evs,
       DFA.trace (snd (DFA.step m)) = DFA.trace m ++ evs
       /\ countEvents isStepEvent evs
          = (if isNormalFalse (fst (DFA.step m)) then 1 else 0))
  /\ (forall m : DPDA.t,
     DPDA.isHalted m = false ->
     exists evs,
       DPDA.trace (snd (DPDA.step m)) = DPDA.trace m ++ evs
       /\ countEvents isStepEvent evs
          = (if isNormalFalse (fst (DPDA.step m)) then 1 else 0))
  /\ (forall m : EpsilonDFA.t,
     EpsilonDFA.isHalted m = false ->
     exists evs,
       EpsilonDFA.trace (snd (EpsilonDFA.step m)) = EpsilonDFA.trace m ++ evs
       /\ countEvents isStepEvent evs
          = (if EpsilonDFA_haltDue m then 0
             else match TransitionFunction.getCommand
                          (EpsilonDFA.transitionFunction m)
                          (EpsilonDFA_activeCondition m) with
                  | Some _ => 1
                  | None => 0
                  end)).
Proof.
  unfold countEvents. split; [| split].
  - intros [a tf q0 q n h acc tp p tr]; cbn; intros Hh. eval_method.
    repeat (case_inner; simp_fast); read_events.
  - intros [a tf q0 q n h sa md acc st sym tp p tr]; cbn; intros Hh. eval_method.
    repeat (case_inner; simp_fast); read_events.
  - unfold EpsilonDFA_haltDue, EpsilonDFA_activeCondition.
    intros [a tf q0 q n h al acc tp p tr]; cbn; intros Hh.
    destruct (TransitionFunction.hasEpsilonTransition tf q) eqn:He;
      eval_method;
      repeat (case_inner; simp_fast); read_events.
Qed.

Section X10_example.
#[local] Existing Instance Samples.tilde.
Import Samples MoreSamples.

(** The second step of the DPDA on [ab] applies a transition and halts:
    no [onStep]. *)
Lemma X10_witness :
  exists evs,
    DPDA.trace (snd (DPDA.step (snd (DPDA.step dpdaCountingAB))))
    = DPDA.trace (snd (DPDA.step dpdaCountingAB)) ++ evs
    /\ countEvents isStepEvent evs = 0.
Proof.
  destruct (X10_which_steps_fire_onStep (K := tilde)) as (_ & P & _).
  assert (Hh : DPDA.isHalted (snd (DPDA.step dpdaCountingAB)) = false)
    by (vm_compute; reflexivity).
  destruct (P (snd (DPDA.step dpdaCountingAB)) Hh) as (evs & Ht & Hc).
  exists evs. split; [exact Ht|]. rewrite Hc. vm_compute. reflexivity.
Defined.
End X10_example.

(** ** The DPDA's stack in steps that throw, and in reset *)

(** X11. When [step] throws. A step of the DPDA throws exactly when it
    is taken on a running machine, the first halting test is not due,
    and the command found for the active condition asks to push a string
    the stack alphabet refuses. The throw comes after the pop: the step
    count is one more, the stack has lost its top unless the condition's
    stack element is epsilon, and state, cursor and flags are as they
    were. *)
Theorem X11_dpda_step_throws_after_pop {K : AlphabetConstants} :
  (forall (m : DPDA.t) (cmd : Command.t),
     DPDA.isHalted m = false ->
     DPDA_haltDue m = false ->
     TransitionFunction.getCommand (DPDA.transitionFunction m)
       (DPDA_activeCondition m) = Some cmd ->
     pushAccepted (DPDA.stackAlphabet m) cmd = false ->
     exists m',
       DPDA.step m = (Throw "Invalid stack string.", m')
       /\ DPDA.isHalted m' = false
       /\ DPDA.isAccepted m' = DPDA.isAccepted m
       /\ DPDA.stepCount m' = DPDA.stepCount m + 1
       /\ DPDA.currentState m' = DPDA.currentState m
       /\ DPDA.pointerPosition m' = DPDA.pointerPosition m
       /\ DPDA.stack m' =
            (if isEpsilon (Condition.getStackElement (DPDA_activeCondition m))
             then DPDA.stack m
             else snd (Stack.pop (DPDA.stack m))))
  /\ (forall (m : DPDA.t) (e : string),
     fst (DPDA.step m) = Throw e ->
     DPDA.isHalted m = false
     /\ DPDA_haltDue m = false
     /\ exists cmd,
          TransitionFunction.getCommand (DPDA.transitionFunction m)
            (DPDA_activeCondition m) = Some cmd
          /\ pushAccepted (DPDA.stackAlphabet m) cmd = false).
Proof.
  split.
  - unfold DPDA_haltDue, DPDA_activeCondition, pushAccepted.
    intros [a tf q0 q n h sa md acc st sym tp p tr] cmd; cbn; intros Hh.
    destruct (TransitionFunction.hasEpsilonTransition tf q) eqn:He; cbn;
      rewrite ?Bool.andb_true_r; intros Hd Hc;
      (destruct (Command.getAction cmd) as [|arg] eqn:Hact; [discriminate|]);
      (destruct (String.eqb arg EPSILON_STRING) eqn:Harg; [discriminate|]);
      cbn; intros Hpush;
      match goal with
      | |- context [if ?b then st else _] => destruct b eqn:Hse
      end;
      eval_method;
      repeat (case_test; simp_fast);
      eexists; (split; [reflexivity|]); cbn; auto 10.
  - unfold DPDA_haltDue, DPDA_activeCondition, pushAccepted.
    intros [a tf q0 q n h sa md acc st sym tp p tr] e; cbn. eval_method.
    repeat (case_inner; simp_fast); intros Heq; try discriminate;
      (split; [reflexivity|]);
      (split; [first [assumption | simp_fast; reflexivity]|]);
      eexists; (split; [reflexivity|]); simp_fast;
      repeat match goal with
             | H : negb _ = true |- _ => apply Bool.negb_true_iff in H
             end;
      simp_fast; reflexivity.
Qed.

Section X11_example.
#[local] Existing Instance Samples.tilde.
Import Samples MoreSamples.

(** Reading [a] over [Z] the command asks to push [b]: the step throws
    with [Z] already popped. *)
Lemma X11_witness :
  (exists m',
     DPDA.step dpdaRefusedPush = (Throw "Invalid stack string.", m')
     /\ DPDA.stepCount m' = 1
     /\ DPDA.stack m' = [])
  /\ DPDA_haltDue dpdaRefusedPush = false.
Proof.
  destruct (X11_dpda_step_throws_after_pop (K := tilde)) as (A & B).
  split.
  - destruct (A dpdaRefusedPush (change q0 "b") eq_refl eq_refl eq_refl eq_refl)
      as (m' & Hs & _ & _ & Hc & _ & _ & Hst).
    exists m'. split; [exact Hs | split; [exact Hc | exact Hst]].
  - assert (E : fst (DPDA.step dpdaRefusedPush) = Throw "Invalid stack string.")
      by (vm_compute; reflexivity).
    exact (proj1 (proj2 (B dpdaRefusedPush "Invalid stack string."%string E))).
Defined.
End X11_example.


(** X12. [reset] of the DPDA is not atomic. When [stackPush] takes the
    initial stack symbol, [reset] leaves exactly that symbol on the
    stack, the cursor at 0 and the accepted flag cleared, and keeps the
    tape; the acceptance mode is left as it was. When [stackPush] refuses
    the symbol, [reset] throws with the stack already emptied and the
    accepted flag not yet cleared. *)
Theorem X12_dpda_reset_outcomes {K : AlphabetConstants} :
  forall m : DPDA.t,
    (Alphabet.isCompatibleWith (DPDA.stackAlphabet m) (DPDA.initialStackSymbol m)
     = true ->
     exists m',
       DPDA.reset m = (Normal tt, m')
       /\ DPDA.stack m' = Stack.push (DPDA.initialStackSymbol m) []
       /\ DPDA.pointerPosition m' = 0
       /\ DPDA.isAccepted m' = false
       /\ DPDA.tape m' = DPDA.tape m
       /\ DPDA.acceptanceMode m' = DPDA.acceptanceMode m)
    /\ (Alphabet.isCompatibleWith (DPDA.stackAlphabet m)
          (DPDA.initialStackSymbol m) = false ->
        exists m',
          DPDA.reset m = (Throw "Invalid stack string.", m')
          /\ DPDA.stack m' = []
          /\ DPDA.pointerPosition m' = 0
          /\ DPDA.isAccepted m' = DPDA.isAccepted m
          /\ DPDA.acceptanceMode m' = DPDA.acceptanceMode m).
Proof.
  intros [a tf q0 q n h sa md acc st sym tp p tr]; cbn. split; intros Hc;
    eval_method; eexists; (split; [reflexivity|]); cbn; auto 10.
Qed.

Section X12_example.
#[local] Existing Instance Samples.tilde.
Import Samples MoreSamples.

(** [reset] of the sample DPDA restores [Z]; [reset] of a DPDA whose
    initial stack symbol is refused throws with the stack emptied. *)
Lemma X12_witness :
  (exists m', DPDA.reset haltedDPDA = (Normal tt, m')
              /\ DPDA.stack m' = ["Z"%string])
  /\ (exists m', DPDA.reset dpdaRefusedSymbol
                 = (Throw "Invalid stack string.", m')
                 /\ DPDA.stack m' = []
                 /\ DPDA.isAccepted m' = true).
Proof.
  split.
  - assert (Hc : Alphabet.isCompatibleWith (DPDA.stackAlphabet haltedDPDA)
                   (DPDA.initialStackSymbol haltedDPDA) = true)
      by (vm_compute; reflexivity).
    destruct (proj1 (X12_dpda_reset_outcomes (K := tilde) haltedDPDA) Hc)
      as (m' & Hr & Hs & _).
    exists m'. split; [exact Hr|]. rewrite Hs. vm_compute. reflexivity.
  - destruct (proj2 (X12_dpda_reset_outcomes (K := tilde) dpdaRefusedSymbol)
                eq_refl) as (m' & Hr & Hs & _ & Ha & _).
    exists m'. split; [exact Hr | split; [exact Hs | exact Ha]].
Defined.
End X12_example.


(** X13. A new input does not restart a halted machine. [setInputString]
    replaces the tape and puts the cursor at 0 but leaves the halted and
    accepted flags, the current state and the step count: on a halted
    machine every later [step] and [run] answers [true] without reading
    the new input, until [reset] is called. *)
Theorem X13_new_input_keeps_halted {K : AlphabetConstants} :
  (forall (m : DFA.t) (input : string) (n : nat),
     DFA.isHalted m = true ->
     let m1 := snd (DFA.setInputString input m) in
     DFA.tape m1 = input /\ DFA.pointerPosition m1 = 0
     /\ DFA.isAccepted m1 = DFA.isAccepted m
     /\ DFA.currentState m1 = DFA.currentState m
     /\ DFA.stepCount m1 = DFA.stepCount m
     /\ DFA.step m1 = (Normal true, m1)
     /\ DFA.run (S n) m1 = (Normal true, m1))
  /\ (forall (m : EpsilonDFA.t) (input : string) (n : nat),
     EpsilonDFA.isHalted m = true ->
     let m1 := snd (EpsilonDFA.setInputString input m) in
     EpsilonDFA.tape m1 = input /\ EpsilonDFA.pointerPosition m1 = 0
     /\ EpsilonDFA.isAccepted m1 = EpsilonDFA.isAccepted m
     /\ EpsilonDFA.currentState m1 = EpsilonDFA.currentState m
     /\ EpsilonDFA.stepCount m1 = EpsilonDFA.stepCount m
     /\ EpsilonDFA.step m1 = (Normal true, m1)
     /\ EpsilonDFA.run (S n) m1 = (Normal true, m1))
  /\ (forall (m : DPDA.t) (input : string) (n : nat),
     DPDA.isHalted m = true ->
     let m1 := snd (DPDA.setInputString input m) in
     DPDA.tape m1 = input /\ DPDA.pointerPosition m1 = 0
     /\ DPDA.isAccepted m1 = DPDA.isAccepted m
     /\ DPDA.currentState m1 = DPDA.currentState m
     /\ DPDA.stack m1 = DPDA.stack m
     /\ DPDA.stepCount m1 = DPDA.stepCount m
     /\ DPDA.step m1 = (Normal true, m1)
     /\ DPDA.run (S n) m1 = (Normal true, m1)).
Proof.
  split; [| split].
  - intros [a tf q0 q c h acc tp p tr] input n; cbn; intros Hh.
    cbn [DFA.run]. unfold bind at 1. eval_method. auto 10.
  - intros [a tf q0 q c h al acc tp p tr] input n; cbn; intros Hh.
    cbn [EpsilonDFA.run]. unfold bind at 1. eval_method. auto 10.
  - intros [a tf q0 q c h sa md acc st sym tp p tr] input n; cbn; intros Hh.
    cbn [DPDA.run]. unfold bind at 1. eval_method. auto 10.
Qed.

Section X13_example.
#[local] Existing Instance Samples.tilde.
Import Samples MoreSamples.

(** The DFA halted on [011] given the new input [1]. *)
Lemma X13_witness :
  let m1 := snd (DFA.setInputString "1" haltedDFA) in
  DFA.tape m1 = "1"%string /\ DFA.step m1 = (Normal true, m1)
  /\ DFA.run 3 m1 = (Normal true, m1).
Proof.
  destruct (X13_new_input_keeps_halted (K := tilde)) as (D & _).
  assert (Hh : DFA.isHalted haltedDFA = true) by (vm_compute; reflexivity).
  destruct (D haltedDFA "1"%string 2 Hh) as (Ht & _ & _ & _ & _ & Hs & Hr).
  split; [exact Ht | split; [exact Hs | exact Hr]].
Defined.
End X13_example.

(** ** Construction and the acceptance mode of the DPDA *)

(** X14. The DPDA's constructor succeeds exactly when the stack alphabet
    it settles on (the given one, else the unrestricted alphabet) both
    contains and is compatible with the initial stack symbol (the given
    one, else the alphabet's blank). The machine it returns is running
    in the initial state, on the empty tape, cursor at 0, not accepted,
    acceptance mode unset, with exactly the initial symbol on the
    stack. *)
Theorem X14_dpda_construction {K : AlphabetConstants} :
  forall (attribs : option DPDA.Attribs) (tf : TransitionFunction.t) (q0 : State.t),
    let sa := DPDA_chosenStackAlphabet attribs in
    let sym := DPDA_chosenInitialStackSymbol attribs in
    (Alphabet.contains sa sym && Alphabet.isCompatibleWith sa sym = true ->
     exists m0,
       DPDA._init attribs tf q0 = Normal m0
       /\ DPDA.stack m0 = Stack.push sym []
       /\ DPDA.initialStackSymbol m0 = sym
       /\ DPDA.stackAlphabet m0 = sa
       /\ DPDA.currentState m0 = q0
       /\ DPDA.transitionFunction m0 = tf
       /\ DPDA.tape m0 = EmptyString
       /\ DPDA.pointerPosition m0 = 0
       /\ DPDA.stepCount m0 = 0
       /\ DPDA.isHalted m0 = false
       /\ DPDA.isAccepted m0 = false
       /\ DPDA.acceptanceMode m0 = None)
    /\ (Alphabet.contains sa sym && Alphabet.isCompatibleWith sa sym = false ->
        exists e, DPDA._init attribs tf q0 = Throw e).
Proof.
  intros attribs tf q0.
  unfold DPDA._init, DPDA_chosenInitialStackSymbol, DPDA_chosenStackAlphabet.
  destruct attribs as [[al [sa|] [c|]]|]; cbn;
    repeat match goal with
           | |- context [Alphabet.contains ?a ?c] =>
               destruct (Alphabet.contains a c) eqn:?
           | |- context [Alphabet.isCompatibleWith ?a ?c] =>
               destruct (Alphabet.isCompatibleWith a c) eqn:?
           end;
    (split; intros Hc; try discriminate Hc);
    eval_method;
    first [ eexists; reflexivity
          | eexists; split; [reflexivity | cbn; auto 15] ].
Qed.

Section X14_example.
#[local] Existing Instance Samples.tilde.
Import Samples MoreSamples.

(** [Z] is a symbol of the stack alphabet [{Z,a}], [b] is not. *)
Lemma X14_witness :
  (exists m0, DPDA._init (Some dpdaAttribs) countingTF q0 = Normal m0
              /\ DPDA.stack m0 = ["Z"%string])
  /\ (exists e, DPDA._init (Some refusedSymbolAttribs) countingTF q0 = Throw e).
Proof.
  split.
  - destruct (proj1 (X14_dpda_construction (K := tilde) (Some dpdaAttribs)
                       countingTF q0) eq_refl) as (m0 & Hi & Hs & _).
    exists m0. split; [exact Hi | exact Hs].
  - exact (proj2 (X14_dpda_construction (K := tilde)
                    (Some refusedSymbolAttribs) countingTF q0) eq_refl).
Defined.
End X14_example.


Section ModeTruthful.
Context {K : AlphabetConstants}.

Lemma DPDA_step_modeTruthful (m : DPDA.t) :
  DPDA_flagsAgree m -> DPDA_modeTruthful m ->
  DPDA_modeTruthful (snd (DPDA.step m)).
Proof.
  unfold DPDA_flagsAgree, DPDA_modeTruthful.
  destruct m as [a tf q0 q n h sa md acc st sym tp p tr]; cbn.
  intros [Hinv Hsym] HJ.
  destruct h; [eval_method; exact HJ|].
  destruct acc; [specialize (Hinv eq_refl); discriminate|]. clear Hinv HJ.
  eval_method.
  repeat (case_test; simp_fast); intros Ha; try discriminate;
    first [ left; split; [assumption | reflexivity]
          | right; repeat split; first [assumption | reflexivity] ].
Qed.

Lemma DPDA_run_modeTruthful (n : nat) :
  forall m, DPDA_flagsAgree m -> DPDA_modeTruthful m ->
            DPDA_modeTruthful (snd (DPDA.run n m)).
Proof.
  induction n as [|i IH]; intros m Hf Hm; [exact Hm|].
  cbn [DPDA.run]. unfold bind.
  pose proof (DPDA_step_modeTruthful Hf Hm) as Hs.
  pose proof (DPDA_step_flagsAgree Hf) as Hf'.
  destruct (DPDA.step m) as [[[|]|e] m1]; cbn [fst snd] in *; auto.
Qed.

Lemma DPDA_perform_modeTruthful (m : DPDA.t) (o : Op) :
  DPDA_flagsAgree m -> DPDA_modeTruthful m ->
  DPDA_modeTruthful (DPDA_perform m o).
Proof.
  destruct o as [|input| |n]; cbn [DPDA_perform].
  - unfold DPDA_flagsAgree, DPDA_modeTruthful.
    destruct m as [a tf q0 q c h sa md acc st sym tp p tr]; cbn.
    intros [_ Hsym] _. eval_method. discriminate.
  - unfold DPDA_modeTruthful. intros _. eval_method. auto.
  - apply DPDA_step_modeTruthful.
  - apply DPDA_run_modeTruthful.
Qed.

End ModeTruthful.

(** X15. After construction and any sequence of [reset],
    [setInputString], [step] and [run] calls, an accepted DPDA carries
    the acceptance mode that explains it: by state exactly when its
    current state is accepting, and otherwise by stack, with the stack
    empty. *)
Theorem X15_dpda_acceptance_mode_is_truthful {K : AlphabetConstants} :
  forall attribs tf q0 m0 (ops : list Op),
    DPDA._init attribs tf q0 = Normal m0 ->
    let m := fold_left DPDA_perform ops m0 in
    DPDA.isAccepted m = true ->
    (State.getIsAccepting (DPDA.currentState m) = true
     /\ DPDA.acceptanceMode m = Some DPDA.ACCEPT_BY_STATE)
    \/ (State.getIsAccepting (DPDA.currentState m) = false
        /\ Stack.isEmpty (DPDA.stack m) = true
        /\ DPDA.acceptanceMode m = Some DPDA.ACCEPT_BY_STACK).
Proof.
  intros attribs tf q0 m0 ops Hinit.
  assert (H : forall m, DPDA_flagsAgree m -> DPDA_modeTruthful m ->
                        DPDA_modeTruthful (fold_left DPDA_perform ops m)).
  { induction ops as [|o ops IH]; intros m Hf Hm; [exact Hm|].
    cbn [fold_left]. apply IH.
    - apply DPDA_perform_flagsAgree, Hf.
    - apply DPDA_perform_modeTruthful; assumption. }
  apply H.
  - apply (DPDA_init_flagsAgree _ _ _ Hinit).
  - revert Hinit. unfold DPDA._init, DPDA_modeTruthful.
    destruct attribs as [[al [sa|] [c|]]|]; eval_method;
      repeat (case_test; simp_fast); intros Heq; try discriminate;
      injection Heq as <-; cbn; discriminate.
Qed.

Section X15_example.
#[local] Existing Instance Samples.tilde.
Import Samples MoreSamples.

(** After reading [ab] the sample DPDA is accepted in the non-accepting
    state [q0], by its empty stack. *)
Lemma X15_witness :
  let m := fold_left DPDA_perform sessionAB (dpdaNew countingTF) in
  (State.getIsAccepting (DPDA.currentState m) = true
   /\ DPDA.acceptanceMode m = Some DPDA.ACCEPT_BY_STATE)
  \/ (State.getIsAccepting (DPDA.currentState m) = false
      /\ Stack.isEmpty (DPDA.stack m) = true
      /\ DPDA.acceptanceMode m = Some DPDA.ACCEPT_BY_STACK).
Proof.
  assert (E : DPDA._init (Some dpdaAttribs) countingTF q0
              = Normal (dpdaNew countingTF)) by (vm_compute; reflexivity).
  assert (A : DPDA.isAccepted
                (fold_left DPDA_perform sessionAB (dpdaNew countingTF)) = true)
    by (vm_compute; reflexivity).
  exact (X15_dpda_acceptance_mode_is_truthful (K := tilde) (Some dpdaAttribs)
           countingTF q0 sessionAB E A).
Defined.
End X15_example.

(** ** Machines without epsilon transitions *)

Section EpsilonFree.
Context {K : AlphabetConstants}.

(** A DPDA step that reads a symbol and answers false has moved the
    cursor by one, and not onto the end of the tape unless the new state
    has an epsilon transition. *)
Lemma DPDA_step_advances (m : DPDA.t) :
  DPDA.isHalted m = false ->
  TransitionFunction.hasEpsilonTransition
    (DPDA.transitionFunction m) (DPDA.currentState m) = false ->
  fst (DPDA.step m) = Normal false ->
  DPDA.pointerPosition (snd (DPDA.step m)) = DPDA.pointerPosition m + 1
  /\ (TransitionFunction.hasEpsilonTransition (DPDA.transitionFunction m)
        (DPDA.currentState (snd (DPDA.step m))) = false ->
      DPDA.pointerPosition m + 1 < Tape.length (DPDA.tape m)).
Proof.
  destruct m as [a tf q0 q n h sa md acc st sym tp p tr]; cbn.
  intros Hh He. eval_method.
  repeat (case_inner; simp_fast); intros Hr; try discriminate;
    (split; [reflexivity|]); intros He';
    match goal with
    | H : _ && _ = false |- _ =>
        rewrite He' in H; cbn in H; rewrite Bool.andb_true_r in H;
        apply Nat.leb_gt in H; exact H
    end.
Qed.

End EpsilonFree.

(** X16. A DPDA whose transition function has no epsilon transition
    cannot run on: a run whose budget is positive and at least the
    number of symbols still to read never answers false, it halts the
    machine or throws. The DFA of [src/src/DFA.js], which does not test
    for halting after a transition, needs one call more. *)
Theorem X16_dpda_without_epsilon_halts {K : AlphabetConstants} :
  forall (n : nat) (m : DPDA.t),
    (forall s, TransitionFunction.hasEpsilonTransition
                 (DPDA.transitionFunction m) s = false) ->
    0 < n ->
    Tape.length (DPDA.tape m) - DPDA.pointerPosition m <= n ->
    match fst (DPDA.run n m) with
    | Normal r => r = true /\ DPDA.isHalted (snd (DPDA.run n m)) = true
    | Throw _ => DPDA.isHalted (snd (DPDA.run n m)) = false
    end.
Proof.
  induction n as [|i IH]; intros m Hno Hpos Hn; [lia|].
  cbn [DPDA.run]. unfold bind, ret.
  destruct (DPDA.isHalted m) eqn:Hh.
  - rewrite DPDA_step_halted by exact Hh. cbn [fst snd]. auto.
  - pose proof (@DPDA_step_advances _ m Hh (Hno _)) as Hadv.
    pose proof (DPDA_step_answer m) as Ha.
    destruct (DPDA_step_frame m) as (Htf & _ & _ & _ & _ & Htp & _).
    destruct (DPDA.step m) as [[[|]|e] m1]; cbn [fst snd] in *.
    + split; [reflexivity | symmetry; exact Ha].
    + destruct (Hadv eq_refl) as (Hp & Hlt).
      specialize (Hlt (Hno _)).
      apply IH.
      * intros s. rewrite Htf. apply Hno.
      * lia.
      * rewrite Htp, Hp. lia.
    + exact Ha.
Qed.

Section X16_example.
#[local] Existing Instance Samples.tilde.
Import Samples MoreSamples.

(** Two symbols to read, two calls allowed: the DPDA halts. *)
Lemma X16_witness :
  match fst (DPDA.run 2 dpdaCountingAB) with
  | Normal r => r = true /\ DPDA.isHalted (snd (DPDA.run 2 dpdaCountingAB)) = true
  | Throw _ => DPDA.isHalted (snd (DPDA.run 2 dpdaCountingAB)) = false
  end.
Proof.
  assert (Hn : Tape.length (DPDA.tape dpdaCountingAB)
               - DPDA.pointerPosition dpdaCountingAB <= 2) by (vm_compute; lia).
  assert (Hp : 0 < 2) by lia.
  exact (X16_dpda_without_epsilon_halts (K := tilde) (n := 2)
           dpdaCountingAB countingTF_no_epsilon Hp Hn).
Defined.
End X16_example.


(** X17. The two DFA engines agree on machines without epsilon: started
    in the same state with the same cursor on the same tape, with no
    epsilon transition in the transition function and no epsilon symbol
    on the tape, runs with a budget above the number of symbols still to
    read halt both and leave the same accepted flag. *)
Theorem X17_dfa_engines_agree_without_epsilon {K : AlphabetConstants} :
  forall (n : nat) (m1 : DFA.t) (m2 : EpsilonDFA.t),
    DFA.transitionFunction m1 = EpsilonDFA.transitionFunction m2 ->
    DFA.currentState m1 = EpsilonDFA.currentState m2 ->
    DFA.tape m1 = EpsilonDFA.tape m2 ->
    DFA.pointerPosition m1 = EpsilonDFA.pointerPosition m2 ->
    DFA.isHalted m1 = false ->
    EpsilonDFA.isHalted m2 = false ->
    (forall s, TransitionFunction.hasEpsilonTransition
                 (EpsilonDFA.transitionFunction m2) s = false) ->
    (forall i, i < Tape.length (EpsilonDFA.tape m2) ->
               Tape.charAt (EpsilonDFA.tape m2) i <> EPSILON_STRING) ->
    Tape.length (EpsilonDFA.tape m2) - EpsilonDFA.pointerPosition m2 < n ->
    fst (DFA.run n m1) = Normal true
    /\ fst (EpsilonDFA.run n m2) = Normal true
    /\ DFA.isAccepted (snd (DFA.run n m1))
       = EpsilonDFA.isAccepted (snd (EpsilonDFA.run n m2)).
Proof.
  intros n m1 m2 Htf Hq Htp Hp Hh1 Hh2 Hno Htape Hn.
  assert (Hn1 : Tape.length (DFA.tape m1) - DFA.pointerPosition m1 < n)
    by (rewrite Htp, Hp; exact Hn).
  destruct (@DFA_run_classical _ n m1 Hh1 Hn1) as (m1' & R1 & _ & A1).
  destruct (@EpsilonDFA_run_classical _ n m2 Hno Htape Hh2 Hn)
    as (m2' & R2 & _ & A2).
  rewrite R1, R2. cbn [fst snd].
  rewrite A1, A2, Htf, Hq, Htp, Hp. auto.
Qed.

Section X17_example.
#[local] Existing Instance Samples.tilde.
Import Samples MoreSamples.

(** Both DFAs on [011] with four calls allowed. *)
Lemma X17_witness :
  fst (DFA.run 4 dfaBinary011) = Normal true
  /\ fst (EpsilonDFA.run 4 edfaBinary011) = Normal true
  /\ DFA.isAccepted (snd (DFA.run 4 dfaBinary011))
     = EpsilonDFA.isAccepted (snd (EpsilonDFA.run 4 edfaBinary011)).
Proof.
  assert (Hn : Tape.length (EpsilonDFA.tape edfaBinary011)
               - EpsilonDFA.pointerPosition edfaBinary011 < 4)
    by (vm_compute; lia).
  exact (X17_dfa_engines_agree_without_epsilon (K := tilde) (n := 4)
           dfaBinary011 edfaBinary011 eq_refl eq_refl eq_refl eq_refl
           eq_refl eq_refl binaryTF_no_epsilon binary011_no_epsilon_symbol Hn).
Defined.
End X17_example.

(** ** A machine's past does not show *)

Section History.
Context {K : AlphabetConstants}.

Ltac same_events :=
  eexists;
  (split;
   [ first [ rewrite <- ?app_assoc; reflexivity
           | symmetry; apply app_nil_r ]
   | first [ rewrite <- ?app_assoc; reflexivity
           | symmetry; apply app_nil_r ] ]).

Lemma DFA_step_history (m1 m2 : DFA.t) :
  DFA_withoutTrace m1 = DFA_withoutTrace m2 ->
  fst (DFA.step m1) = fst (DFA.step m2)
  /\ DFA_withoutTrace (snd (DFA.step m1)) = DFA_withoutTrace (snd (DFA.step m2))
  /\ exists evs, DFA.trace (snd (DFA.step m1)) = DFA.trace m1 ++ evs
                 /\ DFA.trace (snd (DFA.step m2)) = DFA.trace m2 ++ evs.
Proof.
  destruct m1 as [a tf q0 q n h acc tp p tr1], m2 as [a' tf' q0' q' n' h' acc' tp' p' tr2].
  unfold DFA_withoutTrace; cbn. intros Heq.
  injection Heq as <- <- <- <- <- <- <- <- <-.
  eval_method. repeat (case_inner; simp_fast);
    (split; [reflexivity | split; [reflexivity | same_events]]).
Qed.

Lemma EpsilonDFA_step_history (m1 m2 : EpsilonDFA.t) :
  EpsilonDFA_withoutTrace m1 = EpsilonDFA_withoutTrace m2 ->
  fst (EpsilonDFA.step m1) = fst (EpsilonDFA.step m2)
  /\ EpsilonDFA_withoutTrace (snd (EpsilonDFA.step m1))
     = EpsilonDFA_withoutTrace (snd (EpsilonDFA.step m2))
  /\ exists evs,
      EpsilonDFA.trace (snd (EpsilonDFA.step m1)) = EpsilonDFA.trace m1 ++ evs
      /\ EpsilonDFA.trace (snd (EpsilonDFA.step m2)) = EpsilonDFA.trace m2 ++ evs.
Proof.
  destruct m1 as [a tf q0 q n h al acc tp p tr1],
           m2 as [a' tf' q0' q' n' h' al' acc' tp' p' tr2].
  unfold EpsilonDFA_withoutTrace; cbn. intros Heq.
  injection Heq as <- <- <- <- <- <- <- <- <- <-.
  eval_method. repeat (case_inner; simp_fast);
    (split; [reflexivity | split; [reflexivity | same_events]]).
Qed.

Lemma DPDA_step_history (m1 m2 : DPDA.t) :
  DPDA_withoutHistory m1 = DPDA_withoutHistory m2 ->
  fst (DPDA.step m1) = fst (DPDA.step m2)
  /\ DPDA_withoutHistory (snd (DPDA.step m1))
     = DPDA_withoutHistory (snd (DPDA.step m2))
  /\ exists evs, DPDA.trace (snd (DPDA.step m1)) = DPDA.trace m1 ++ evs
                 /\ DPDA.trace (snd (DPDA.step m2)) = DPDA.trace m2 ++ evs.
Proof.
  destruct m1 as [a tf q0 q n h sa md1 acc st sym tp p tr1],
           m2 as [a' tf' q0' q' n' h' sa' md2 acc' st' sym' tp' p' tr2].
  unfold DPDA_withoutHistory; cbn. intros Heq.
  injection Heq as <- <- <- <- <- <- <- <- <- <- <- <-.
  eval_method. repeat (case_inner; simp_fast);
    (split; [reflexivity | split; [reflexivity | same_events]]).
Qed.

Lemma DFA_run_history (n : nat) :
  forall m1 m2,
    DFA_withoutTrace m1 = DFA_withoutTrace m2 ->
    fst (DFA.run n m1) = fst (DFA.run n m2)
    /\ DFA_withoutTrace (snd (DFA.run n m1)) = DFA_withoutTrace (snd (DFA.run n m2))
    /\ exists evs, DFA.trace (snd (DFA.run n m1)) = DFA.trace m1 ++ evs
                   /\ DFA.trace (snd (DFA.run n m2)) = DFA.trace m2 ++ evs.
Proof.
  induction n as [|i IH]; intros m1 m2 Heq.
  - cbn. repeat split; [assumption|]. exists []. now rewrite !app_nil_r.
  - cbn [DFA.run]. unfold bind.
    destruct (DFA_step_history Heq) as (Ha & Hm & evs & E1 & E2).
    destruct (DFA.step m1) as [r1 s1], (DFA.step m2) as [r2 s2];
      cbn [fst snd] in *. subst r2.
    destruct r1 as [[|]|e]; cbn [fst snd];
      try (repeat split; [assumption|]; exists evs; auto).
    destruct (IH s1 s2 Hm) as (Ha' & Hm' & evs' & E1' & E2').
    repeat split; [assumption | assumption |].
    exists (evs ++ evs'). rewrite E1', E2', E1, E2, !app_assoc. auto.
Qed.

Lemma EpsilonDFA_run_history (n : nat) :
  forall m1 m2,
    EpsilonDFA_withoutTrace m1 = EpsilonDFA_withoutTrace m2 ->
    fst (EpsilonDFA.run n m1) = fst (EpsilonDFA.run n m2)
    /\ EpsilonDFA_withoutTrace (snd (EpsilonDFA.run n m1))
       = EpsilonDFA_withoutTrace (snd (EpsilonDFA.run n m2))
    /\ exists evs,
        EpsilonDFA.trace (snd (EpsilonDFA.run n m1)) = EpsilonDFA.trace m1 ++ evs
        /\ EpsilonDFA.trace (snd (EpsilonDFA.run n m2))
           = EpsilonDFA.trace m2 ++ evs.
Proof.
  induction n as [|i IH]; intros m1 m2 Heq.
  - cbn. repeat split; [assumption|]. exists []. now rewrite !app_nil_r.
  - cbn [EpsilonDFA.run]. unfold bind.
    destruct (EpsilonDFA_step_history Heq) as (Ha & Hm & evs & E1 & E2).
    destruct (EpsilonDFA.step m1) as [r1 s1], (EpsilonDFA.step m2) as [r2 s2];
      cbn [fst snd] in *. subst r2.
    destruct r1 as [[|]|e]; cbn [fst snd];
      try (repeat split; [assumption|]; exists evs; auto).
    destruct (IH s1 s2 Hm) as (Ha' & Hm' & evs' & E1' & E2').
    repeat split; [assumption | assumption |].
    exists (evs ++ evs'). rewrite E1', E2', E1, E2, !app_assoc. auto.
Qed.

Lemma DPDA_run_history (n : nat) :
  forall m1 m2,
    DPDA_withoutHistory m1 = DPDA_withoutHistory m2 ->
    fst (DPDA.run n m1) = fst (DPDA.run n m2)
    /\ DPDA_withoutHistory (snd (DPDA.run n m1))
       = DPDA_withoutHistory (snd (DPDA.run n m2))
    /\ exists evs, DPDA.trace (snd (DPDA.run n m1)) = DPDA.trace m1 ++ evs
                   /\ DPDA.trace (snd (DPDA.run n m2)) = DPDA.trace m2 ++ evs.
Proof.
  induction n as [|i IH]; intros m1 m2 Heq.
  - cbn. repeat split; [assumption|]. exists []. now rewrite !app_nil_r.
  - cbn [DPDA.run]. unfold bind.
    destruct (DPDA_step_history Heq) as (Ha & Hm & evs & E1 & E2).
    destruct (DPDA.step m1) as [r1 s1], (DPDA.step m2) as [r2 s2];
      cbn [fst snd] in *. subst r2.
    destruct r1 as [[|]|e]; cbn [fst snd];
      try (repeat split; [assumption|]; exists evs; auto).
    destruct (IH s1 s2 Hm) as (Ha' & Hm' & evs' & E1' & E2').
    repeat split; [assumption | assumption |].
    exists (evs ++ evs'). rewrite E1', E2', E1, E2, !app_assoc. auto.
Qed.

(** What the constructor returns when it returns. *)
Lemma DPDA_init_shape attribs tf q0 m0 :
  DPDA._init attribs tf q0 = Normal m0 ->
  m0 = DPDA.mk (DPDA.alphabet m0) tf q0 q0 0 false (DPDA.stackAlphabet m0) None
               false (Stack.push (DPDA.initialStackSymbol m0) [])
               (DPDA.initialStackSymbol m0) EmptyString 0 (DPDA.trace m0)
  /\ Alphabet.isCompatibleWith (DPDA.stackAlphabet m0)
                               (DPDA.initialStackSymbol m0) = true.
Proof.
  unfold DPDA._init.
  destruct attribs as [[al [sa|] [c|]]|]; eval_method;
    repeat (case_test; simp_fast); intros Heq; try discriminate;
    injection Heq as <-; cbn; (split; [reflexivity|]);
    first
      [ reflexivity
      | match goal with
        | H : negb _ = false |- _ => apply Bool.negb_false_iff in H; exact H
        end ].
Qed.

End History.

(** X18. A machine that has been used, then [reset] and given an input,
    behaves as a newly constructed machine given that input: a run of
    any budget returns the same answer, fires the same callbacks in the
    same order, and leaves every getter with the same value (for the
    DPDA every getter but the acceptance mode, which [reset] does not
    clear). *)
Theorem X18_reset_machine_runs_like_new {K : AlphabetConstants} :
  (forall attribs tf q0 (ops : list Op) (w : string) (n : nat),
     let fresh := snd (DFA.setInputString w (DFA._init attribs tf q0)) in
     let used :=
       snd (DFA.setInputString w
              (snd (DFA.reset (fold_left DFA_perform ops
                                 (DFA._init attribs tf q0))))) in
     fst (DFA.run n used) = fst (DFA.run n fresh)
     /\ DFA_withoutTrace (snd (DFA.run n used))
        = DFA_withoutTrace (snd (DFA.run n fresh))
     /\ exists evs,
         DFA.trace (snd (DFA.run n used)) = DFA.trace used ++ evs
         /\ DFA.trace (snd (DFA.run n fresh)) = DFA.trace fresh ++ evs)
  /\ (forall attribs tf q0 (ops : list Op) (w : string) (n : nat),
     let fresh :=
       snd (EpsilonDFA.setInputString w (EpsilonDFA._init attribs tf q0)) in
     let used :=
       snd (EpsilonDFA.setInputString w
              (snd (EpsilonDFA.reset
                      (fold_left EpsilonDFA_perform ops
                         (EpsilonDFA._init attribs tf q0))))) in
     fst (EpsilonDFA.run n used) = fst (EpsilonDFA.run n fresh)
     /\ EpsilonDFA_withoutTrace (snd (EpsilonDFA.run n used))
        = EpsilonDFA_withoutTrace (snd (EpsilonDFA.run n fresh))
     /\ exists evs,
         EpsilonDFA.trace (snd (EpsilonDFA.run n used))
         = EpsilonDFA.trace used ++ evs
         /\ EpsilonDFA.trace (snd (EpsilonDFA.run n fresh))
            = EpsilonDFA.trace fresh ++ evs)
  /\ (forall attribs tf q0 m0 (ops : list Op) (w : string) (n : nat),
     DPDA._init attribs tf q0 = Normal m0 ->
     let fresh := snd (DPDA.setInputString w m0) in
     let used :=
       snd (DPDA.setInputString w
              (snd (DPDA.reset (fold_left DPDA_perform ops m0)))) in
     fst (DPDA.run n used) = fst (DPDA.run n fresh)
     /\ DPDA_withoutHistory (snd (DPDA.run n used))
        = DPDA_withoutHistory (snd (DPDA.run n fresh))
     /\ exists evs,
         DPDA.trace (snd (DPDA.run n used)) = DPDA.trace used ++ evs
         /\ DPDA.trace (snd (DPDA.run n fresh)) = DPDA.trace fresh ++ evs).
Proof.
  split; [| split].
  - intros attribs tf q0 ops w n fresh used.
    apply DFA_run_history. subst fresh used.
    destruct (DFA_ops_frame ops (DFA._init attribs tf q0)) as (H1 & H2 & H3).
    destruct (fold_left DFA_perform ops (DFA._init attribs tf q0))
      as [a tf' q0' q c h acc tp p tr].
    cbn in H1, H2, H3. subst. cbn. reflexivity.
  - intros attribs tf q0 ops w n fresh used.
    apply EpsilonDFA_run_history. subst fresh used.
    destruct (EpsilonDFA_ops_frame ops (EpsilonDFA._init attribs tf q0))
      as (H1 & H2 & H3 & H4).
    destruct (fold_left EpsilonDFA_perform ops (EpsilonDFA._init attribs tf q0))
      as [a tf' q0' q c h al acc tp p tr].
    cbn in H1, H2, H3, H4. subst. cbn. reflexivity.
  - intros attribs tf q0 m0 ops w n Hinit fresh used.
    apply DPDA_run_history. subst fresh used.
    destruct (DPDA_init_shape _ _ _ Hinit) as (Hm0 & Hc).
    destruct (DPDA_ops_frame ops m0) as (H1 & H2 & H3 & H4 & H5).
    destruct (fold_left DPDA_perform ops m0)
      as [a' tf' q0' q' c' h' sa' md' acc' st' sym' tp' p' tr'].
    destruct m0 as [a tf0 q00 q c h sa md acc st sym tp p tr].
    cbn in Hm0, Hc, H1, H2, H3, H4, H5. subst a' tf' q0' sa' sym'.
    injection Hm0 as -> -> -> -> -> -> -> -> -> ->.
    eval_method. reflexivity.
Qed.

Section X18_example.
#[local] Existing Instance Samples.tilde.
Import Samples MoreSamples.

(** The sample DPDA after a session on [ab], reset and given [ab] again,
    answers as a new one. *)
Lemma X18_witness :
  let fresh := snd (DPDA.setInputString "ab" (dpdaNew countingTF)) in
  let used :=
    snd (DPDA.setInputString "ab"
           (snd (DPDA.reset
                   (fold_left DPDA_perform sessionAB (dpdaNew countingTF))))) in
  fst (DPDA.run 5 used) = fst (DPDA.run 5 fresh)
  /\ DPDA_withoutHistory (snd (DPDA.run 5 used))
     = DPDA_withoutHistory (snd (DPDA.run 5 fresh)).
Proof.
  destruct (X18_reset_machine_runs_like_new (K := tilde)) as (_ & _ & P).
  assert (E : DPDA._init (Some dpdaAttribs) countingTF q0
              = Normal (dpdaNew countingTF)) by (vm_compute; reflexivity).
  destruct (P (Some dpdaAttribs) countingTF q0 (dpdaNew countingTF) sessionAB
              "ab"%string 5 E) as (Ha & Hm & _).
  split; [exact Ha | exact Hm].
Defined.
End X18_example.
